(** * Smart route backend: the pathfinding core

    A shallow embedding of [app/services/graph_service.py],
    [app/services/route_enhancer.py] and [app/services/route_optimizer.py],
    with the records of [app/models], the constants of [app/config.py] and
    the handlers of [POST /route] and [GET /stops/nearby] in
    [app/api/routes.py].

    Conventions of the embedding:
    - a Python [int] is a [Z]; a Python [float] is a rational [Q] (exact
      arithmetic, rounding is not modelled); a value that is a number or
      [float('inf')] is a [num];
    - [stops_cache] is an insertion-ordered dict whose only writer,
      [load_graph_data], files each stop under its own [stop_id]: the list
      of its stops in insertion order, looked up by [stop_id];
      [routes_cache] and [best_costs] are only looked up by key: [gmap]s;
    - a call either returns, raises, or (for the fuelled loops) runs out of
      fuel: an [outcome]. *)

From Stdlib Require Import QArith Qround Qabs OrderedTypeEx Lqa.
From stdpp Require Import gmap strings list fin_maps pretty sorting.

Local Open Scope Z_scope.

(** ** Python values *)

Inductive exn := KeyError | ValidationError | OverflowError.

Inductive outcome (A : Type) :=
| Returned (a : A)
| Raised (e : exn)
| OutOfFuel.
Arguments Returned {A} a.
Arguments Raised {A} e.
Arguments OutOfFuel {A}.

(** A number as the code compares them: an [int], a [float] or
    [float('inf')]. *)
Inductive num := Int (z : Z) | Float (q : Q) | Inf.

Definition Qltb (a b : Q) : bool := negb (Qle_bool b a).

Definition num_Q (a : num) : option Q :=
  match a with
  | Int z => Some (inject_Z z)
  | Float q => Some q
  | Inf => None
  end.

(** [a < b] *)
Definition num_ltb (a b : num) : bool :=
  match a, b with
  | Int x, Int y => x <? y
  | Inf, _ => false
  | _, Inf => true
  | _, _ =>
      match num_Q a, num_Q b with
      | Some x, Some y => Qltb x y
      | _, _ => false
      end
  end.

(** [a == b] *)
Definition num_eqb (a b : num) : bool :=
  match a, b with
  | Int x, Int y => x =? y
  | Inf, Inf => true
  | Inf, _ | _, Inf => false
  | _, _ =>
      match num_Q a, num_Q b with
      | Some x, Some y => Qeq_bool x y
      | _, _ => false
      end
  end.

(** [a + b] *)
Definition num_add (a b : num) : num :=
  match a, b with
  | Int x, Int y => Int (x + y)
  | Inf, _ | _, Inf => Inf
  | Int x, Float y => Float (inject_Z x + y)
  | Float x, Int y => Float (x + inject_Z y)
  | Float x, Float y => Float (x + y)
  end.

(** [int(x)] of a float: truncation toward zero. *)
Definition py_int (x : Q) : Z := Z.quot (Qnum x) (Z.pos (Qden x)).

(** [s in t] for strings. *)
Fixpoint contains (s t : string) : bool :=
  String.prefix s t ||
  match t with
  | EmptyString => false
  | String _ t' => contains s t'
  end.

(** [l[:n]] *)
Definition slice_to {A} (l : list A) (n : Z) : list A :=
  if 0 <=? n then take (Z.to_nat n) l
  else take (length l - Z.to_nat (- n))%nat l.

(** ** app/config.py *)

Module settings.
Definition WALKING_SPEED_KMH : Q := 5.
Definition MAX_WALKING_DISTANCE_KM : Q := 1 # 2.
Definition MAX_SEARCH_RADIUS_KM : Q := 50.
Definition BUS_BOARDING_TIME : Z := 2.
Definition METRO_BOARDING_TIME : Z := 1.
Definition TRANSFER_WALKING_TIME : Z := 3.
End settings.

(** ** app/models *)

(** [Location.coordinates] is [[longitude, latitude]]. *)
Record Location := { longitude : Q; latitude : Q }.

Record Connection := {
  to_stop_id : string;
  c_route_id : string;
  c_time : Z;
  c_cost : Q;
  sequence : Z
}.

Record Stop := {
  stop_id : string;
  name : string;
  location : Location;
  connections : list Connection
}.

Record WalkingDirection := {
  instruction : string;
  distance_meters : Z;
  duration_seconds : Z
}.

Record RouteSegment := {
  route_id : string;
  route_name : string;
  route_type : string;
  from_stop : string;
  to_stop : string;
  from_stop_name : string;
  to_stop_name : string;
  time : Z;
  cost : Q;
  sequence_start : Z;
  sequence_end : Z;
  boarding_time : Z;
  transfer_time : Z;
  walking_directions : list WalkingDirection
}.

(** The time fields are declared [int]; [find_optimal_route] assigns them
    after construction, from walking times that may be [float('inf')]. *)
Record OptimizedRoute := {
  path : list string;
  segments : list RouteSegment;
  total_time : num;
  total_cost : Q;
  transfers : Z;
  walking_time : num;
  total_distance_km : Q;
  start_walking_time : num;
  end_walking_time : num;
  route_summary : string;
  alternative_routes_count : Z;
  co2_saved_kg : Q;
  calories_burned : Z
}.

(** A route document of the [routes] collection: a dict read with
    [.get(key, default)]. *)
Record RouteDoc := {
  d_route_id : string;
  d_route_long_name : option string;
  d_route_type : option string;
  d_stops : list string
}.

(** ** The graph store *)

Record GraphService := {
  stops_cache : list Stop;
  routes_cache : gmap string RouteDoc
}.

(** [self.stops_cache.get(k)] *)
Fixpoint stops_get (cache : list Stop) (k : string) : option Stop :=
  match cache with
  | [] => None
  | s :: rest => if String.eqb (stop_id s) k then Some s else stops_get rest k
  end.

Definition in_stops (gs : GraphService) (k : string) : bool :=
  match stops_get (stops_cache gs) k with Some _ => true | None => false end.

(** The backing store when it answers: the documents of [db.stops] (as the
    [Stop] records they validate to) and of [db.routes], in natural order.
    A read that raises because the store cannot be reached has no outcome
    here: what is stated of a function that reads the store is stated for a
    store that answers with these documents. *)
Record Database := { db_stops : list Stop; db_routes : list RouteDoc }.

Definition get_mode_specific_penalties (gs : GraphService) (rid : string) : Z * Z :=
  let route_type :=
    match routes_cache gs !! rid with
    | Some route_info => default "bus" (d_route_type route_info)
    | None => "bus"
    end in
  if String.eqb route_type "metro"
  then (settings.METRO_BOARDING_TIME, settings.TRANSFER_WALKING_TIME)
  else (settings.BUS_BOARDING_TIME, settings.TRANSFER_WALKING_TIME).

(** ** The priority queue

    [heapq] keeps the list as a binary heap of tuples
    [(cost, counter, stop, path, segments, transfers, time, cost)];
    [heappop] returns the least tuple. Tuples are compared on the cost, then
    on the counter, which is unique: the pop order does not depend on the
    layout of the heap, and the queue is kept here as the list of its
    entries. *)

Record entry {Seg : Type} := {
  e_priority : num;
  e_counter : nat;
  e_stop : string;
  e_path : list string;
  e_segments : list Seg;
  e_transfers : Z;
  e_time : Z;
  e_cost : Q
}.
Arguments entry Seg : clear implicits.

Definition entry_ltb {Seg} (a b : entry Seg) : bool :=
  if num_eqb (e_priority a) (e_priority b)
  then (e_counter a <? e_counter b)%nat
  else num_ltb (e_priority a) (e_priority b).

Definition heappush {Seg} (pq : list (entry Seg)) (e : entry Seg)
    : list (entry Seg) := e :: pq.

Fixpoint heappop {Seg} (pq : list (entry Seg))
    : option (entry Seg * list (entry Seg)) :=
  match pq with
  | [] => None
  | x :: xs =>
      match heappop xs with
      | None => Some (x, [])
      | Some (m, rest) =>
          if entry_ltb m x then Some (m, x :: rest) else Some (x, xs)
      end
  end.

(** ** The general search: [_dijkstra_pathfinding] *)

Record search_state := {
  pq : list (entry RouteSegment);
  best_costs : gmap string num;
  counter : nat
}.

(** The boarding penalty of a connection taken after a segment of route
    [prev] ([None] for the first segment), and whether it is a transfer. *)
Definition boarding (gs : GraphService) (prev : option string)
    (connection : Connection) : Z * bool :=
  match prev with
  | None => ((get_mode_specific_penalties gs (c_route_id connection)).1, false)
  | Some r =>
      if negb (String.eqb r (c_route_id connection))
      then
        let '(boarding_time, transfer_time) :=
          get_mode_specific_penalties gs (c_route_id connection) in
        (boarding_time + transfer_time, true)
      else (0, false)
  end.

Definition priority_of (optimize_for : string)
    (new_time : Z) (new_cost : Q) (new_transfers : Z) : num :=
  if String.eqb optimize_for "time" then Int new_time
  else if String.eqb optimize_for "cost" then Float new_cost
  else Int (new_transfers * 100 + new_time).

Definition route_info_name (info : option RouteDoc) (rid : string) : string :=
  match info with
  | Some d => default ("Route " +:+ rid) (d_route_long_name d)
  | None => "Route " +:+ rid
  end.

Definition route_info_type (info : option RouteDoc) (dflt : string) : string :=
  match info with
  | Some d => default dflt (d_route_type d)
  | None => dflt
  end.

(** The body of [for connection in current_stop_obj.connections]. *)
Fixpoint explore (gs : GraphService) (optimize_for : string)
    (cur : entry RouteSegment)
    (current_stop_obj : Stop) (conns : list Connection) (st : search_state)
    : outcome search_state :=
  match conns with
  | [] => Returned st
  | connection :: rest =>
      let next_stop := to_stop_id connection in
      if bool_decide (next_stop ∈ e_path cur)
      then explore gs optimize_for cur current_stop_obj rest st
      else
        let segment_time := c_time connection in
        let segment_cost := c_cost connection in
        let '(boarding_penalty, is_transfer) :=
          boarding gs (route_id <$> last (e_segments cur)) connection in
        let new_time := e_time cur + segment_time + boarding_penalty in
        let new_cost := (e_cost cur + segment_cost)%Q in
        let new_transfers := e_transfers cur + (if is_transfer then 1 else 0) in
        let priority := priority_of optimize_for new_time new_cost new_transfers in
        match stops_get (stops_cache gs) next_stop with
        | None => Raised KeyError
        | Some next_stop_obj =>
            let route_info := routes_cache gs !! c_route_id connection in
            let segment := {|
              route_id := c_route_id connection;
              route_name := route_info_name route_info (c_route_id connection);
              route_type := route_info_type route_info "bus";
              from_stop := e_stop cur;
              to_stop := next_stop;
              from_stop_name := name current_stop_obj;
              to_stop_name := name next_stop_obj;
              time := segment_time;
              cost := segment_cost;
              sequence_start := sequence connection;
              sequence_end := sequence connection + 1;
              boarding_time := boarding_penalty;
              transfer_time := 0;
              walking_directions := []
            |} in
            let new_path := e_path cur ++ [next_stop] in
            let new_segments := e_segments cur ++ [segment] in
            let better :=
              match best_costs st !! next_stop with
              | None => true
              | Some b => num_ltb priority b
              end in
            let st' :=
              if better
              then {|
                pq := heappush (pq st) {|
                  e_priority := priority; e_counter := counter st;
                  e_stop := next_stop; e_path := new_path;
                  e_segments := new_segments; e_transfers := new_transfers;
                  e_time := new_time; e_cost := new_cost |};
                best_costs := <[next_stop := priority]> (best_costs st);
                counter := S (counter st)
              |}
              else st in
            explore gs optimize_for cur current_stop_obj rest st'
        end
  end.

Definition found_route (cur : entry RouteSegment) : OptimizedRoute := {|
  path := e_path cur;
  segments := e_segments cur;
  total_time := Int (e_time cur);
  total_cost := e_cost cur;
  transfers := e_transfers cur;
  walking_time := Int 0;
  total_distance_km := 0;
  start_walking_time := Int 0;
  end_walking_time := Int 0;
  route_summary :=
    "Route with " +:+ pretty (length (e_segments cur)) +:+ " segments, "
    +:+ pretty (e_transfers cur) +:+ " transfers";
  alternative_routes_count := 0;
  co2_saved_kg := inject_Z (e_time cur) * (1 # 10);
  calories_burned := 0
|}.

(** [while pq: ...], one iteration per unit of fuel. *)
Fixpoint dijkstra_loop (gs : GraphService) (end_stop_id optimize_for : string)
    (max_transfers : Z) (fuel : nat) (st : search_state)
    : outcome (option OptimizedRoute) :=
  match fuel with
  | O => OutOfFuel
  | S fuel' =>
      match heappop (pq st) with
      | None => Returned None
      | Some (cur, pq') =>
          let st' := {| pq := pq'; best_costs := best_costs st;
                        counter := counter st |} in
          let stale :=
            match best_costs st !! e_stop cur with
            | Some b => num_ltb b (e_priority cur)
            | None => false
            end in
          if stale
          then dijkstra_loop gs end_stop_id optimize_for max_transfers fuel' st'
          else if String.eqb (e_stop cur) end_stop_id
          then Returned (Some (found_route cur))
          else if max_transfers <=? e_transfers cur
          then dijkstra_loop gs end_stop_id optimize_for max_transfers fuel' st'
          else
            match stops_get (stops_cache gs) (e_stop cur) with
            | None =>
                dijkstra_loop gs end_stop_id optimize_for max_transfers fuel' st'
            | Some current_stop_obj =>
                match explore gs optimize_for cur current_stop_obj
                        (connections current_stop_obj) st' with
                | Returned st'' =>
                    dijkstra_loop gs end_stop_id optimize_for max_transfers
                      fuel' st''
                | Raised e => Raised e
                | OutOfFuel => OutOfFuel
                end
            end
      end
  end.

Definition initial_state (start_stop_id : string) : search_state := {|
  pq := [ {| e_priority := Int 0; e_counter := 0%nat; e_stop := start_stop_id;
             e_path := [start_stop_id]; e_segments := []; e_transfers := 0;
             e_time := 0; e_cost := 0 |} ];
  best_costs := {[ start_stop_id := Int 0 ]};
  counter := 1%nat
|}.

(** The largest number of connections leaving one stop. *)
Definition max_degree (gs : GraphService) : nat :=
  foldr Nat.max 0%nat ((λ s, length (connections s)) <$> stops_cache gs).

(** A number of iterations the loop cannot exceed (see
    [dijkstra_loop_terminates]): every queue entry carries a path without
    repetition, and an entry is replaced by at most [max_degree] longer
    ones. *)
Definition search_fuel (gs : GraphService) : nat :=
  S (S (max_degree gs) ^ length (stops_cache gs)).

(** [_dijkstra_pathfinding] with the loop given [fuel] iterations. *)
Definition dijkstra_pathfinding_fuel (fuel : nat) (gs : GraphService)
    (start_stop_id end_stop_id optimize_for : string) (max_transfers : Z)
    : outcome (option OptimizedRoute) :=
  dijkstra_loop gs end_stop_id optimize_for max_transfers fuel
    (initial_state start_stop_id).

Definition _dijkstra_pathfinding (gs : GraphService)
    (start_stop_id end_stop_id optimize_for : string) (max_transfers : Z)
    : outcome (option OptimizedRoute) :=
  dijkstra_pathfinding_fuel (search_fuel gs) gs start_stop_id end_stop_id
    optimize_for max_transfers.

(** The same loop, also recording the stops it pops and does not skip as
    stale: the pops that are authoritative for a stop. *)
Fixpoint dijkstra_loop_expanded (gs : GraphService)
    (end_stop_id optimize_for : string) (max_transfers : Z) (fuel : nat)
    (st : search_state) (expanded : gset string)
    : outcome (option OptimizedRoute) * gset string :=
  match fuel with
  | O => (OutOfFuel, expanded)
  | S fuel' =>
      match heappop (pq st) with
      | None => (Returned None, expanded)
      | Some (cur, pq') =>
          let st' := {| pq := pq'; best_costs := best_costs st;
                        counter := counter st |} in
          let stale :=
            match best_costs st !! e_stop cur with
            | Some b => num_ltb b (e_priority cur)
            | None => false
            end in
          if stale
          then dijkstra_loop_expanded gs end_stop_id optimize_for max_transfers
                 fuel' st' expanded
          else
            let expanded := {[ e_stop cur ]} ∪ expanded in
            if String.eqb (e_stop cur) end_stop_id
            then (Returned (Some (found_route cur)), expanded)
            else if max_transfers <=? e_transfers cur
            then dijkstra_loop_expanded gs end_stop_id optimize_for
                   max_transfers fuel' st' expanded
            else
              match stops_get (stops_cache gs) (e_stop cur) with
              | None =>
                  dijkstra_loop_expanded gs end_stop_id optimize_for
                    max_transfers fuel' st' expanded
              | Some current_stop_obj =>
                  match explore gs optimize_for cur current_stop_obj
                          (connections current_stop_obj) st' with
                  | Returned st'' =>
                      dijkstra_loop_expanded gs end_stop_id optimize_for
                        max_transfers fuel' st'' expanded
                  | Raised e => (Raised e, expanded)
                  | OutOfFuel => (OutOfFuel, expanded)
                  end
              end
      end
  end.

Definition dijkstra_expanded (gs : GraphService)
    (start_stop_id end_stop_id optimize_for : string) (max_transfers : Z)
    : outcome (option OptimizedRoute) * gset string :=
  dijkstra_loop_expanded gs end_stop_id optimize_for max_transfers
    (search_fuel gs) (initial_state start_stop_id) ∅.

(** ** The execution trace: [get_algorithm_execution_steps]

    A step record keeps the fields the properties below are about; the description
    and the snapshot [pq[:5]], which shows the layout of the heap, are left
    out. *)

Record DummySegment := {
  ds_route_id : string;
  ds_from_stop : string;
  ds_to_stop : string;
  ds_time : Z;
  ds_cost : Q
}.

Record step := {
  step_no : Z;
  action : string;
  current_node : string;
  neighbors_added : list (string * num * string);
  visited_snapshot : gset string;
  step_path : list string;
  found_destination : bool
}.

Record trace_state := {
  t_pq : list (entry DummySegment);
  t_visited : gset string;
  t_counter : nat;
  step_count : Z;
  steps : list step;
  (** the locals [current_stop] and [path] of the last iteration *)
  t_current : string * list string
}.

(** The body of [for connection in current_stop_obj.connections] of the
    trace: every neighbour off the current path is pushed. *)
Fixpoint trace_explore (gs : GraphService) (optimize_for : string)
    (cur : entry DummySegment) (conns : list Connection)
    (acc : list (entry DummySegment) * nat * list (string * num * string))
    : outcome (list (entry DummySegment) * nat * list (string * num * string)) :=
  match conns with
  | [] => Returned acc
  | connection :: rest =>
      let '(pq, counter, added) := acc in
      let next_stop := to_stop_id connection in
      if bool_decide (next_stop ∈ e_path cur)
      then trace_explore gs optimize_for cur rest acc
      else
        let segment_time := c_time connection in
        let segment_cost := c_cost connection in
        let '(boarding_penalty, is_transfer) :=
          boarding gs (ds_route_id <$> last (e_segments cur)) connection in
        let new_time := e_time cur + segment_time + boarding_penalty in
        let new_cost := (e_cost cur + segment_cost)%Q in
        let new_transfers := e_transfers cur + (if is_transfer then 1 else 0) in
        let priority := priority_of optimize_for new_time new_cost new_transfers in
        let new_path := e_path cur ++ [next_stop] in
        match stops_get (stops_cache gs) next_stop with
        | None => Raised KeyError
        | Some _ =>
            let dummy_segment := {|
              ds_route_id := c_route_id connection;
              ds_from_stop := e_stop cur;
              ds_to_stop := next_stop;
              ds_time := segment_time;
              ds_cost := segment_cost
            |} in
            let new_segments := e_segments cur ++ [dummy_segment] in
            trace_explore gs optimize_for cur rest
              (heappush pq {|
                 e_priority := priority; e_counter := counter;
                 e_stop := next_stop; e_path := new_path;
                 e_segments := new_segments; e_transfers := new_transfers;
                 e_time := new_time; e_cost := new_cost |},
               S counter,
               added ++ [(next_stop, priority, c_route_id connection)])
        end
  end.

Definition mk_step (st : trace_state) (act node : string)
    (added : list (string * num * string)) (visited : gset string)
    (p : list string) (found : bool) : step := {|
  step_no := step_count st;
  action := act;
  current_node := node;
  neighbors_added := added;
  visited_snapshot := visited;
  step_path := p;
  found_destination := found
|}.

(** [while pq and step_count < 100: ...]; the result says whether the loop
    was left by [break]. *)
Fixpoint trace_loop (gs : GraphService) (end_stop_id optimize_for : string)
    (fuel : nat) (st : trace_state) : outcome trace_state :=
  match fuel with
  | O => OutOfFuel
  | S fuel' =>
      if negb (step_count st <? 100) then Returned st
      else
        match heappop (t_pq st) with
        | None => Returned st
        | Some (cur, pq') =>
            let current_stop := e_stop cur in
            if bool_decide (current_stop ∈ t_visited st)
            then
              trace_loop gs end_stop_id optimize_for fuel' {|
                t_pq := pq'; t_visited := t_visited st;
                t_counter := t_counter st;
                step_count := step_count st + 1;
                steps := steps st ++
                  [mk_step st "skip_visited" current_stop [] (t_visited st)
                     (e_path cur) false];
                t_current := (current_stop, e_path cur) |}
            else
              let visited := {[ current_stop ]} ∪ t_visited st in
              if String.eqb current_stop end_stop_id
              then
                Returned {|
                  t_pq := pq'; t_visited := visited;
                  t_counter := t_counter st;
                  step_count := step_count st;
                  steps := steps st ++
                    [mk_step st "found_destination" current_stop [] visited
                       (e_path cur) true];
                  t_current := (current_stop, e_path cur) |}
              else
                let st1 := {|
                  t_pq := pq'; t_visited := visited;
                  t_counter := t_counter st;
                  step_count := step_count st + 1;
                  steps := steps st ++
                    [mk_step st "process_node" current_stop [] visited
                       (e_path cur) false];
                  t_current := (current_stop, e_path cur) |} in
                match stops_get (stops_cache gs) current_stop with
                | None => trace_loop gs end_stop_id optimize_for fuel' st1
                | Some current_stop_obj =>
                    match trace_explore gs optimize_for cur
                            (connections current_stop_obj)
                            (pq', t_counter st, []) with
                    | Returned (pq'', counter', added) =>
                        let st2 := {|
                          t_pq := pq''; t_visited := visited;
                          t_counter := counter';
                          step_count := step_count st1;
                          steps := steps st1;
                          t_current := t_current st1 |} in
                        trace_loop gs end_stop_id optimize_for fuel'
                          match added with
                          | [] => st2
                          | _ => {|
                              t_pq := pq''; t_visited := visited;
                              t_counter := counter';
                              step_count := step_count st1 + 1;
                              steps := steps st1 ++
                                [mk_step st1 "add_neighbors" current_stop
                                   added visited (e_path cur) false];
                              t_current := t_current st1 |}
                          end
                    | Raised e => Raised e
                    | OutOfFuel => OutOfFuel
                    end
                end
        end
  end.

(** The records appended after the loop. *)
Definition trace_final (st : trace_state) : list step :=
  let final act :=
    steps st ++
    [mk_step st act (t_current st).1 [] (t_visited st) (t_current st).2 false] in
  if 100 <=? step_count st
  then match t_pq st with
       | _ :: _ => final "max_steps_reached"
       | [] => final "no_route_found"
       end
  else match t_pq st with
       | [] => final "no_route_found"
       | _ :: _ => steps st
       end.

Definition trace_initial (start_stop_id : string) : trace_state := {|
  t_pq := [ {| e_priority := Int 0; e_counter := 0%nat;
               e_stop := start_stop_id; e_path := [start_stop_id];
               e_segments := []; e_transfers := 0; e_time := 0; e_cost := 0 |} ];
  t_visited := ∅;
  t_counter := 1%nat;
  step_count := 1;
  steps := [ {| step_no := 0; action := "initialize";
                current_node := start_stop_id; neighbors_added := [];
                visited_snapshot := ∅; step_path := [start_stop_id];
                found_destination := false |} ];
  t_current := (start_stop_id, [start_stop_id])
|}.

(** Every iteration that does not leave the loop raises [step_count], which
    starts at 1: 100 iterations of fuel are never used up. *)
Definition get_algorithm_execution_steps (gs : GraphService)
    (start_stop_id end_stop_id optimize_for : string) : outcome (list step) :=
  if negb (in_stops gs start_stop_id) || negb (in_stops gs end_stop_id)
  then Returned []
  else
    match trace_loop gs end_stop_id optimize_for 100
            (trace_initial start_stop_id) with
    | Returned st => Returned (trace_final st)
    | Raised e => Raised e
    | OutOfFuel => OutOfFuel
    end.

(** The visited set of the last record of a trace, and whether some record
    reports the destination as found. *)
Definition trace_visited (tr : list step) : gset string :=
  match last tr with
  | Some s => visited_snapshot s
  | None => ∅
  end.

Definition trace_found (tr : list step) : bool :=
  existsb found_destination tr.

(** ** The shortcuts and [_dijkstra_with_transfers] *)

Definition _create_route_from_connection (gs : GraphService)
    (connection : Connection) (start_stop end_stop : Stop) : OptimizedRoute :=
  let route_info := routes_cache gs !! c_route_id connection in
  let route_name := route_info_name route_info (c_route_id connection) in
  let route_type := route_info_type route_info "metro" in
  let segment := {|
    route_id := c_route_id connection;
    route_name := route_name;
    route_type := route_type;
    from_stop := stop_id start_stop;
    to_stop := stop_id end_stop;
    from_stop_name := name start_stop;
    to_stop_name := name end_stop;
    time := c_time connection;
    cost := c_cost connection;
    sequence_start := 1;
    sequence_end := 2;
    boarding_time :=
      (get_mode_specific_penalties gs (c_route_id connection)).1;
    transfer_time := 0;
    walking_directions := []
  |} in
  {| path := [stop_id start_stop; stop_id end_stop];
     segments := [segment];
     total_time := Int (c_time connection + boarding_time segment);
     total_cost := c_cost connection;
     transfers := 0;
     walking_time := Int 0;
     total_distance_km := 0;
     start_walking_time := Int 0;
     end_walking_time := Int 0;
     route_summary :=
       "Take " +:+ route_type +:+ " " +:+ c_route_id connection +:+ " direct";
     alternative_routes_count := 0;
     co2_saved_kg := 0;
     calories_burned := 0 |}.

Definition _create_route_from_data (gs : GraphService) (rid : string)
    (route_doc : RouteDoc) (start_stop end_stop : Stop)
    (start_stop_id end_stop_id : string)
    (travel_time : Z) (travel_cost : Q) (stops_between : Z) : OptimizedRoute :=
  let route_name := default ("Route " +:+ rid) (d_route_long_name route_doc) in
  let route_type := default "metro" (d_route_type route_doc) in
  let boarding_time := (get_mode_specific_penalties gs rid).1 in
  let segment := {|
    route_id := rid;
    route_name := route_name;
    route_type := route_type;
    from_stop := start_stop_id;
    to_stop := end_stop_id;
    from_stop_name := name start_stop;
    to_stop_name := name end_stop;
    time := travel_time;
    cost := travel_cost;
    sequence_start := 1;
    sequence_end := stops_between + 1;
    boarding_time := boarding_time;
    transfer_time := 0;
    walking_directions := []
  |} in
  {| path := [start_stop_id; end_stop_id];
     segments := [segment];
     total_time := Int (travel_time + boarding_time);
     total_cost := travel_cost;
     transfers := 0;
     walking_time := Int 0;
     total_distance_km := 0;
     start_walking_time := Int 0;
     end_walking_time := Int 0;
     route_summary :=
       "Take " +:+ route_type +:+ " " +:+ route_name +:+ " for "
       +:+ pretty stops_between +:+ " stops";
     alternative_routes_count := 0;
     co2_saved_kg := 5 # 2;
     calories_burned := 0 |}.

(** [l.index(x)] where [x] is known to occur. *)
Fixpoint index_of (x : string) (l : list string) : Z :=
  match l with
  | [] => 0
  | y :: l' => if String.eqb y x then 0 else 1 + index_of x l'
  end.

Definition serves_both (start_stop_id end_stop_id : string) (d : RouteDoc)
    : bool :=
  bool_decide (start_stop_id ∈ d_stops d)
  && bool_decide (end_stop_id ∈ d_stops d).

(** The pipeline [$match stops $all [start, end]], [$limit 1] yields the
    first document listing both stops; the loop body returns on it. The
    store answers: [get_database] and [aggregate] return. *)
Definition _find_route_serving_both_stops (gs : GraphService) (db : Database)
    (start_stop end_stop : Stop) (start_stop_id end_stop_id : string)
    : option OptimizedRoute :=
  match List.find (serves_both start_stop_id end_stop_id) (db_routes db) with
  | None => None
  | Some route_doc =>
      let stops_list := d_stops route_doc in
      let start_idx := index_of start_stop_id stops_list in
      let end_idx := index_of end_stop_id stops_list in
      let stops_between := Z.abs (end_idx - start_idx) in
      let travel_time := stops_between * 3 in
      let travel_cost := (inject_Z stops_between * 2)%Q in
      Some (_create_route_from_data gs (d_route_id route_doc) route_doc
              start_stop end_stop start_stop_id end_stop_id
              travel_time travel_cost stops_between)
  end.

Definition same_stop_route (start_stop_id : string) : OptimizedRoute := {|
  path := [start_stop_id];
  segments := [];
  total_time := Int 0;
  total_cost := 0;
  transfers := 0;
  walking_time := Int 0;
  total_distance_km := 0;
  start_walking_time := Int 0;
  end_walking_time := Int 0;
  route_summary := "Already at destination";
  alternative_routes_count := 0;
  co2_saved_kg := 0;
  calories_burned := 0
|}.

(** [_dijkstra_with_transfers], the general search given [fuel]
    iterations. *)
Definition dijkstra_with_transfers_fuel (fuel : nat) (gs : GraphService)
    (db : Database) (start_stop_id end_stop_id optimize_for : string)
    : outcome (option OptimizedRoute) :=
  match stops_get (stops_cache gs) start_stop_id,
        stops_get (stops_cache gs) end_stop_id with
  | Some start_stop, Some end_stop =>
      if String.eqb start_stop_id end_stop_id
      then Returned (Some (same_stop_route start_stop_id))
      else
        match List.find (λ connection,
                 String.eqb (to_stop_id connection) end_stop_id)
                (connections start_stop) with
        | Some connection =>
            Returned
              (Some (_create_route_from_connection gs connection
                       start_stop end_stop))
        | None =>
            match _find_route_serving_both_stops gs db start_stop end_stop
                    start_stop_id end_stop_id with
            | Some route_match => Returned (Some route_match)
            | None =>
                dijkstra_pathfinding_fuel fuel gs start_stop_id end_stop_id
                  optimize_for 5
            end
        end
  | _, _ => Returned None
  end.

Definition _dijkstra_with_transfers (gs : GraphService) (db : Database)
    (start_stop_id end_stop_id optimize_for : string)
    : outcome (option OptimizedRoute) :=
  dijkstra_with_transfers_fuel (search_fuel gs) gs db start_stop_id
    end_stop_id optimize_for.

(** ** app/services/route_optimizer.py: [find_route_by_stops] *)

(** [self.stops_cache[stop.stop_id] = stop]: a known key keeps its place. *)
Fixpoint stops_set (cache : list Stop) (stop : Stop) : list Stop :=
  match cache with
  | [] => [stop]
  | s :: rest =>
      if String.eqb (stop_id s) (stop_id stop) then stop :: rest
      else s :: stops_set rest stop
  end.

(** [load_graph_data], with the database connected and its documents
    valid: both caches are filled anew. *)
Definition load_graph_data (db : Database) : GraphService := {|
  stops_cache := foldl stops_set [] (db_stops db);
  routes_cache := foldl (λ m doc, <[d_route_id doc := doc]> m) ∅ (db_routes db)
|}.

(** [if not self.stops_cache: await self.load_graph_data()] *)
Definition ensure_loaded (gs : GraphService) (db : Database) : GraphService :=
  match stops_cache gs with
  | [] => load_graph_data db
  | _ => gs
  end.

Definition find_route_by_stops (gs : GraphService) (db : Database)
    (start_stop_id end_stop_id optimize_for : string)
    : outcome (option OptimizedRoute) :=
  let gs := ensure_loaded gs db in
  if negb (in_stops gs start_stop_id) || negb (in_stops gs end_stop_id)
  then Returned None
  else _dijkstra_with_transfers gs db start_stop_id end_stop_id optimize_for.

(** ** Geometry: walking times, nearest stops, [find_optimal_route]

    [geopy.distance.geodesic] is not part of the repository: the distance in
    kilometres between two (latitude, longitude) points is a parameter, and
    so is what the library does when it is handed the pair [(None, None)]. *)

Definition num_leb (a b : num) : bool := negb (num_ltb b a).

(** [bind] of the outcome of a call. *)
Definition obind {A B} (o : outcome A) (k : A → outcome B) : outcome B :=
  match o with
  | Returned a => k a
  | Raised e => Raised e
  | OutOfFuel => OutOfFuel
  end.

Fixpoint fold_outcome {A B} (f : A → B → outcome A) (l : list B) (a : A)
    : outcome A :=
  match l with
  | [] => Returned a
  | b :: l' => obind (f a b) (fold_outcome f l')
  end.

(** The tuples [(distance, stop_id, name)] that [find_nearest_stops] sorts:
    tuples compare on the first component that differs. *)
Definition dist_tuple : Type := Q * string * string.

Definition tuple_ltb (x y : dist_tuple) : bool :=
  let '(d1, id1, n1) := x in
  let '(d2, id2, n2) := y in
  if negb (Qeq_bool d1 d2) then Qltb d1 d2
  else if negb (String.eqb id1 id2) then String.ltb id1 id2
  else String.ltb n1 n2.

(** [list.sort()]: a stable sort that only asks [<]. *)
Fixpoint sort_insert (x : dist_tuple) (l : list dist_tuple) : list dist_tuple :=
  match l with
  | [] => [x]
  | y :: l' => if tuple_ltb y x then y :: sort_insert x l' else x :: y :: l'
  end.

Definition list_sort (l : list dist_tuple) : list dist_tuple :=
  foldr sort_insert [] l.

(** [not t] for a tuple of two elements: a tuple that is not empty is
    true, whatever it holds. *)
Definition not_pair {A B} (t : A * B) : bool := false.

Section Geodesy.
Variable geodesic : Q * Q → Q * Q → Q.
Variable geodesic_none : Q * Q → outcome Q.

Definition stop_coords (stop : Stop) : Q * Q :=
  (latitude (location stop), longitude (location stop)).

Definition get_stop_coordinates (gs : GraphService) (id : string)
    : option Q * option Q :=
  match stops_get (stops_cache gs) id with
  | Some stop => (Some (stop_coords stop).1, Some (stop_coords stop).2)
  | None => (None, None)
  end.

(** [geodesic(p, coords).kilometers] on what [get_stop_coordinates]
    returned. *)
Definition geodesic_to (p : Q * Q) (coords : option Q * option Q)
    : outcome Q :=
  match coords with
  | (Some la, Some lo) => Returned (geodesic p (la, lo))
  | _ => geodesic_none p
  end.

Definition validate_coordinates (gs : GraphService) (la lo : Q) : bool :=
  if negb (Qle_bool (-90) la && Qle_bool la 90)
     || negb (Qle_bool (-180) lo && Qle_bool lo 180)
  then false
  else
    match stops_cache gs with
    | [] => true
    | _ =>
        let min_distance :=
          foldl (λ m stop,
                   let distance := Float (geodesic (la, lo) (stop_coords stop)) in
                   if num_ltb distance m then distance else m)
                Inf (stops_cache gs) in
        num_leb min_distance (Float settings.MAX_SEARCH_RADIUS_KM)
    end.

(** The part of [calculate_walking_time_from_coords] after the distance
    is known. The minutes are the integer part of the exact quotient: the
    float product of the code can land on the next whole minute when the
    exact one falls just short of it, and is then one more than here. *)
Definition walking_time_of (distance_km : Q) : num * Q :=
  if Qltb settings.MAX_WALKING_DISTANCE_KM distance_km
  then (Inf, distance_km)
  else
    let walking_time_minutes :=
      ((distance_km / settings.WALKING_SPEED_KMH) * 60)%Q in
    (Int (py_int walking_time_minutes), distance_km).

Definition calculate_walking_time_from_coords (gs : GraphService)
    (la lo : Q) (id : string) : outcome (num * Q) :=
  let coords := get_stop_coordinates gs id in
  if not_pair coords then Returned (Inf, 0%Q)
  else obind (geodesic_to (la, lo) coords) (λ distance_km,
         Returned (walking_time_of distance_km)).

Definition find_nearest_stops (gs : GraphService) (la lo : Q) (limit : Z)
    : list (string * Q) :=
  let distances :=
    omap (λ stop,
            let distance := geodesic (la, lo) (stop_coords stop) in
            if Qle_bool distance settings.MAX_WALKING_DISTANCE_KM
            then Some (distance, stop_id stop, name stop)
            else None)
         (stops_cache gs) in
  let distances := list_sort distances in
  (λ t : dist_tuple, (t.1.2, t.1.1)) <$> slice_to distances limit.

Definition _calculate_total_cost (route : OptimizedRoute)
    (optimize_for : string) : num :=
  if String.eqb optimize_for "time"
  then num_add (total_time route) (walking_time route)
  else if String.eqb optimize_for "cost" then Float (total_cost route)
  else Int (transfers route).

(** The three assignments [route.walking_time = ...],
    [route.total_distance_km = ...], [route.total_time += ...]. *)
Definition add_walking (route : OptimizedRoute)
    (start_time : num) (start_walking_dist : Q)
    (end_time : num) (end_walking_dist : Q) : OptimizedRoute :=
  let walking := num_add start_time end_time in
  {| path := path route;
     segments := segments route;
     total_time := num_add (total_time route) walking;
     total_cost := total_cost route;
     transfers := transfers route;
     walking_time := walking;
     total_distance_km := (start_walking_dist + end_walking_dist)%Q;
     start_walking_time := start_walking_time route;
     end_walking_time := end_walking_time route;
     route_summary := route_summary route;
     alternative_routes_count := alternative_routes_count route;
     co2_saved_kg := co2_saved_kg route;
     calories_burned := calories_burned route |}.

(** The body of the inner loop, on the pair [(best_route, best_cost)]. *)
Definition try_pair (gs : GraphService) (db : Database)
    (start_lat start_lon end_lat end_lon : Q) (optimize_for : string)
    (start_stop : string) (best : option OptimizedRoute * num)
    (end_stop : string) : outcome (option OptimizedRoute * num) :=
  obind (_dijkstra_with_transfers gs db start_stop end_stop optimize_for)
    (λ found,
       match found with
       | Some route =>
           obind (calculate_walking_time_from_coords gs start_lat start_lon
                    start_stop) (λ '(start_walking_time, start_walking_dist),
           obind (calculate_walking_time_from_coords gs end_lat end_lon
                    end_stop) (λ '(end_walking_time, end_walking_dist),
             let route :=
               add_walking route start_walking_time start_walking_dist
                 end_walking_time end_walking_dist in
             let route_cost := _calculate_total_cost route optimize_for in
             Returned
               (if num_ltb route_cost best.2
                then (Some route, route_cost) else best)))
       | None => Returned best
       end).

Definition find_optimal_route (gs : GraphService) (db : Database)
    (start_lat start_lon end_lat end_lon : Q) (optimize_for : string)
    : outcome (option OptimizedRoute) :=
  let gs := ensure_loaded gs db in
  if negb (validate_coordinates gs start_lat start_lon) then Returned None
  else if negb (validate_coordinates gs end_lat end_lon) then Returned None
  else
    let start_stops_with_dist := find_nearest_stops gs start_lat start_lon 3 in
    let end_stops_with_dist := find_nearest_stops gs end_lat end_lon 3 in
    match start_stops_with_dist, end_stops_with_dist with
    | [], _ | _, [] => Returned None
    | _, _ =>
        let start_stops := fst <$> start_stops_with_dist in
        let end_stops := fst <$> end_stops_with_dist in
        obind
          (fold_outcome
             (λ best start_stop,
                fold_outcome
                  (try_pair gs db start_lat start_lon end_lat end_lon
                     optimize_for start_stop)
                  end_stops best)
             start_stops (None, Inf))
          (λ best, Returned best.1)
    end.

(** ** app/services/route_enhancer.py

    The cardinal direction of a walking leg comes out of [math.sin],
    [math.cos] and [math.atan2]: [_bearing_to_direction] of
    [_calculate_bearing] is a parameter. *)

Variable bearing_direction : Q → Q → Q → Q → string.

Definition WALKING_SPEED : Q := 5.
Definition BUS_SPEED : Q := 20.
Definition METRO_SPEED : Q := 35.
Definition CO2_SAVED_PER_KM : Q := 21 # 100.
Definition CALORIES_PER_WALKING_MINUTE : Q := 4.

(** How an f-string prints a time. *)
Definition num_str (a : num) : string :=
  match a with
  | Int z => pretty z
  | Float q => pretty (Qnum q) +:+ "/" +:+ pretty (Z.pos (Qden q))
  | Inf => "inf"
  end.

Definition take_clause (current_route : string) (segment_count : Z) : string :=
  let route_type := if contains "METRO" current_route then "metro" else "bus" in
  "Take " +:+ route_type +:+ " " +:+ current_route +:+ " for "
  +:+ pretty segment_count +:+ " stops".

(** The loop over the segments of [_generate_route_summary]. *)
Fixpoint summary_loop (segs : list RouteSegment) (current_route : option string)
    (segment_count : Z) (summary_parts : list string)
    : option string * Z * list string :=
  match segs with
  | [] => (current_route, segment_count, summary_parts)
  | segment :: rest =>
      match current_route with
      | Some r =>
          if negb (String.eqb (route_id segment) r)
          then summary_loop rest (Some (route_id segment)) 1
                 (summary_parts ++ [take_clause r segment_count])
          else summary_loop rest current_route (segment_count + 1) summary_parts
      | None => summary_loop rest (Some (route_id segment)) 1 summary_parts
      end
  end.

(** [sep.join(parts)] *)
Fixpoint join (sep : string) (parts : list string) : string :=
  match parts with
  | [] => ""
  | [p] => p
  | p :: rest => p +:+ sep +:+ join sep rest
  end.

Definition _generate_route_summary (route : OptimizedRoute) : string :=
  match segments route with
  | [] => "No route found"
  | first :: _ =>
      let parts0 :=
        if num_ltb (Int 0) (start_walking_time route)
        then ["Walk " +:+ num_str (start_walking_time route) +:+ "min to "
              +:+ from_stop_name first]
        else [] in
      let '(current_route, segment_count, parts1) :=
        summary_loop (segments route) None 0 parts0 in
      let parts2 :=
        match current_route with
        | Some r =>
            if String.eqb r "" then parts1
            else parts1 ++ [take_clause r segment_count]
        | None => parts1
        end in
      let parts3 :=
        if num_ltb (Int 0) (end_walking_time route)
        then parts2 ++ ["Walk " +:+ num_str (end_walking_time route)
                        +:+ "min to destination"]
        else parts2 in
      join " → " parts3
  end.

(** [round(x, 2)], to the nearest hundredth, halves to the even one. *)
Definition py_round2 (x : Q) : Q :=
  let y := (x * 100)%Q in
  let f := Qfloor y in
  let r := (y - inject_Z f)%Q in
  let n :=
    if Qltb r (1 # 2) then f
    else if Qltb (1 # 2) r then f + 1
    else if Z.even f then f else f + 1 in
  (inject_Z n / 100)%Q.

Definition _calculate_co2_saved (route : OptimizedRoute) : Q :=
  let total_distance :=
    foldl (λ total segment,
             if String.eqb (route_type segment) "bus"
                || String.eqb (route_type segment) "metro"
             then
               let segment_distance :=
                 if String.eqb (route_type segment) "metro"
                 then (inject_Z (time segment - 1) * (METRO_SPEED / 60))%Q
                 else (inject_Z (time segment - 2) * (BUS_SPEED / 60))%Q in
               (total + (if Qltb 0 segment_distance then segment_distance else 0))%Q
             else total)
          (total_distance_km route) (segments route) in
  py_round2 (total_distance * CO2_SAVED_PER_KM).

(** [int(route.walking_time * 4.0)]; [int(float('inf'))] raises. *)
Definition _calculate_calories_burned (route : OptimizedRoute) : outcome Z :=
  match walking_time route with
  | Int w => Returned (py_int (inject_Z w * CALORIES_PER_WALKING_MINUTE))
  | Float w => Returned (py_int (w * CALORIES_PER_WALKING_MINUTE))
  | Inf => Raised OverflowError
  end.

Definition _generate_walking_direction (from_lat from_lon to_lat to_lon : Q)
    (instruction : string) : WalkingDirection :=
  let distance_km := geodesic (from_lat, from_lon) (to_lat, to_lon) in
  let distance_meters := py_int (distance_km * 1000) in
  let duration_seconds := py_int ((distance_km / WALKING_SPEED) * 3600) in
  let direction := bearing_direction from_lat from_lon to_lat to_lon in
  {| instruction :=
       instruction +:+ " (" +:+ direction +:+ ", " +:+ pretty distance_meters
       +:+ "m)";
     distance_meters := distance_meters;
     duration_seconds := duration_seconds |}.

(** [RouteSegment(route_id="WALKING", ..., time=t, ...)]: the model
    validates [time] as an [int], which [float('inf')] is not. *)
Definition walking_segment (from_id to_id from_name to_name : string)
    (t : num) (seq_start : Z) (direction : WalkingDirection)
    : outcome RouteSegment :=
  match t with
  | Int z =>
      Returned {|
        route_id := "WALKING";
        route_name := "Walking";
        route_type := "walking";
        from_stop := from_id;
        to_stop := to_id;
        from_stop_name := from_name;
        to_stop_name := to_name;
        time := z;
        cost := 0;
        sequence_start := seq_start;
        sequence_end := seq_start + 1;
        boarding_time := 0;
        transfer_time := 0;
        walking_directions := [direction]
      |}
  | _ => Raised ValidationError
  end.

Definition set_segments (route : OptimizedRoute) (segs : list RouteSegment)
    (start_time end_time : num) : OptimizedRoute :=
  {| path := path route;
     segments := segs;
     total_time := total_time route;
     total_cost := total_cost route;
     transfers := transfers route;
     walking_time := walking_time route;
     total_distance_km := total_distance_km route;
     start_walking_time := start_time;
     end_walking_time := end_time;
     route_summary := route_summary route;
     alternative_routes_count := alternative_routes_count route;
     co2_saved_kg := co2_saved_kg route;
     calories_burned := calories_burned route |}.

(** The first half of [_add_walking_directions]: the leg to the first
    stop. Yields the segments and [route.start_walking_time]. *)
Definition add_start_walk (gs : GraphService) (route : OptimizedRoute)
    (start_lat start_lon : Q) (first : RouteSegment)
    : outcome (list RouteSegment * num) :=
  let first_stop_id := from_stop first in
  match stops_get (stops_cache gs) first_stop_id with
  | None => Returned (segments route, start_walking_time route)
  | Some first_stop =>
      obind (calculate_walking_time_from_coords gs start_lat start_lon
               first_stop_id) (λ '(start_time, _),
        if num_ltb (Int 0) start_time
        then
          let direction :=
            _generate_walking_direction start_lat start_lon
              (latitude (location first_stop)) (longitude (location first_stop))
              ("Walk to " +:+ name first_stop) in
          obind (walking_segment "START" first_stop_id "Your Location"
                   (name first_stop) start_time 0 direction)
            (λ seg, Returned (seg :: segments route, start_time))
        else Returned (segments route, start_time))
  end.

(** The second half: the leg from the last stop. *)
Definition add_end_walk (gs : GraphService) (route : OptimizedRoute)
    (end_lat end_lon : Q) (segs : list RouteSegment)
    : outcome (list RouteSegment * num) :=
  match last segs with
  | None => Returned (segs, end_walking_time route)
  | Some last_seg =>
      let last_stop_id := to_stop last_seg in
      match stops_get (stops_cache gs) last_stop_id with
      | None => Returned (segs, end_walking_time route)
      | Some last_stop =>
          obind (calculate_walking_time_from_coords gs end_lat end_lon
                   last_stop_id) (λ '(end_time, _),
            if num_ltb (Int 0) end_time
            then
              let direction :=
                _generate_walking_direction
                  (latitude (location last_stop)) (longitude (location last_stop))
                  end_lat end_lon "Walk to destination" in
              obind (walking_segment last_stop_id "END" (name last_stop)
                       "Your Destination" end_time (Z.of_nat (length segs))
                       direction)
                (λ seg, Returned (segs ++ [seg], end_time))
            else Returned (segs, end_time))
      end
  end.

Definition _add_walking_directions (gs : GraphService) (route : OptimizedRoute)
    (start_lat start_lon end_lat end_lon : Q) : outcome OptimizedRoute :=
  match segments route with
  | [] => Returned route
  | first :: _ =>
      obind (add_start_walk gs route start_lat start_lon first)
        (λ '(segs, start_time),
           obind (add_end_walk gs route end_lat end_lon segs)
             (λ '(segs', end_time),
                Returned (set_segments route segs' start_time end_time)))
  end.

Definition _enhance_segment (segment : RouteSegment) : RouteSegment :=
  let route_type :=
    if contains "METRO" (route_id segment) then "metro"
    else if String.eqb (route_id segment) "WALKING" then "walking"
    else "bus" in
  {| route_id := route_id segment;
     route_name := route_name segment;
     route_type := route_type;
     from_stop := from_stop segment;
     to_stop := to_stop segment;
     from_stop_name := from_stop_name segment;
     to_stop_name := to_stop_name segment;
     time := time segment;
     cost := cost segment;
     sequence_start := sequence_start segment;
     sequence_end := sequence_end segment;
     boarding_time := boarding_time segment;
     transfer_time := transfer_time segment;
     walking_directions := walking_directions segment |}.

Definition enhance_route (gs : GraphService) (route : OptimizedRoute)
    (start_lat start_lon end_lat end_lon : Q) : outcome OptimizedRoute :=
  let summary := _generate_route_summary route in
  let co2 := _calculate_co2_saved route in
  obind (_calculate_calories_burned route) (λ calories,
    let route := {|
      path := path route;
      segments := segments route;
      total_time := total_time route;
      total_cost := total_cost route;
      transfers := transfers route;
      walking_time := walking_time route;
      total_distance_km := total_distance_km route;
      start_walking_time := start_walking_time route;
      end_walking_time := end_walking_time route;
      route_summary := summary;
      alternative_routes_count := alternative_routes_count route;
      co2_saved_kg := co2;
      calories_burned := calories |} in
    obind (_add_walking_directions gs route start_lat start_lon end_lat end_lon)
      (λ route,
         Returned
           (set_segments route (_enhance_segment <$> segments route)
              (start_walking_time route) (end_walking_time route)))).

(** ** app/services/route_optimizer.py: [find_route]

    [f"{x:.4f}"], the print of a float to four decimal places, is a
    parameter. *)

Variable format_4f : Q → string.

Definition cache_key (start_lat start_lon end_lat end_lon : Q)
    (optimize_for : string) : string :=
  format_4f start_lat +:+ "," +:+ format_4f start_lon +:+ "-"
  +:+ format_4f end_lat +:+ "," +:+ format_4f end_lon +:+ "-" +:+ optimize_for.

(** [find_route] on [self.cache]: the answer and the cache after the call.
    The graph service keeps what [find_optimal_route] loaded, and the
    enhancer reads it. *)
Definition find_route (gs : GraphService) (db : Database)
    (cache : gmap string OptimizedRoute)
    (start_lat start_lon end_lat end_lon : Q) (optimize_for : string)
    : outcome (option OptimizedRoute * gmap string OptimizedRoute) :=
  let cache_key := cache_key start_lat start_lon end_lat end_lon optimize_for in
  match cache !! cache_key with
  | Some route => Returned (Some route, cache)
  | None =>
      obind (find_optimal_route gs db start_lat start_lon end_lat end_lon
               optimize_for) (λ route,
        match route with
        | Some route =>
            obind (enhance_route (ensure_loaded gs db) route
                     start_lat start_lon end_lat end_lon) (λ route,
              Returned (Some route, <[cache_key := route]> cache))
        | None => Returned (None, cache)
        end)
  end.

(** ** app/api/routes.py: [POST /route]

    The handler returns the itinerary or raises an [HTTPException] with a
    status code; every other exception is turned into the status 500. *)

Inductive response (A : Type) :=
| Ok (a : A)
| HTTPException (status_code : Z).
#[global] Arguments Ok {A} a.
#[global] Arguments HTTPException {A} status_code.

(** The truth of [d.get(k)] for a dict of floats: [None] and zero are
    false. *)
Definition truthy (x : option Q) : bool :=
  match x with
  | Some q => negb (Qeq_bool q 0)
  | None => false
  end.

Definition route_endpoint (gs : GraphService) (db : Database)
    (cache : gmap string OptimizedRoute)
    (start end_ : gmap string Q) (optimize_for : string)
    : outcome (response OptimizedRoute * gmap string OptimizedRoute) :=
  if negb (bool_decide (optimize_for ∈ ["time"; "cost"; "transfers"]))
  then Returned (HTTPException 400, cache)
  else
    let start_lat := start !! "lat" in
    let start_lon := start !! "lon" in
    let end_lat := end_ !! "lat" in
    let end_lon := end_ !! "lon" in
    if negb (truthy start_lat && truthy start_lon
             && truthy end_lat && truthy end_lon)
    then Returned (HTTPException 400, cache)
    else
      match start_lat, start_lon, end_lat, end_lon with
      | Some start_lat, Some start_lon, Some end_lat, Some end_lon =>
          if negb (Qle_bool (-90) start_lat && Qle_bool start_lat 90)
             || negb (Qle_bool (-180) start_lon && Qle_bool start_lon 180)
          then Returned (HTTPException 400, cache)
          else if negb (Qle_bool (-90) end_lat && Qle_bool end_lat 90)
                  || negb (Qle_bool (-180) end_lon && Qle_bool end_lon 180)
          then Returned (HTTPException 400, cache)
          else
            match find_route gs db cache start_lat start_lon end_lat end_lon
                    optimize_for with
            | Returned (Some route, cache') => Returned (Ok route, cache')
            | Returned (None, cache') => Returned (HTTPException 404, cache')
            | Raised _ => Returned (HTTPException 500, cache)
            | OutOfFuel => OutOfFuel
            end
      | _, _, _, _ => Returned (HTTPException 500, cache)
      end.

(** ** app/api/routes.py: [GET /stops/nearby]

    The query parameters arrive validated by the framework. *)

Record NearbyStop := {
  ns_stop_id : string;
  ns_name : string;
  ns_latitude : Q;
  ns_longitude : Q;
  ns_distance_km : Q;
  ns_walking_time_minutes : option num
}.

(** [round(x, 3)], to the nearest thousandth, halves to the even one. *)
Definition py_round3 (x : Q) : Q :=
  let y := (x * 1000)%Q in
  let f := Qfloor y in
  let r := (y - inject_Z f)%Q in
  let n :=
    if Qltb r (1 # 2) then f
    else if Qltb (1 # 2) r then f + 1
    else if Z.even f then f else f + 1 in
  (inject_Z n / 1000)%Q.

(** The body of [for stop_id, distance in nearby_stops_with_dist]. *)
Definition nearby_entry (gs : GraphService) (lat lon : Q)
    (stops : list NearbyStop) (p : string * Q) : outcome (list NearbyStop) :=
  let '(id, distance) := p in
  match stops_get (stops_cache gs) id with
  | Some stop =>
      obind (calculate_walking_time_from_coords gs lat lon id)
        (λ '(walking_time, _),
           Returned
             (stops ++
              [{| ns_stop_id := stop_id stop;
                  ns_name := name stop;
                  ns_latitude := latitude (location stop);
                  ns_longitude := longitude (location stop);
                  ns_distance_km := py_round3 distance;
                  ns_walking_time_minutes :=
                    if negb (num_eqb walking_time Inf)
                    then Some walking_time else None |}]))
  | None => Returned stops
  end.

Definition get_nearby_stops (gs : GraphService) (db : Database)
    (lat lon : Q) (limit : Z) : outcome (response (list NearbyStop)) :=
  let gs := ensure_loaded gs db in
  if negb (validate_coordinates gs lat lon)
  then Returned (HTTPException 400)
  else
    match fold_outcome (nearby_entry gs lat lon)
            (find_nearest_stops gs lat lon limit) [] with
    | Returned stops => Returned (Ok stops)
    | Raised _ => Returned (HTTPException 500)
    | OutOfFuel => OutOfFuel
    end.

End Geodesy.

(** ** app/services/route_enhancer.py: [_bearing_to_direction]

    The index is the integer part of a float sum divided by a float, and a
    bearing next to the edge of a sector can round across it: the rounding
    of the two float operations is the parameter [fl], which takes the
    exact result of an operation to the double that is stored. *)

Definition directions : list string :=
  ["North"; "Northeast"; "East"; "Southeast";
   "South"; "Southwest"; "West"; "Northwest"; "North"].

(** [l[i]]: a negative index counts from the end; [None] stands for the
    [IndexError] of an index out of range. *)
Definition py_index {A} (l : list A) (i : Z) : option A :=
  if 0 <=? i then l !! Z.to_nat i
  else if 0 <=? Z.of_nat (length l) + i
       then l !! Z.to_nat (Z.of_nat (length l) + i)
       else None.

Definition _bearing_to_direction (fl : Q → Q) (bearing : Q) : option string :=
  let index := py_int (fl (fl (bearing + (45 # 2)) / 45))%Q in
  py_index directions index.

(** * Specification vocabulary *)

(** ** The connection graph *)

Definition edge (gs : GraphService) (a b : string) : Prop :=
  ∃ stop connection,
    stops_get (stops_cache gs) a = Some stop
    ∧ connection ∈ connections stop
    ∧ to_stop_id connection = b.

(** A path of connections leads from [a] to [b]. *)
Definition reachable (gs : GraphService) : string → string → Prop :=
  rtc (edge gs).

(** Every connection of every cached stop leads to a cached stop. *)
Definition closed (gs : GraphService) : Prop :=
  Forall (λ stop,
            Forall (λ connection, in_stops gs (to_stop_id connection) = true)
                   (connections stop))
         (stops_cache gs).

(** The stop lists of the paths that follow connections from [start]. *)
Inductive trail (gs : GraphService) (start : string)
    : list string → string → Prop :=
| trail_start : trail gs start [start] start
| trail_step p a b :
    trail gs start p a → edge gs a b → trail gs start (p ++ [b]) b.

(** What every queue entry of a search from [start] satisfies: its path has
    no repetition, follows connections from the start stop, and, the start
    stop apart, holds cached stops only. *)
Definition entry_inv (gs : GraphService) (start : string)
    (e : entry RouteSegment) : Prop :=
  NoDup (e_path e)
  ∧ trail gs start (e_path e) (e_stop e)
  ∧ Forall (λ x, x = start ∨ in_stops gs x = true) (e_path e).

(** The termination measure of the search loop: an entry weighs more the
    shorter its path is, by a factor above the number of entries that can
    replace it. *)
Definition weight_of (gs : GraphService) (len : nat) : nat :=
  S (max_degree gs) ^ (S (length (stops_cache gs)) - len).

Definition weight (gs : GraphService) (q : list (entry RouteSegment)) : nat :=
  sum_list_with (λ e, weight_of gs (length (e_path e))) q.

(** ** Sample graph stores *)

Definition mk_stop (id : string) (la lo : Q) (conns : list Connection) : Stop :=
  {| stop_id := id; name := id;
     location := {| longitude := lo; latitude := la |};
     connections := conns |}.

Definition mk_connection (target rid : string) (minutes : Z) (fare : Q)
    (seq : Z) : Connection :=
  {| to_stop_id := target; c_route_id := rid; c_time := minutes;
     c_cost := fare; sequence := seq |}.

Definition empty_db : Database := {| db_stops := []; db_routes := [] |}.

(** The fixture of [tests/test_graph_algorithms.py]. *)
Definition test_graph : GraphService := {|
  stops_cache := [
    mk_stop "S1" (129716 # 10000) (775946 # 10000)
      [mk_connection "S2" "R1" 10 2 1; mk_connection "S3" "R2" 15 3 1];
    mk_stop "S2" (129759 # 10000) (776081 # 10000)
      [mk_connection "S3" "R1" 8 (3 # 2) 2; mk_connection "S4" "R3" 12 (5 # 2) 1];
    mk_stop "S3" (129718 # 10000) (776108 # 10000)
      [mk_connection "S4" "R2" 6 1 2];
    mk_stop "S4" (129833 # 10000) (776097 # 10000) []
  ];
  routes_cache := ∅
|}.

(** A stretch of line 400 of [scripts/load_comprehensive_data.py], and
    Richmond Road (B033), which no line serves. *)
Definition b030_graph : GraphService := {|
  stops_cache := [
    mk_stop "B029" (129718 # 10000) (776108 # 10000)
      [mk_connection "B030" "BUS_400" 6 5 2];
    mk_stop "B030" (129833 # 10000) (776097 # 10000)
      [mk_connection "B029" "BUS_400" 6 5 2;
       mk_connection "B031" "BUS_400" 9 (13 # 2) 3];
    mk_stop "B031" (130067 # 10000) (776033 # 10000)
      [mk_connection "B030" "BUS_400" 9 (13 # 2) 3];
    mk_stop "B033" (129611 # 10000) (776089 # 10000) []
  ];
  routes_cache := ∅
|}.

Definition b030_db : Database := {|
  db_stops := stops_cache b030_graph;
  db_routes := [
    {| d_route_id := "BUS_400"; d_route_long_name := None;
       d_route_type := Some "bus";
       d_stops := ["M006"; "B029"; "B030"; "B031"; "B032"] |}
  ]
|}.

(** A connection to a stop that was never loaded. *)
Definition dangling_graph : GraphService := {|
  stops_cache := [
    mk_stop "A" 0 0 [mk_connection "X" "R1" 4 1 1];
    mk_stop "B" 0 (1 # 100) []
  ];
  routes_cache := ∅
|}.

(** ** Paths of connections and their keys *)

(** [cs] is a path of connections from [a] to [b]: each connection leaves
    the stop the one before it reached. *)
Fixpoint connects (gs : GraphService) (a : string) (cs : list Connection)
    (b : string) : Prop :=
  match cs with
  | [] => a = b
  | c :: rest =>
      (∃ stop, stops_get (stops_cache gs) a = Some stop ∧ c ∈ connections stop)
      ∧ connects gs (to_stop_id c) rest b
  end.

Definition stops_along (a : string) (cs : list Connection) : list string :=
  a :: (to_stop_id <$> cs).

(** The time and the transfer count of the itinerary that takes the
    connections [cs] in turn, with the boarding and transfer penalties of
    the search. *)
Fixpoint ride (gs : GraphService) (prev : option string)
    (minutes transfer_count : Z) (cs : list Connection) : Z * Z :=
  match cs with
  | [] => (minutes, transfer_count)
  | c :: rest =>
      let '(penalty, is_transfer) := boarding gs prev c in
      ride gs (Some (c_route_id c)) (minutes + c_time c + penalty)
        (transfer_count + (if is_transfer then 1 else 0)) rest
  end.

(** The priority key of the objective [transfers]. *)
Definition transfers_key (minutes transfer_count : Z) : Z :=
  transfer_count * 100 + minutes.

(** Two lines between A and B; the faster one forces a transfer at B. *)
Definition detour_graph : GraphService := {|
  stops_cache := [
    mk_stop "A" 0 0
      [mk_connection "B" "R1" 1 1 1; mk_connection "B" "R2" 2 1 1];
    mk_stop "B" 0 (1 # 100) [mk_connection "C" "R2" 1 1 2];
    mk_stop "C" 0 (2 # 100) []
  ];
  routes_cache := ∅
|}.

(** A slow direct line S, Z, T and a fast way to Z through two transfers. *)
Definition bound_graph : GraphService := {|
  stops_cache := [
    mk_stop "S" 0 0
      [mk_connection "Z" "R1" 50 1 1; mk_connection "Y" "R2" 1 1 1];
    mk_stop "Y" 0 (1 # 100) [mk_connection "X" "R3" 1 1 1];
    mk_stop "X" 0 (2 # 100) [mk_connection "Z" "R4" 1 1 1];
    mk_stop "Z" 0 (3 # 100) [mk_connection "T" "R1" 1 1 2];
    mk_stop "T" 0 (4 # 100) []
  ];
  routes_cache := ∅
|}.

(** One way from S to T, changing line at every stop. *)
Definition chain_graph : GraphService := {|
  stops_cache := [
    mk_stop "S" 0 0 [mk_connection "a" "R1" 1 1 1];
    mk_stop "a" 0 (1 # 100) [mk_connection "b" "R2" 1 1 1];
    mk_stop "b" 0 (2 # 100) [mk_connection "c" "R1" 1 1 2];
    mk_stop "c" 0 (3 # 100) [mk_connection "d" "R2" 1 1 2];
    mk_stop "d" 0 (4 # 100) [mk_connection "e" "R1" 1 1 3];
    mk_stop "e" 0 (5 # 100) [mk_connection "f" "R2" 1 1 3];
    mk_stop "f" 0 (6 # 100) [mk_connection "T" "R1" 1 1 4];
    mk_stop "T" 0 (7 # 100) []
  ];
  routes_cache := ∅
|}.

(** ** Stand-ins for the samples *)

(** A distance for the samples, in place of geopy's: 111 km per degree
    along each axis. *)
Definition flat_km (p q : Q * Q) : Q :=
  (111 * (Qabs (p.1 - q.1) + Qabs (p.2 - q.2)))%Q.

(** geopy builds a point from [(None, None)] by reading a missing
    coordinate as 0.0 ([float(latitude or 0.0)]). *)
Definition geopy_none (p : Q * Q) : outcome Q := Returned (flat_km p (0, 0)%Q).

Definition due_north (from_lat from_lon to_lat to_lon : Q) : string := "North".

(** An itinerary whose two segments carry types the route ids do not
    give: a train, and a metro line with no METRO in its id. *)
Definition typed_route : OptimizedRoute := {|
  path := ["S1"; "S2"; "S3"];
  segments := [
    {| route_id := "RAIL_7"; route_name := "Suburban rail";
       route_type := "train"; from_stop := "S1"; to_stop := "S2";
       from_stop_name := "S1"; to_stop_name := "S2"; time := 10; cost := 2;
       sequence_start := 1; sequence_end := 2; boarding_time := 2;
       transfer_time := 0; walking_directions := [] |};
    {| route_id := "PURPLE_LINE"; route_name := "Purple Line";
       route_type := "metro"; from_stop := "S2"; to_stop := "S3";
       from_stop_name := "S2"; to_stop_name := "S3"; time := 8; cost := 3;
       sequence_start := 2; sequence_end := 3; boarding_time := 4;
       transfer_time := 0; walking_directions := [] |} ];
  total_time := Int 24;
  total_cost := 5;
  transfers := 1;
  walking_time := Int 0;
  total_distance_km := 0;
  start_walking_time := Int 0;
  end_walking_time := Int 0;
  route_summary := "";
  alternative_routes_count := 0;
  co2_saved_kg := 0;
  calories_burned := 0
|}.

(** ** Nearest stops, as the specification words them *)

(** A stable sort on the distance alone: stops at the same distance keep
    the order they have in the cache. *)
Fixpoint distance_insert (x : dist_tuple) (l : list dist_tuple)
    : list dist_tuple :=
  match l with
  | [] => [x]
  | y :: l' =>
      if Qltb y.1.1 x.1.1 then y :: distance_insert x l' else x :: y :: l'
  end.

Definition sort_by_distance (l : list dist_tuple) : list dist_tuple :=
  foldr distance_insert [] l.

Definition within_walking_distance (geodesic : Q * Q → Q * Q → Q)
    (la lo : Q) (stop : Stop) : Prop :=
  (geodesic (la, lo) (stop_coords stop) <= settings.MAX_WALKING_DISTANCE_KM)%Q.

Definition distance_tuple (geodesic : Q * Q → Q * Q → Q) (la lo : Q)
    (stop : Stop) : dist_tuple :=
  (geodesic (la, lo) (stop_coords stop), stop_id stop, name stop).

Definition nearest_stops_stable (geodesic : Q * Q → Q * Q → Q)
    (gs : GraphService) (la lo : Q) (limit : Z) : list (string * Q) :=
  let distances :=
    distance_tuple geodesic la lo <$>
      List.filter (λ stop,
                Qle_bool (geodesic (la, lo) (stop_coords stop))
                  settings.MAX_WALKING_DISTANCE_KM)
             (stops_cache gs) in
  (λ t : dist_tuple, (t.1.2, t.1.1)) <$>
    slice_to (sort_by_distance distances) limit.

(** The order of [list.sort()] on the tuples: by distance, then by stop
    id, then by name. *)
Definition string_lt (a b : string) : Prop := String.ltb a b = true.

Definition tuple_le (x y : dist_tuple) : Prop :=
  (x.1.1 < y.1.1)%Q
  ∨ (x.1.1 == y.1.1)%Q
    ∧ (string_lt x.1.2 y.1.2
       ∨ x.1.2 = y.1.2 ∧ (string_lt x.2 y.2 ∨ x.2 = y.2)).

(** The strict order. *)
Definition tuple_lt (x y : dist_tuple) : Prop :=
  (x.1.1 < y.1.1)%Q
  ∨ (x.1.1 == y.1.1)%Q
    ∧ (string_lt x.1.2 y.1.2 ∨ x.1.2 = y.1.2 ∧ string_lt x.2 y.2).

(** Two stops at one place, B cached before A. *)
Definition twin_graph : GraphService := {|
  stops_cache := [
    mk_stop "B" (129716 # 10000) (775946 # 10000) [];
    mk_stop "A" (129716 # 10000) (775946 # 10000) []
  ];
  routes_cache := ∅
|}.

(** ** The choice of [find_optimal_route], as the specification words it *)

(** The cache is a dict: no two of its stops share a [stop_id]. *)
Definition dict_ok (gs : GraphService) : Prop :=
  NoDup (stop_id <$> stops_cache gs).

(** The candidate of a pair of stops: the itinerary the search finds
    between them, if any, with the walks to the first stop and from the
    last one added. *)
Definition candidate (geodesic : Q * Q → Q * Q → Q)
    (geodesic_none : Q * Q → outcome Q) (gs : GraphService) (db : Database)
    (start_lat start_lon end_lat end_lon : Q) (optimize_for : string)
    (p : string * string) : outcome (option OptimizedRoute) :=
  obind (_dijkstra_with_transfers gs db p.1 p.2 optimize_for) (λ found,
    match found with
    | None => Returned None
    | Some route =>
        obind (calculate_walking_time_from_coords geodesic geodesic_none gs
                 start_lat start_lon p.1) (λ start_walk,
        obind (calculate_walking_time_from_coords geodesic geodesic_none gs
                 end_lat end_lon p.2) (λ end_walk,
          Returned
            (Some (add_walking route start_walk.1 start_walk.2
                     end_walk.1 end_walk.2))))
    end).

(** [result] is the choice among [candidates], listed in the order they
    are tried: none when there is no candidate, else a candidate that no
    other undercuts and that undercuts every candidate tried before it. *)
Definition chosen (score : OptimizedRoute → num)
    (candidates : list (option OptimizedRoute))
    (result : option OptimizedRoute) : Prop :=
  match result with
  | None => Forall (λ c, c = None) candidates
  | Some best =>
      ∃ i : nat,
        candidates !! i = Some (Some best)
        ∧ (∀ (j : nat) c, candidates !! j = Some (Some c) →
                          num_ltb (score c) (score best) = false)
        ∧ (∀ (j : nat) c, (j < i)%nat → candidates !! j = Some (Some c) →
                          num_ltb (score best) (score c) = true)
  end.

(** The pair [(best_route, best_cost)] after the candidates [done] have
    been tried. *)
Definition best_so_far (score : OptimizedRoute → num)
    (done : list (option OptimizedRoute))
    (best : option OptimizedRoute * num) : Prop :=
  chosen score done best.1
  ∧ best.2 = match best.1 with Some b => score b | None => Inf end.

(** The value of a number on the rational line closed by infinity. *)
Definition num_lt (a b : num) : Prop :=
  match num_Q a, num_Q b with
  | Some x, Some y => (x < y)%Q
  | Some _, None => True
  | None, _ => False
  end.

(** Two stops on each side of a square, 111 m apart. *)
Definition plaza_graph : GraphService := {|
  stops_cache := [
    mk_stop "P1" 0 0 [mk_connection "Q1" "R1" 10 4 1];
    mk_stop "P2" 0 (1 # 1000)
      [mk_connection "Q2" "R2" 5 6 1; mk_connection "Q1" "R2" 20 3 1];
    mk_stop "Q1" 0 (20 # 1000) [mk_connection "Q2" "R1" 4 1 2];
    mk_stop "Q2" 0 (21 # 1000) []
  ];
  routes_cache := ∅
|}.

(** The trace of the query from S to T in [chain_graph]. *)
Definition chain_trace : list step :=
  Eval vm_compute in
    match get_algorithm_execution_steps chain_graph "S" "T" "time" with
    | Returned tr => tr
    | _ => []
    end.

(** ** The books of an itinerary *)

(** The number of places where the route changes from one segment to the
    next. *)
Fixpoint route_changes (ids : list string) : Z :=
  match ids with
  | a :: (b :: _) as rest =>
      (if String.eqb a b then 0 else 1) + route_changes rest
  | _ => 0
  end.

(** The minutes of the segments, boarding included, and their fares. *)
Definition ride_minutes (segs : list RouteSegment) : Z :=
  foldr (λ seg acc, time seg + boarding_time seg + acc) 0 segs.

Definition fare (segs : list RouteSegment) : Q :=
  foldr (λ seg acc, (cost seg + acc)%Q) 0%Q segs.

(** The segment [seg] rides the connection [c] of the cached stop it
    leaves. *)
Definition rides_connection (gs : GraphService) (seg : RouteSegment) : Prop :=
  ∃ stop c,
    stops_get (stops_cache gs) (from_stop seg) = Some stop
    ∧ c ∈ connections stop
    ∧ to_stop_id c = to_stop seg
    ∧ c_route_id c = route_id seg
    ∧ c_time c = time seg
    ∧ c_cost c = cost seg.

(** The entry [e] is what the expansion of [cur] pushes for its
    connection [c]. *)
Definition child_of (gs : GraphService) (cur : entry RouteSegment)
    (c : Connection) (e : entry RouteSegment) : Prop :=
  (to_stop_id c ∉ e_path cur)
  ∧ e_stop e = to_stop_id c
  ∧ e_path e = e_path cur ++ [to_stop_id c]
  ∧ e_transfers e
    = (e_transfers cur
       + (if (boarding gs (route_id <$> last (e_segments cur)) c).2
          then 1 else 0))
  ∧ e_time e
    = (e_time cur + c_time c
       + (boarding gs (route_id <$> last (e_segments cur)) c).1)
  ∧ e_cost e = (e_cost cur + c_cost c)%Q
  ∧ ∃ seg,
      e_segments e = e_segments cur ++ [seg]
      ∧ route_id seg = c_route_id c
      ∧ from_stop seg = e_stop cur
      ∧ to_stop seg = to_stop_id c
      ∧ time seg = c_time c
      ∧ cost seg = c_cost c
      ∧ boarding_time seg
        = (boarding gs (route_id <$> last (e_segments cur)) c).1.

(** The books of a queue entry: its counters are those of its segments,
    and its segments run along its path. *)
Definition books_ok (gs : GraphService) (start : string)
    (e : entry RouteSegment) : Prop :=
  last (e_path e) = Some (e_stop e)
  ∧ e_path e = start :: (to_stop <$> e_segments e)
  ∧ from_stop <$> e_segments e = take (length (e_segments e)) (e_path e)
  ∧ e_transfers e = route_changes (route_id <$> e_segments e)
  ∧ e_time e = ride_minutes (e_segments e)
  ∧ (e_cost e == fare (e_segments e))%Q
  ∧ Forall (rides_connection gs) (e_segments e).

(** The itinerary from S1 to S4 in the fixture, for the objective
    [time]. *)
Definition test_route : OptimizedRoute :=
  Eval vm_compute in
    match _dijkstra_pathfinding test_graph "S1" "S4" "time" 5 with
    | Returned (Some r) => r
    | _ => same_stop_route ""
    end.

(** The itinerary across the square, for the objective [time]. *)
Definition plaza_route : OptimizedRoute :=
  Eval vm_compute in
    match find_optimal_route flat_km geopy_none plaza_graph empty_db
            0 0 0 (21 # 1000) "time" with
    | Returned (Some r) => r
    | _ => same_stop_route ""
    end.

(** ** The enhancer, as a reader of its result sees it *)

(** A walking leg of [t] minutes, more than none. *)
Definition walking_leg (w : RouteSegment) (t : num) : Prop :=
  route_id w = "WALKING" ∧ t = Int (time w) ∧ 0 < time w
  ∧ (cost w == 0)%Q ∧ length (walking_directions w) = 1%nat.

(** The itinerary across the square, enhanced. *)
Definition plaza_enhanced : OptimizedRoute :=
  Eval vm_compute in
    match enhance_route flat_km geopy_none due_north
            (ensure_loaded plaza_graph empty_db) plaza_route
            0 0 0 (21 # 1000) with
    | Returned r => r
    | _ => same_stop_route ""
    end.

(** The runs of equal adjacent route ids, each with its length, in
    order. *)
Definition push_run (r : string) (n : Z) (rs : list (string * Z))
    : list (string * Z) :=
  match rs with
  | (b, m) :: tl => if String.eqb r b then (r, n + m) :: tl else (r, n) :: rs
  | [] => [(r, n)]
  end.

Fixpoint runs (ids : list string) : list (string * Z) :=
  match ids with
  | [] => []
  | a :: rest => push_run a 1 (runs rest)
  end.

(** A stand-in for the print to four places that closed examples run on:
    the ten-thousandths of the number, rounded down. *)
Definition four_places (x : Q) : string := pretty (Qfloor (x * 10000)).

(** The cache after the first request across the square. *)
Definition plaza_cache : gmap string OptimizedRoute :=
  {[ cache_key four_places 0 0 0 (21 # 1000) "time" := plaza_enhanced ]}.

(** ** The trace, as a reader of its records sees it *)

(** The records are numbered from 0, in order. *)
Definition numbered (tr : list step) : Prop :=
  step_no <$> tr = seqZ 0 (Z.of_nat (length tr)).

(** The records written while the loop goes on: [count] of them, numbered,
    the first one [initialize], none reporting the destination. *)
Definition trace_inv (tr : list step) (count : Z) : Prop :=
  numbered tr
  ∧ Z.of_nat (length tr) = count
  ∧ 1 ≤ count
  ∧ Forall (λ r, found_destination r = false) tr
  ∧ action <$> head tr = Some "initialize".

(** The walking leg [w] carries one direction whose seconds are those of
    the leg's whole minutes, over at most the maximum walking distance. *)
Definition leg_consistent (w : RouteSegment) : Prop :=
  ∃ direction,
    walking_directions w = [direction]
    ∧ 60 * time w ≤ duration_seconds direction < 60 * time w + 60
    ∧ 0 ≤ distance_meters direction ≤ 500.

(** ** The candidates of [find_optimal_route] and their scalars, as the
    specification words them *)

(** [c] is the itinerary [found] with its walks added: the walking time is
    that of the walk to the first stop plus that of the walk from the last
    one, the total time is raised by it, the total distance by the two
    walking distances, and path, segments, fare and transfers are kept. *)
Definition walks_added (found : OptimizedRoute) (start_walk end_walk : num * Q)
    (c : OptimizedRoute) : Prop :=
  walking_time c = num_add start_walk.1 end_walk.1
  ∧ total_time c = num_add (total_time found) (walking_time c)
  ∧ (total_distance_km c
     == total_distance_km found + (start_walk.2 + end_walk.2))%Q
  ∧ path c = path found ∧ segments c = segments found
  ∧ total_cost c = total_cost found ∧ transfers c = transfers found.

(** The candidate [c] of the pair [p] whose search gave [found]: none when
    the search found nothing, else the itinerary found with the walks from
    the start point to the start stop and from the end stop to the end
    point added. *)
Definition candidate_of (geodesic : Q * Q → Q * Q → Q)
    (geodesic_none : Q * Q → outcome Q) (gs : GraphService)
    (start_lat start_lon end_lat end_lon : Q)
    (p : string * string) (found c : option OptimizedRoute) : Prop :=
  match found with
  | None => c = None
  | Some route =>
      ∃ start_walk end_walk r,
        calculate_walking_time_from_coords geodesic geodesic_none gs
          start_lat start_lon p.1 = Returned start_walk
        ∧ calculate_walking_time_from_coords geodesic geodesic_none gs
            end_lat end_lon p.2 = Returned end_walk
        ∧ c = Some r ∧ walks_added route start_walk end_walk r
  end.

(** The scalar of an objective: total time plus walking time for [time],
    total fare for [cost], transfer count for [transfers] (and, as the
    code has it, for any other word). *)
Definition objective_scalar (optimize_for : string) (r : OptimizedRoute)
    : num :=
  if String.eqb optimize_for "time"
  then num_add (total_time r) (walking_time r)
  else if String.eqb optimize_for "cost" then Float (total_cost r)
  else Int (transfers r).

(** What the searches across the square find, pair by pair, for the
    objective [time]. *)
Definition plaza_founds : list (option OptimizedRoute) :=
  Eval vm_compute in
    (λ p, match _dijkstra_with_transfers plaza_graph empty_db p.1 p.2
                  "time" with
          | Returned found => found
          | _ => None
          end) <$> list_prod ["P1"; "P2"] ["Q2"; "Q1"].

(** ** The types of the enhanced segments, as the specification words
    them *)

(** The type of [seg] is the one its route id gives: metro exactly when
    the id contains METRO, walking exactly when the id is WALKING, bus in
    every other case. *)
Definition typed_by_id (seg : RouteSegment) : Prop :=
  (route_type seg = "metro" ↔ contains "METRO" (route_id seg) = true)
  ∧ (route_type seg = "walking" ↔ route_id seg = "WALKING")
  ∧ (route_type seg = "bus" ↔
       contains "METRO" (route_id seg) = false ∧ route_id seg ≠ "WALKING").

(** [seg'] is the segment [seg] typed anew: every field but the type is
    kept, and the type is the one the id gives, whatever type [seg]
    carried. *)
Definition retyped (seg seg' : RouteSegment) : Prop :=
  route_id seg' = route_id seg
  ∧ route_name seg' = route_name seg
  ∧ from_stop seg' = from_stop seg
  ∧ to_stop seg' = to_stop seg
  ∧ from_stop_name seg' = from_stop_name seg
  ∧ to_stop_name seg' = to_stop_name seg
  ∧ time seg' = time seg
  ∧ cost seg' = cost seg
  ∧ sequence_start seg' = sequence_start seg
  ∧ sequence_end seg' = sequence_end seg
  ∧ boarding_time seg' = boarding_time seg
  ∧ transfer_time seg' = transfer_time seg
  ∧ walking_directions seg' = walking_directions seg
  ∧ typed_by_id seg'.

(** The itinerary [typed_route], enhanced for a walk at each end. *)
Definition typed_enhanced : OptimizedRoute :=
  Eval vm_compute in
    match enhance_route flat_km geopy_none due_north test_graph typed_route
            (129734 # 10000) (775946 # 10000) (129738 # 10000)
            (776108 # 10000) with
    | Returned r => r
    | _ => same_stop_route ""
    end.

(** ** Float rounding, as the compass needs it *)

(** The unit roundoff of a double, 2^-53. *)
Definition unit_roundoff : Q := 1 # 9007199254740992.

(** [fl] rounds to nearest on the range the compass works in: the double
    stored for an exact result between 1/4 and 1024 is off by at most the
    unit roundoff, relatively. *)
Definition rounds_to_nearest (fl : Q → Q) : Prop :=
  ∀ x, (1 # 4 <= x)%Q → (x <= 1024)%Q →
       (Qabs (fl x - x) <= unit_roundoff * x)%Q.

(** The margin kept from the edges of a sector: a billionth of a degree. *)
Definition sector_margin : Q := 1 # 1000000000.

(** For the samples: a rounding that stores every result as it is, and one
    that rounds the one sum 45 - 2^-48, a tie between two doubles, up to
    45. *)
Definition exact_round (x : Q) : Q := x.

Definition tie_to_45 (x : Q) : Q :=
  if Qeq_bool x (45 - (1 # 281474976710656)) then 45 else x.

(** * Properties *)

(** ** The connection graph and the queue *)

Lemma stops_get_Some cache k stop :
  stops_get cache k = Some stop → stop ∈ cache ∧ stop_id stop = k.
Proof.
  induction cache as [|s rest IH]; simpl; [done|].
  destruct (String.eqb (stop_id s) k) eqn:E.
  - intros [= ->]. apply String.eqb_eq in E. split; [left | done].
  - intros H. destruct (IH H). split; [by right | done].
Qed.

Lemma in_stops_elem gs k :
  in_stops gs k = true → k ∈ stop_id <$> stops_cache gs.
Proof.
  unfold in_stops. destruct (stops_get _ k) as [stop|] eqn:E; [|done].
  intros _. apply stops_get_Some in E as [Hin <-].
  by apply list_elem_of_fmap_2.
Qed.

Lemma trail_reachable gs start p b : trail gs start p b → reachable gs start b.
Proof.
  induction 1 as [|p a b _ IH He]; [apply rtc_refl|].
  eapply rtc_r; eauto.
Qed.

Lemma max_degree_bound gs stop :
  stop ∈ stops_cache gs → (length (connections stop) ≤ max_degree gs)%nat.
Proof.
  unfold max_degree. induction (stops_cache gs) as [|s rest IH].
  - by intros ?%elem_of_nil.
  - rewrite fmap_cons. cbn [foldr].
    intros [->|Hin]%elem_of_cons; [apply Nat.le_max_l|].
    etrans; [exact (IH Hin) | apply Nat.le_max_r].
Qed.

(** ** The priority queue *)

Lemma heappop_perm {Seg} (l : list (entry Seg)) m r :
  heappop l = Some (m, r) → l ≡ₚ m :: r.
Proof.
  revert m r. induction l as [|x xs IH]; simpl; [done|].
  intros m r. destruct (heappop xs) as [[m' rest]|] eqn:E.
  - specialize (IH _ _ eq_refl). destruct (entry_ltb m' x).
    + intros [= <- <-]. rewrite IH. apply Permutation_swap.
    + by intros [= <- <-].
  - destruct xs; [|simpl in E; destruct (heappop xs) as [[??]|];
                    [destruct (entry_ltb _ _)|]; done].
    by intros [= <- <-].
Qed.

(** ** Invariants of the general search *)

Section Search.
Variable gs : GraphService.
Variable start : string.

Local Abbreviation entry_inv := (entry_inv gs start).
Local Abbreviation weight_of := (weight_of gs).
Local Abbreviation weight := (weight gs).

Lemma weight_of_pos len : (1 ≤ weight_of len)%nat.
Proof.
  unfold weight_of.
  assert (H : S (max_degree gs) ≠ 0%nat) by lia.
  pose proof (Nat.pow_nonzero _ (S (length (stops_cache gs)) - len) H). lia.
Qed.

Lemma weight_app q1 q2 : weight (q1 ++ q2) = (weight q1 + weight q2)%nat.
Proof. apply sum_list_with_app. Qed.

Lemma weight_perm q1 q2 : q1 ≡ₚ q2 → weight q1 = weight q2.
Proof. unfold weight. by intros ->. Qed.

Lemma entry_inv_length e :
  entry_inv e → (length (e_path e) ≤ S (length (stops_cache gs)))%nat.
Proof.
  intros (Hnd & _ & Hin).
  assert (Hsub : e_path e ⊆+ start :: (stop_id <$> stops_cache gs)).
  { apply NoDup_submseteq; [done|]. intros x Hx.
    rewrite Forall_forall in Hin. destruct (Hin x Hx) as [->|Hk].
    - left.
    - right. by apply in_stops_elem. }
  apply submseteq_length in Hsub. simpl in Hsub.
  by rewrite length_fmap in Hsub.
Qed.

Lemma initial_inv : Forall entry_inv (pq (initial_state start)).
Proof.
  repeat constructor; set_solver.
Qed.

Lemma weight_children (new : list (entry RouteSegment)) len :
  Forall (λ e, length (e_path e) = S len) new →
  weight new = (length new * weight_of (S len))%nat.
Proof.
  unfold weight. induction 1 as [|e new He _ IH]; simpl; [done|].
  rewrite He, IH. lia.
Qed.

(** One expansion: the new entries are at most one per connection, each
    with a path one stop longer; a [KeyError] is a connection to a stop
    that is not cached. *)
Lemma explore_spec optimize_for cur current_stop_obj conns st :
  entry_inv cur →
  stops_get (stops_cache gs) (e_stop cur) = Some current_stop_obj →
  conns ⊆ connections current_stop_obj →
  match explore gs optimize_for cur current_stop_obj conns st with
  | Returned st' =>
      ∃ new, pq st' = new ++ pq st
             ∧ (length new ≤ length conns)%nat
             ∧ Forall (λ e, entry_inv e
                            ∧ length (e_path e) = S (length (e_path cur))) new
  | Raised e => e = KeyError ∧ ¬ closed gs
  | OutOfFuel => False
  end.
Proof.
  intros Hcur Hget. revert st.
  induction conns as [|c rest IH]; intros st Hsub; simpl.
  - exists []. split; [done|]. split; [done | constructor].
  - assert (Hrest : rest ⊆ connections current_stop_obj) by set_solver.
    assert (Hc : c ∈ connections current_stop_obj) by set_solver.
    case_bool_decide as Hin.
    { specialize (IH st Hrest). destruct (explore _ _ _ _ rest st); [|done..].
      destruct IH as (new & ? & ? & ?). exists new. split_and!; [done|lia|done]. }
    destruct (boarding gs _ c) as [boarding_penalty is_transfer].
    destruct (stops_get (stops_cache gs) (to_stop_id c)) as [next|] eqn:Hnext.
    2:{ split; [done|]. intros Hclosed. unfold closed in Hclosed.
        rewrite Forall_forall in Hclosed.
        apply stops_get_Some in Hget as [Hobj _].
        specialize (Hclosed _ Hobj). rewrite Forall_forall in Hclosed.
        specialize (Hclosed _ Hc). unfold in_stops in Hclosed.
        by rewrite Hnext in Hclosed. }
    match goal with |- context [explore _ _ _ _ rest ?s] => set (st1 := s) end.
    specialize (IH st1 Hrest).
    destruct (explore _ _ _ _ rest st1) as [st'| |]; [|done..].
    destruct IH as (new & Hpq & Hlen & Hall).
    subst st1. destruct (match best_costs st !! to_stop_id c with
                         | Some b => _ | None => true end).
    + simpl in Hpq. unfold heappush in Hpq.
      eexists (new ++ [_]). rewrite <- app_assoc. split; [exact Hpq|].
      split; [rewrite length_app; simpl; lia|].
      apply Forall_app. split; [done|]. constructor; [|done]. simpl.
      destruct Hcur as (Hnd & Htr & Hk). split.
      * split_and!.
        -- apply NoDup_app. split_and!; [done| |apply NoDup_singleton].
           intros x Hx ->%list_elem_of_singleton. done.
        -- eapply trail_step; [exact Htr|]. by exists current_stop_obj, c.
        -- apply Forall_app. split; [done|]. constructor; [|done].
           right. unfold in_stops. by rewrite Hnext.
      * rewrite length_app. simpl. lia.
    + exists new. split_and!; [done|lia|done].
Qed.

Lemma weight_new (new : list (entry RouteSegment)) cur current_stop_obj :
  entry_inv cur →
  current_stop_obj ∈ stops_cache gs →
  (length new ≤ length (connections current_stop_obj))%nat →
  Forall (λ e, entry_inv e ∧ length (e_path e) = S (length (e_path cur))) new →
  (weight new < weight_of (length (e_path cur)))%nat.
Proof.
  intros Hcur Hobj Hlen Hall.
  pose proof (weight_of_pos (length (e_path cur))) as Hpos.
  destruct new as [|e new]; [simpl; lia|].
  assert (Hlt : (length (e_path cur) < S (length (stops_cache gs)))%nat).
  { apply Forall_cons in Hall as [[He Hl] _].
    apply entry_inv_length in He. lia. }
  rewrite (weight_children _ (length (e_path cur)))
    by (eapply Forall_impl; [exact Hall | by intros ? [_ ?]]).
  apply max_degree_bound in Hobj.
  unfold weight_of in *.
  replace (S (length (stops_cache gs)) - length (e_path cur))%nat
    with (S (S (length (stops_cache gs)) - S (length (e_path cur))))%nat by lia.
  rewrite Nat.pow_succ_r'.
  set (w := (S (max_degree gs) ^ _)%nat).
  assert (1 ≤ w)%nat by (subst w; apply (weight_of_pos (S (length (e_path cur))))).
  nia.
Qed.

(** The loop, run with more fuel than the weight of its queue, ends: with
    no route, with the route of an entry that satisfies the invariant and
    stands at the end stop, or with the [KeyError] of a connection that
    leaves the cache. *)
Lemma dijkstra_loop_spec end_stop_id optimize_for max_transfers fuel st :
  Forall entry_inv (pq st) →
  (weight (pq st) < fuel)%nat →
  match dijkstra_loop gs end_stop_id optimize_for max_transfers fuel st with
  | Returned None => True
  | Returned (Some r) =>
      ∃ e, entry_inv e ∧ e_stop e = end_stop_id ∧ r = found_route e
  | Raised e => e = KeyError ∧ ¬ closed gs
  | OutOfFuel => False
  end.
Proof.
  revert st. induction fuel as [|fuel IH]; intros st Hinv Hw; [lia|].
  simpl. destruct (heappop (pq st)) as [[cur pq']|] eqn:Hpop; [|done].
  apply heappop_perm in Hpop.
  rewrite Hpop in Hinv. apply Forall_cons in Hinv as [Hcur Hinv'].
  rewrite (weight_perm _ _ Hpop) in Hw.
  change (weight (cur :: pq'))
    with (weight_of (length (e_path cur)) + weight pq')%nat in Hw.
  pose proof (weight_of_pos (length (e_path cur))) as Hpos.
  assert (Hskip : match dijkstra_loop gs end_stop_id optimize_for max_transfers
                          fuel {| pq := pq'; best_costs := best_costs st;
                                  counter := counter st |} with
                  | Returned None => True
                  | Returned (Some r) =>
                      ∃ e, entry_inv e ∧ e_stop e = end_stop_id
                           ∧ r = found_route e
                  | Raised e => e = KeyError ∧ ¬ closed gs
                  | OutOfFuel => False
                  end).
  { apply IH; simpl; [done | lia]. }
  destruct (match best_costs st !! e_stop cur with
            | Some b => _ | None => false end); [exact Hskip|].
  destruct (String.eqb (e_stop cur) end_stop_id) eqn:Hend.
  { apply String.eqb_eq in Hend. by exists cur. }
  destruct (max_transfers <=? e_transfers cur); [exact Hskip|].
  destruct (stops_get (stops_cache gs) (e_stop cur)) as [obj|] eqn:Hget;
    [|exact Hskip].
  pose proof (explore_spec optimize_for cur obj (connections obj)
                {| pq := pq'; best_costs := best_costs st;
                   counter := counter st |} Hcur Hget (reflexivity _)) as Hex.
  destruct (explore _ _ _ _ _ _) as [st''| |]; [|done..].
  destruct Hex as (new & Hpq & Hlen & Hall). simpl in Hpq.
  apply IH.
  - rewrite Hpq. apply Forall_app. split; [|done].
    eapply Forall_impl; [exact Hall | by intros ? [? _]].
  - rewrite Hpq, weight_app.
    apply stops_get_Some in Hget as [Hobj _].
    pose proof (weight_new new cur obj Hcur Hobj Hlen Hall). lia.
Qed.

Lemma search_fuel_enough :
  (weight (pq (initial_state start)) < search_fuel gs)%nat.
Proof.
  unfold weight, search_fuel, weight_of. simpl.
  rewrite Nat.sub_0_r. lia.
Qed.

(** [_dijkstra_pathfinding] ends, in one of the three ways of
    [dijkstra_loop_spec]. *)
Lemma dijkstra_pathfinding_spec end_stop_id optimize_for max_transfers :
  match _dijkstra_pathfinding gs start end_stop_id optimize_for max_transfers with
  | Returned None => True
  | Returned (Some r) =>
      ∃ e, entry_inv e ∧ e_stop e = end_stop_id ∧ r = found_route e
  | Raised e => e = KeyError ∧ ¬ closed gs
  | OutOfFuel => False
  end.
Proof.
  apply dijkstra_loop_spec; [apply initial_inv | apply search_fuel_enough].
Qed.

(** The general search always ends: it returns or raises. *)
Lemma dijkstra_pathfinding_ends end_stop_id optimize_for max_transfers :
  _dijkstra_pathfinding gs start end_stop_id optimize_for max_transfers
  ≠ OutOfFuel.
Proof.
  pose proof (dijkstra_pathfinding_spec end_stop_id optimize_for max_transfers)
    as H.
  intros Hout. by rewrite Hout in H.
Qed.
End Search.

(** ** The search as a whole *)

Lemma in_stops_get gs k :
  in_stops gs k = true → ∃ stop, stops_get (stops_cache gs) k = Some stop.
Proof.
  unfold in_stops. destruct (stops_get _ k) as [stop|]; [eauto | done].
Qed.

Lemma ensure_loaded_known gs db k :
  in_stops gs k = true → ensure_loaded gs db = gs.
Proof.
  unfold in_stops, ensure_loaded. by destruct (stops_cache gs).
Qed.

Lemma find_route_by_stops_known gs db s e optimize_for :
  in_stops gs s = true → in_stops gs e = true →
  find_route_by_stops gs db s e optimize_for
  = _dijkstra_with_transfers gs db s e optimize_for.
Proof.
  intros Hs He. unfold find_route_by_stops.
  rewrite (ensure_loaded_known gs db s Hs). by rewrite Hs, He.
Qed.

Lemma find_connection_edge gs s e stop connection :
  stops_get (stops_cache gs) s = Some stop →
  List.find (λ c, String.eqb (to_stop_id c) e) (connections stop)
  = Some connection →
  edge gs s e.
Proof.
  intros Hget Hfind. apply find_some in Hfind as [Hin Heq].
  apply String.eqb_eq in Heq. exists stop, connection.
  split_and!; [done | by apply list_elem_of_In | done].
Qed.

(** C2: for every cached stop A and every objective, the query from A to A
    returns the itinerary whose path is [A], with no segment and with total
    time, total cost, transfer count and walking time zero; the result
    does not depend on the backing store and is there with no iteration of
    the search loop allowed. *)
Theorem same_stop_itinerary gs db A optimize_for :
  in_stops gs A = true →
  ∃ r,
    find_route_by_stops gs db A A optimize_for = Returned (Some r)
    ∧ dijkstra_with_transfers_fuel 0 gs db A A optimize_for = Returned (Some r)
    ∧ path r = [A] ∧ segments r = []
    ∧ total_time r = Int 0 ∧ total_cost r = 0%Q
    ∧ transfers r = 0 ∧ walking_time r = Int 0.
Proof.
  intros HA. exists (same_stop_route A).
  rewrite (find_route_by_stops_known gs db A A optimize_for HA HA).
  unfold _dijkstra_with_transfers, dijkstra_with_transfers_fuel.
  destruct (in_stops_get gs A HA) as [stop ->].
  rewrite String.eqb_refl. by split_and!.
Qed.

Lemma same_stop_itinerary_witness :
  ∃ r,
    find_route_by_stops test_graph empty_db "S1" "S1" "cost" = Returned (Some r)
    ∧ dijkstra_with_transfers_fuel 0 test_graph empty_db "S1" "S1" "cost"
      = Returned (Some r)
    ∧ path r = ["S1"] ∧ segments r = []
    ∧ total_time r = Int 0 ∧ total_cost r = 0%Q
    ∧ transfers r = 0 ∧ walking_time r = Int 0.
Proof. apply (same_stop_itinerary test_graph empty_db "S1" "cost"). reflexivity. Defined.

Lemma pathfinding_acyclic gs s e optimize_for max_transfers r :
  _dijkstra_pathfinding gs s e optimize_for max_transfers = Returned (Some r) →
  NoDup (path r).
Proof.
  intros Hr.
  pose proof (dijkstra_pathfinding_spec gs s e optimize_for max_transfers) as H.
  rewrite Hr in H. by destruct H as (cur & (Hnd & _) & _ & ->).
Qed.

Lemma with_transfers_acyclic gs db s e optimize_for r :
  _dijkstra_with_transfers gs db s e optimize_for = Returned (Some r) →
  NoDup (path r).
Proof.
  unfold _dijkstra_with_transfers, dijkstra_with_transfers_fuel.
  destruct (stops_get (stops_cache gs) s) as [start_stop|] eqn:Hs; [|done].
  destruct (stops_get (stops_cache gs) e) as [end_stop|] eqn:He; [|done].
  apply stops_get_Some in Hs as [_ Hs]. apply stops_get_Some in He as [_ He].
  destruct (String.eqb s e) eqn:Hse.
  { intros [= <-]. simpl. apply NoDup_singleton. }
  apply String.eqb_neq in Hse.
  assert (Hpair : NoDup [s; e]).
  { apply NoDup_cons. split; [by intros ?%list_elem_of_singleton | apply NoDup_singleton]. }
  destruct (List.find _ _) as [connection|].
  { intros [= <-]. simpl. by rewrite Hs, He. }
  unfold _find_route_serving_both_stops.
  destruct (List.find _ (db_routes db)) as [doc|].
  { by intros [= <-]. }
  apply pathfinding_acyclic.
Qed.

(** C7: the path of every itinerary the search returns holds no stop
    twice, whether it comes from the general search, whatever the bound on
    transfers, from [_dijkstra_with_transfers] and its shortcuts, or through
    [find_route_by_stops]. *)
Theorem returned_path_acyclic gs db s e optimize_for max_transfers r :
  _dijkstra_pathfinding gs s e optimize_for max_transfers = Returned (Some r)
  ∨ _dijkstra_with_transfers gs db s e optimize_for = Returned (Some r)
  ∨ find_route_by_stops gs db s e optimize_for = Returned (Some r) →
  NoDup (path r).
Proof.
  intros [H|[H|H]].
  - by eapply pathfinding_acyclic.
  - by eapply with_transfers_acyclic.
  - unfold find_route_by_stops in H.
    destruct (negb _ || negb _); [done|]. by eapply with_transfers_acyclic.
Qed.

Lemma returned_path_acyclic_witness :
  NoDup ["S1"; "S3"; "S4"].
Proof.
  apply (returned_path_acyclic test_graph empty_db "S1" "S4" "time" 5
           (found_route {|
              e_priority := Int 23; e_counter := 3%nat; e_stop := "S4";
              e_path := ["S1"; "S3"; "S4"];
              e_segments := [
                {| route_id := "R2"; route_name := "Route R2";
                   route_type := "bus"; from_stop := "S1"; to_stop := "S3";
                   from_stop_name := "S1"; to_stop_name := "S3";
                   time := 15; cost := 3; sequence_start := 1;
                   sequence_end := 2; boarding_time := 2; transfer_time := 0;
                   walking_directions := [] |};
                {| route_id := "R2"; route_name := "Route R2";
                   route_type := "bus"; from_stop := "S3"; to_stop := "S4";
                   from_stop_name := "S3"; to_stop_name := "S4";
                   time := 6; cost := 1; sequence_start := 2;
                   sequence_end := 3; boarding_time := 0; transfer_time := 0;
                   walking_directions := [] |} ];
              e_transfers := 0; e_time := 23; e_cost := 0 + 3 + 1 |})).
  left. vm_compute. reflexivity.
Defined.

(** ** No route *)

Lemma find_none_no_shared_route db s e :
  (∀ doc, doc ∈ db_routes db → ¬ (s ∈ d_stops doc ∧ e ∈ d_stops doc)) →
  List.find (serves_both s e) (db_routes db) = None.
Proof.
  intros Hno. destruct (List.find _ _) as [doc|] eqn:Hfind; [|done].
  apply find_some in Hfind as [Hin Hboth]. exfalso.
  apply (Hno doc); [by apply list_elem_of_In|].
  unfold serves_both in Hboth. apply andb_prop in Hboth as [H1 H2].
  by apply bool_decide_eq_true in H1, H2.
Qed.

(** C1, as the code has it: in a graph store whose connections all lead to
    cached stops, for every pair of cached stops that no path of connections
    joins and that no route document lists together, the search returns
    None: it neither raises nor makes up an itinerary. This holds for
    [_dijkstra_with_transfers] and for [find_route_by_stops]. *)
Theorem no_path_returns_none gs db s e optimize_for :
  closed gs →
  in_stops gs s = true →
  in_stops gs e = true →
  ¬ reachable gs s e →
  (∀ doc, doc ∈ db_routes db → ¬ (s ∈ d_stops doc ∧ e ∈ d_stops doc)) →
  _dijkstra_with_transfers gs db s e optimize_for = Returned None
  ∧ find_route_by_stops gs db s e optimize_for = Returned None.
Proof.
  intros Hclosed Hs He Hno Hdb.
  rewrite (find_route_by_stops_known gs db s e optimize_for Hs He).
  assert (_dijkstra_with_transfers gs db s e optimize_for = Returned None);
    [|done].
  unfold _dijkstra_with_transfers, dijkstra_with_transfers_fuel.
  destruct (in_stops_get gs s Hs) as [start_stop Hgs].
  destruct (in_stops_get gs e He) as [end_stop Hge].
  rewrite Hgs, Hge.
  destruct (String.eqb s e) eqn:Hse.
  { apply String.eqb_eq in Hse as ->. destruct Hno. apply rtc_refl. }
  destruct (List.find _ (connections start_stop)) as [connection|] eqn:Hfind.
  { destruct Hno. apply rtc_once. by eapply find_connection_edge. }
  unfold _find_route_serving_both_stops.
  rewrite (find_none_no_shared_route db s e Hdb).
  pose proof (dijkstra_pathfinding_spec gs s e optimize_for 5) as Hspec.
  unfold _dijkstra_pathfinding in Hspec.
  destruct (dijkstra_pathfinding_fuel _ gs s e optimize_for 5)
    as [[r|]|ex|]; [|done| |done].
  - destruct Hspec as (cur & (_ & Htrail & _) & Hend & _). destruct Hno.
    rewrite <- Hend. by eapply trail_reachable.
  - by destruct Hspec as [_ Hnot].
Qed.

Lemma stops_get_elem gs k stop :
  stops_get (stops_cache gs) k = Some stop → stop ∈ stops_cache gs.
Proof. by intros [? _]%stops_get_Some. Qed.

Lemma b030_no_path_to_b033 : ¬ reachable b030_graph "B030" "B033".
Proof.
  intros [Heq|(mid & _ & stop & connection & Hget & Hin & Hto)]%rtc_inv_r;
    [done|].
  apply stops_get_elem in Hget. simpl in Hget.
  repeat (apply elem_of_cons in Hget as [->|Hget]);
    try (by apply elem_of_nil in Hget);
    simpl in Hin;
    repeat (apply elem_of_cons in Hin as [->|Hin]);
    try (by apply elem_of_nil in Hin); done.
Qed.

Lemma b033_no_path_to_b030 : ¬ reachable b030_graph "B033" "B030".
Proof.
  intros [Heq|(mid & (stop & connection & Hget & Hin & _) & _)]%rtc_inv; [done|].
  vm_compute in Hget. injection Hget as <-. by apply elem_of_nil in Hin.
Qed.

Lemma b030_closed : closed b030_graph.
Proof. repeat constructor. Qed.

Lemma b033_in_no_route doc :
  doc ∈ db_routes b030_db → "B033" ∉ d_stops doc.
Proof.
  simpl. intros ->%list_elem_of_singleton. simpl.
  intros H. repeat (apply elem_of_cons in H as [?|H]; [done|]).
  by apply elem_of_nil in H.
Qed.

Lemma no_path_returns_none_witness :
  (_dijkstra_with_transfers b030_graph b030_db "B030" "B033" "time"
   = Returned None
   ∧ find_route_by_stops b030_graph b030_db "B030" "B033" "time"
     = Returned None)
  ∧ (_dijkstra_with_transfers b030_graph b030_db "B033" "B030" "time"
     = Returned None
     ∧ find_route_by_stops b030_graph b030_db "B033" "B030" "time"
       = Returned None).
Proof.
  split.
  - apply (no_path_returns_none b030_graph b030_db "B030" "B033" "time").
    + exact b030_closed.
    + reflexivity.
    + reflexivity.
    + exact b030_no_path_to_b033.
    + intros doc Hdoc [_ H]. by apply (b033_in_no_route doc).
  - apply (no_path_returns_none b030_graph b030_db "B033" "B030" "time").
    + exact b030_closed.
    + reflexivity.
    + reflexivity.
    + exact b033_no_path_to_b030.
    + intros doc Hdoc [H _]. by apply (b033_in_no_route doc).
Defined.

(** C1 as stated fails where a connection leads out of the cache: from A,
    whose only connection goes to a stop that is not cached, the search
    for the cached stop B, which no path joins to A, raises [KeyError]. *)
Lemma dangling_connection_raises :
  in_stops dangling_graph "A" = true
  ∧ in_stops dangling_graph "B" = true
  ∧ ¬ reachable dangling_graph "A" "B"
  ∧ (∀ doc, doc ∈ db_routes empty_db →
            ¬ ("A" ∈ d_stops doc ∧ "B" ∈ d_stops doc))
  ∧ _dijkstra_with_transfers dangling_graph empty_db "A" "B" "time"
    = Raised KeyError
  ∧ find_route_by_stops dangling_graph empty_db "A" "B" "time"
    = Raised KeyError.
Proof.
  split_and!; try reflexivity.
  - intros [Heq|(mid & _ & stop & connection & Hget & Hin & Hto)]%rtc_inv_r;
      [done|].
    apply stops_get_elem in Hget. simpl in Hget.
    repeat (apply elem_of_cons in Hget as [->|Hget]);
      try (by apply elem_of_nil in Hget);
      simpl in Hin;
      repeat (apply elem_of_cons in Hin as [->|Hin]);
      try (by apply elem_of_nil in Hin); done.
  - intros doc Hdoc. by apply elem_of_nil in Hdoc.
Qed.

(** ** Where the labels of the search fall short *)

(** C3 fails on the code: in [detour_graph] the search for the objective
    [transfers] returns A, B, C by line R1 then R2, one transfer and 9
    minutes, key 109, while the path that stays on line R2 has no
    transfer and 5 minutes, key 5. The label of B by R2 (key 4) is dropped
    against the label by R1 (key 3), although only it goes on without a
    transfer. *)
Lemma transfers_search_misses_lower_key :
  ∃ r cs,
    _dijkstra_pathfinding detour_graph "A" "C" "transfers" 5
    = Returned (Some r)
    ∧ path r = ["A"; "B"; "C"] ∧ total_time r = Int 9 ∧ transfers r = 1
    ∧ connects detour_graph "A" cs "C"
    ∧ NoDup (stops_along "A" cs)
    ∧ ride detour_graph None 0 0 cs = (5, 0)
    ∧ transfers_key 5 0 < transfers_key 9 1.
Proof.
  eexists _, [mk_connection "B" "R2" 2 1 1; mk_connection "C" "R2" 1 1 2].
  split; [vm_compute; reflexivity|].
  split_and!; try reflexivity.
  - simpl. split_and!; try done.
    + eexists. split; [reflexivity|]. apply elem_of_cons. right. left.
    + eexists. split; [reflexivity|]. left.
  - apply (bool_decide_unpack _). vm_compute. exact I.
Qed.

(** C8 fails on the code: in [bound_graph], for the objective [time], the
    search with at most 1 transfer returns S, Z, T, and the search with at
    most 2 transfers returns None. With the larger bound the entry of X,
    which has one transfer, is expanded and records for Z a key no entry
    within the bound can match. *)
Lemma raising_max_transfers_loses_route :
  (∃ r, _dijkstra_pathfinding bound_graph "S" "T" "time" 1 = Returned (Some r)
        ∧ path r = ["S"; "Z"; "T"] ∧ transfers r = 0)
  ∧ _dijkstra_pathfinding bound_graph "S" "T" "time" 2 = Returned None.
Proof.
  split; [eexists; split; [vm_compute; reflexivity | done] |].
  vm_compute. reflexivity.
Qed.

(** ** The trace and the search *)

(** The recording loop returns what the loop of the search returns. *)
Lemma dijkstra_loop_expanded_fst gs end_stop_id optimize_for max_transfers
    fuel st expanded :
  (dijkstra_loop_expanded gs end_stop_id optimize_for max_transfers fuel st
     expanded).1
  = dijkstra_loop gs end_stop_id optimize_for max_transfers fuel st.
Proof.
  revert st expanded. induction fuel as [|fuel IH]; intros st expanded; [done|].
  simpl. destruct (heappop (pq st)) as [[cur pq']|]; [|done].
  destruct (match best_costs st !! e_stop cur with
            | Some b => _ | None => false end); [apply IH|].
  destruct (String.eqb _ _); [done|].
  destruct (max_transfers <=? _); [apply IH|].
  destruct (stops_get _ _); [|apply IH].
  destruct (explore _ _ _ _ _ _); [apply IH | done..].
Qed.

Lemma dijkstra_expanded_fst gs s e optimize_for max_transfers :
  (dijkstra_expanded gs s e optimize_for max_transfers).1
  = _dijkstra_pathfinding gs s e optimize_for max_transfers.
Proof. apply dijkstra_loop_expanded_fst. Qed.

Lemma trace_explore_returns gs optimize_for cur conns acc :
  trace_explore gs optimize_for cur conns acc ≠ OutOfFuel.
Proof.
  revert acc. induction conns as [|c rest IH]; intros [[q n] added]; simpl;
    [done|].
  case_bool_decide; [apply IH|].
  destruct (boarding gs _ c). destruct (stops_get _ _); [apply IH | done].
Qed.

(** The loop of the trace ends within its 100 iterations: every iteration
    that goes on raises [step_count]. *)
Lemma trace_loop_ends gs end_stop_id optimize_for fuel st :
  (1 ≤ fuel)%nat →
  101 - step_count st ≤ Z.of_nat fuel →
  trace_loop gs end_stop_id optimize_for fuel st ≠ OutOfFuel.
Proof.
  revert st. induction fuel as [|fuel IH]; intros st Hpos Hfuel; [lia|].
  simpl. destruct (step_count st <? 100) eqn:Hcap; simpl; [|done].
  apply Z.ltb_lt in Hcap.
  destruct (heappop (t_pq st)) as [[cur pq']|]; [|done].
  case_bool_decide; [apply IH; simpl; lia|].
  destruct (String.eqb (e_stop cur) end_stop_id); [done|].
  destruct (stops_get _ _); [|apply IH; simpl; lia].
  pose proof (trace_explore_returns gs optimize_for cur (connections s)
                (pq', t_counter st, [])) as Hex.
  destruct (trace_explore _ _ _ _ _) as [[[q n] added]| |]; [|done..].
  destruct added; apply IH; simpl; lia.
Qed.

Lemma trace_ends gs s e optimize_for :
  get_algorithm_execution_steps gs s e optimize_for ≠ OutOfFuel.
Proof.
  unfold get_algorithm_execution_steps. destruct (negb _ || negb _); [done|].
  pose proof (trace_loop_ends gs e optimize_for 100 (trace_initial s)) as H.
  destruct (trace_loop _ _ _ _ _); [done..|]. destruct H; simpl; [lia|lia|done].
Qed.

(** C4 fails on the code: in [chain_graph], where the one way from S to T
    changes line six times, the trace ends well below 100 steps with the
    destination found and all eight stops visited, while the search returns
    None, having popped the seven stops before T and left the entry of f,
    with its five transfers, unexpanded. The trace has neither the bound on
    transfers nor the table of best costs of the search. *)
Lemma trace_disagrees_with_search :
  get_algorithm_execution_steps chain_graph "S" "T" "time"
  = Returned chain_trace
  ∧ (length chain_trace < 100)%nat
  ∧ trace_found chain_trace = true
  ∧ trace_visited chain_trace
    = list_to_set ["S"; "a"; "b"; "c"; "d"; "e"; "f"; "T"]
  ∧ _dijkstra_pathfinding chain_graph "S" "T" "time" 5 = Returned None
  ∧ (dijkstra_expanded chain_graph "S" "T" "time" 5).2
    = list_to_set ["S"; "a"; "b"; "c"; "d"; "e"; "f"].
Proof.
  split_and!; vm_compute; try reflexivity. lia.
Qed.

(** ** The route enhancer *)

Lemma obind_Returned {A B} (o : outcome A) (k : A → outcome B) b :
  obind o k = Returned b → ∃ a, o = Returned a ∧ k a = Returned b.
Proof. destruct o as [a| |]; [eauto | done..]. Qed.

Lemma walking_is_not_metro : contains "METRO" "WALKING" = false.
Proof. reflexivity. Qed.

(** What the enhancer does to the two mistyped segments of [typed_route]:
    the train and the metro line both come out as buses. *)
Lemma enhance_route_overwrites_types :
  ∃ enhanced,
    enhance_route flat_km geopy_none due_north test_graph typed_route
      (129734 # 10000) (775946 # 10000) (129738 # 10000) (776108 # 10000)
    = Returned enhanced
    ∧ (λ seg, (route_id seg, route_type seg)) <$> segments enhanced
      = [("WALKING", "walking"); ("RAIL_7", "bus"); ("PURPLE_LINE", "bus");
         ("WALKING", "walking")].
Proof. eexists. split; vm_compute; reflexivity. Qed.

(** ** Walking times *)

Lemma py_int_floor (x : Q) : (0 <= x)%Q → py_int x = Qfloor x.
Proof.
  destruct x as [n d]. unfold Qle, py_int, Qfloor. simpl. intros H.
  apply Z.quot_div_nonneg; lia.
Qed.

(** For a cached stop at a distance [d] that is not negative: the whole
    minutes of [d / speed * 60] when [d] is within the maximum walking
    distance, infinite minutes beyond, each paired with [d]. *)
Lemma walking_time_known_stop geodesic geodesic_none gs la lo id stop :
  stops_get (stops_cache gs) id = Some stop →
  let d := geodesic (la, lo) (stop_coords stop) in
  (0 <= d)%Q →
  calculate_walking_time_from_coords geodesic geodesic_none gs la lo id
  = Returned
      (if Qle_bool d settings.MAX_WALKING_DISTANCE_KM
       then (Int (Qfloor (d / settings.WALKING_SPEED_KMH * 60)), d)
       else (Inf, d)).
Proof.
  intros Hget d Hd.
  unfold calculate_walking_time_from_coords, get_stop_coordinates.
  rewrite Hget. unfold stop_coords in *.
  cbn [not_pair geodesic_to obind fst snd]. fold d.
  unfold walking_time_of, Qltb.
  destruct (Qle_bool d settings.MAX_WALKING_DISTANCE_KM); cbn [negb]; [|done].
  rewrite py_int_floor; [done|].
  apply Qmult_le_0_compat; [|by vm_compute].
  apply Qmult_le_0_compat; [exact Hd | by vm_compute].
Qed.

(** For a stop that is not cached the guard [if not stop_coords] does not
    fire, [get_stop_coordinates] having returned the pair [(None, None)]:
    the result is whatever comes out of measuring the distance to that
    pair. *)
Lemma walking_time_unknown_stop geodesic geodesic_none gs la lo id :
  in_stops gs id = false →
  calculate_walking_time_from_coords geodesic geodesic_none gs la lo id
  = obind (geodesic_none (la, lo)) (λ d, Returned (walking_time_of d)).
Proof.
  unfold in_stops, calculate_walking_time_from_coords, get_stop_coordinates.
  by destruct (stops_get (stops_cache gs) id).
Qed.

(** C6 fails on the code for a stop that is not cached: asked for the walk
    from latitude 0, longitude 0 to the unknown stop X, the code returns 0
    minutes and 0 km, a finite walking time, where the claim and the
    guarded return of the code have infinite minutes. *)
Lemma walking_time_unknown_stop_is_finite :
  in_stops test_graph "X" = false
  ∧ calculate_walking_time_from_coords flat_km geopy_none test_graph 0 0 "X"
    = Returned (Int 0, 0%Q).
Proof. split; vm_compute; reflexivity. Qed.

(** ** Nearest stops *)

Lemma Qltb_lt (a b : Q) : Qltb a b = true ↔ (a < b)%Q.
Proof.
  unfold Qltb. rewrite negb_true_iff. split.
  - intros H. apply Qnot_le_lt. intros Hle.
    apply Qle_bool_iff in Hle. congruence.
  - intros H. destruct (Qle_bool b a) eqn:E; [|done].
    apply Qle_bool_iff in E. by apply Qlt_not_le in H.
Qed.

Lemma string_lt_trans a b c : string_lt a b → string_lt b c → string_lt a c.
Proof.
  unfold string_lt, String.ltb. intros Hab Hbc.
  destruct (String.compare a b) eqn:E1; try done.
  destruct (String.compare b c) eqn:E2; try done.
  apply String_as_OT.cmp_lt in E1, E2.
  pose proof (String_as_OT.lt_trans _ _ _ E1 E2) as H.
  apply String_as_OT.cmp_lt in H. unfold String_as_OT.cmp in H. by rewrite H.
Qed.

Lemma string_compare_refl a : String.compare a a = Eq.
Proof. by apply String_as_OT.cmp_eq. Qed.

Lemma string_lt_irrefl a : ¬ string_lt a a.
Proof. unfold string_lt, String.ltb. by rewrite string_compare_refl. Qed.

(** [b < a] fails exactly when [a < b] or [a = b]. *)
Lemma string_ltb_false a b :
  String.ltb b a = false ↔ string_lt a b ∨ a = b.
Proof.
  unfold string_lt, String.ltb. rewrite (String.compare_antisym b a).
  destruct (String.compare a b) eqn:E; simpl.
  - apply String.compare_eq_iff in E. split; [by right | done].
  - split; [by left | done].
  - split; [done|]. intros [?| ->]; [done|].
    rewrite string_compare_refl in E. done.
Qed.

Lemma tuple_ltb_lt x y : tuple_ltb x y = true ↔ tuple_lt x y.
Proof.
  destruct x as [[d1 id1] n1], y as [[d2 id2] n2].
  unfold tuple_ltb, tuple_lt, string_lt. simpl.
  destruct (Qeq_bool d1 d2) eqn:Ed; simpl.
  - apply Qeq_bool_iff in Ed.
    destruct (String.eqb id1 id2) eqn:Ei; simpl.
    + apply String.eqb_eq in Ei as ->. split.
      * intros H. right. split; [done|]. by right.
      * intros [Hlt|[_ [Hlt|[_ H]]]]; [|by apply string_lt_irrefl in Hlt|done].
        rewrite Ed in Hlt. by apply Qlt_irrefl in Hlt.
    + apply String.eqb_neq in Ei. split.
      * intros H. right. split; [done|]. by left.
      * intros [Hlt|[_ [Hlt|[? _]]]]; [|done..].
        rewrite Ed in Hlt. by apply Qlt_irrefl in Hlt.
  - rewrite Qltb_lt. split; [by left|].
    intros [?|[Heq _]]; [done|]. apply Qeq_bool_iff in Heq. congruence.
Qed.

Lemma tuple_ltb_le x y : tuple_ltb y x = false ↔ tuple_le x y.
Proof.
  destruct x as [[d1 id1] n1], y as [[d2 id2] n2].
  unfold tuple_ltb, tuple_le. simpl.
  destruct (Qeq_bool d2 d1) eqn:Ed; simpl.
  - apply Qeq_bool_iff in Ed. symmetry in Ed.
    destruct (String.eqb id2 id1) eqn:Ei; simpl.
    + apply String.eqb_eq in Ei as ->. rewrite string_ltb_false. split.
      * intros H. right. split; [done|]. by right.
      * intros [Hlt|[_ [Hlt|[_ H]]]]; [|by apply string_lt_irrefl in Hlt|done].
        rewrite Ed in Hlt. by apply Qlt_irrefl in Hlt.
    + apply String.eqb_neq in Ei. rewrite string_ltb_false. split.
      * intros [H|H]; [|congruence]. right. split; [done|]. by left.
      * intros [Hlt|[_ [Hlt|[? _]]]]; [|by left|congruence].
        rewrite Ed in Hlt. by apply Qlt_irrefl in Hlt.
  - assert (Hne : ¬ (d1 == d2)%Q).
    { intros H. symmetry in H. apply Qeq_bool_iff in H. congruence. }
    split.
    + intros H. left. destruct (Qltb d2 d1) eqn:E; [done|].
      destruct (Q_dec d1 d2) as [[?|Hgt]|?]; [done| |done].
      apply Qltb_lt in Hgt. congruence.
    + intros [Hlt|[Heq _]]; [|done].
      destruct (Qltb d2 d1) eqn:E; [|done].
      apply Qltb_lt in E. destruct (Qlt_irrefl d1). by apply (Qlt_trans _ d2).
Qed.

Lemma tuple_le_trans x y z : tuple_le x y → tuple_le y z → tuple_le x z.
Proof.
  destruct x as [[d1 id1] n1], y as [[d2 id2] n2], z as [[d3 id3] n3].
  unfold tuple_le. simpl.
  intros [H12|[E12 A12]] [H23|[E23 A23]].
  - left. by apply (Qlt_trans _ d2).
  - left. by rewrite <- E23.
  - left. by rewrite E12.
  - right. split; [by apply (Qeq_trans _ d2)|].
    destruct A12 as [L12|[-> B12]], A23 as [L23|[-> B23]].
    + left. by eapply string_lt_trans.
    + by left.
    + by left.
    + right. split; [done|].
      destruct B12 as [?| ->], B23 as [?| ->]; [left|by left|by left|by right].
      by eapply string_lt_trans.
Qed.

Lemma tuple_lt_le x y : tuple_ltb x y = true → tuple_le x y.
Proof.
  rewrite tuple_ltb_lt. unfold tuple_lt, tuple_le.
  intros [?|[? [?|[? ?]]]]; [by left|right..]; (split; [done|]);
    [by left | right; split; [done | by left]].
Qed.

Lemma sort_insert_perm x l : sort_insert x l ≡ₚ x :: l.
Proof.
  induction l as [|y l IH]; simpl; [done|].
  destruct (tuple_ltb y x); [|done]. rewrite IH. apply Permutation_swap.
Qed.

Lemma list_sort_perm l : list_sort l ≡ₚ l.
Proof.
  unfold list_sort. induction l as [|x l IH]; simpl; [done|].
  by rewrite sort_insert_perm, IH.
Qed.

Lemma sort_insert_sorted x l :
  StronglySorted tuple_le l → StronglySorted tuple_le (sort_insert x l).
Proof.
  induction 1 as [|y l Hs IH Hall]; simpl.
  - repeat constructor.
  - destruct (tuple_ltb y x) eqn:E.
    + constructor; [done|]. rewrite sort_insert_perm.
      constructor; [by apply tuple_lt_le | done].
    + apply tuple_ltb_le in E. constructor; [by constructor|].
      constructor; [done|].
      eapply Forall_impl; [exact Hall|]. intros z Hz. by eapply tuple_le_trans.
Qed.

Lemma list_sort_sorted l : StronglySorted tuple_le (list_sort l).
Proof.
  unfold list_sort. induction l as [|x l IH]; simpl; [constructor|].
  by apply sort_insert_sorted.
Qed.

Lemma retained_tuples geodesic gs la lo :
  omap (λ stop,
          let distance := geodesic (la, lo) (stop_coords stop) in
          if Qle_bool distance settings.MAX_WALKING_DISTANCE_KM
          then Some (distance, stop_id stop, name stop)
          else None)
       (stops_cache gs)
  = distance_tuple geodesic la lo <$>
      List.filter (λ stop,
                Qle_bool (geodesic (la, lo) (stop_coords stop))
                  settings.MAX_WALKING_DISTANCE_KM)
             (stops_cache gs).
Proof.
  cbv zeta. induction (stops_cache gs) as [|stop l IH]; csimpl; [done|].
  destruct (Qle_bool _ _); csimpl; by rewrite IH.
Qed.

(** C9, as the code has it: for every query point and every limit that is
    not negative, [find_nearest_stops] returns the first [limit] pairs
    (stop id, distance) of a list that holds exactly the cached stops
    within the maximum walking distance, in ascending order of distance,
    stops at the same distance in ascending order of stop id. *)
Theorem nearest_stops_sorted geodesic gs la lo limit :
  0 ≤ limit →
  ∃ sorted : list dist_tuple,
    find_nearest_stops geodesic gs la lo limit
    = (λ t : dist_tuple, (t.1.2, t.1.1)) <$> take (Z.to_nat limit) sorted
    ∧ sorted ≡ₚ distance_tuple geodesic la lo <$>
                  List.filter (λ stop,
                            Qle_bool (geodesic (la, lo) (stop_coords stop))
                              settings.MAX_WALKING_DISTANCE_KM)
                         (stops_cache gs)
    ∧ (∀ stop, distance_tuple geodesic la lo stop ∈ sorted ↔
               ∃ stop', stop' ∈ stops_cache gs
                        ∧ within_walking_distance geodesic la lo stop'
                        ∧ distance_tuple geodesic la lo stop'
                          = distance_tuple geodesic la lo stop)
    ∧ StronglySorted tuple_le sorted
    ∧ (length (find_nearest_stops geodesic gs la lo limit) ≤ Z.to_nat limit)%nat.
Proof.
  intros Hlimit. unfold find_nearest_stops. rewrite retained_tuples.
  set (retained := distance_tuple geodesic la lo <$> _).
  exists (list_sort retained).
  assert (Hslice : slice_to (list_sort retained) limit
                   = take (Z.to_nat limit) (list_sort retained)).
  { unfold slice_to. destruct (0 <=? limit) eqn:E; [done|lia]. }
  rewrite Hslice. split_and!.
  - done.
  - apply list_sort_perm.
  - intros stop. rewrite list_sort_perm. subst retained.
    rewrite list_elem_of_fmap. split.
    + intros (stop' & Heq & Hin). apply list_elem_of_In, filter_In in Hin as [Hin Hd].
      exists stop'. split_and!; [by apply list_elem_of_In| |done].
      by apply Qle_bool_iff.
    + intros (stop' & Hin & Hd & Heq). exists stop'. split; [done|].
      apply list_elem_of_In, filter_In. split; [by apply list_elem_of_In|].
      by apply Qle_bool_iff.
  - apply list_sort_sorted.
  - rewrite length_fmap, length_take. lia.
Qed.

Lemma nearest_stops_sorted_witness :
  ∃ sorted : list dist_tuple,
    find_nearest_stops flat_km twin_graph (129716 # 10000) (775946 # 10000) 1
    = (λ t : dist_tuple, (t.1.2, t.1.1)) <$> take (Z.to_nat 1) sorted
    ∧ sorted ≡ₚ distance_tuple flat_km (129716 # 10000) (775946 # 10000) <$>
                  List.filter (λ stop,
                            Qle_bool (flat_km (129716 # 10000, 775946 # 10000)
                                        (stop_coords stop))
                              settings.MAX_WALKING_DISTANCE_KM)
                         (stops_cache twin_graph)
    ∧ (∀ stop,
         distance_tuple flat_km (129716 # 10000) (775946 # 10000) stop ∈ sorted ↔
         ∃ stop', stop' ∈ stops_cache twin_graph
                  ∧ within_walking_distance flat_km (129716 # 10000)
                      (775946 # 10000) stop'
                  ∧ distance_tuple flat_km (129716 # 10000) (775946 # 10000) stop'
                    = distance_tuple flat_km (129716 # 10000) (775946 # 10000) stop)
    ∧ StronglySorted tuple_le sorted
    ∧ (length (find_nearest_stops flat_km twin_graph (129716 # 10000)
                 (775946 # 10000) 1) ≤ Z.to_nat 1)%nat.
Proof.
  apply (nearest_stops_sorted flat_km twin_graph (129716 # 10000)
           (775946 # 10000) 1).
  lia.
Defined.

(** C9 as stated fails on ties: with B cached before A at the same place,
    the code lists A before B, the order of the stop ids, where the stable
    order of the cache has B before A. It also fails for a negative limit,
    which the slice [distances[:limit]] counts from the end: with limit -1
    one of the two stops is returned. *)
Lemma nearest_stops_ties_by_stop_id :
  (find_nearest_stops flat_km twin_graph (129716 # 10000) (775946 # 10000) 5).*1
  = ["A"; "B"]
  ∧ (nearest_stops_stable flat_km twin_graph (129716 # 10000)
       (775946 # 10000) 5).*1
    = ["B"; "A"]
  ∧ find_nearest_stops flat_km twin_graph (129716 # 10000) (775946 # 10000) 5
    ≠ nearest_stops_stable flat_km twin_graph (129716 # 10000)
        (775946 # 10000) 5
  ∧ length (find_nearest_stops flat_km twin_graph (129716 # 10000)
              (775946 # 10000) (-1)) = 1%nat.
Proof.
  split_and!; [vm_compute; reflexivity..| |vm_compute; reflexivity].
  intros H. apply (f_equal (fmap fst)) in H. vm_compute in H. discriminate.
Qed.

(** ** The choice of [find_optimal_route] *)

Lemma num_ltb_lt a b : num_ltb a b = true ↔ num_lt a b.
Proof.
  destruct a as [x|x|], b as [y|y|]; unfold num_lt; simpl;
    rewrite ?Qltb_lt; try done.
  rewrite Z.ltb_lt. by rewrite Zlt_Qlt.
Qed.

Lemma num_lt_irrefl a : ¬ num_lt a a.
Proof. unfold num_lt. destruct (num_Q a); [apply Qlt_irrefl | tauto]. Qed.

Lemma num_lt_trans a b c : num_lt a b → num_lt b c → num_lt a c.
Proof.
  unfold num_lt. destruct (num_Q a), (num_Q b), (num_Q c); try tauto.
  apply Qlt_trans.
Qed.

(** [a < b] and not [c < b] give [a < c]. *)
Lemma num_lt_not_lt a b c : num_lt a b → ¬ num_lt c b → num_lt a c.
Proof.
  unfold num_lt. destruct (num_Q a), (num_Q b), (num_Q c); try tauto.
  intros Hab Hcb. apply Qnot_lt_le in Hcb. by eapply Qlt_le_trans.
Qed.

Lemma num_ltb_irrefl a : num_ltb a a = false.
Proof.
  destruct (num_ltb a a) eqn:E; [|done].
  apply num_ltb_lt in E. by apply num_lt_irrefl in E.
Qed.

Lemma fold_outcome_app {A B} (f : A → B → outcome A) l1 l2 a :
  fold_outcome f (l1 ++ l2) a = obind (fold_outcome f l1 a) (fold_outcome f l2).
Proof.
  revert a. induction l1 as [|b l1 IH]; intros a; simpl; [done|].
  destruct (f a b); simpl; [apply IH | done..].
Qed.

Lemma fold_outcome_row {A B C} (f : A → B → C → outcome A) b (l2 : list C) a :
  fold_outcome (λ acc c, f acc b c) l2 a
  = fold_outcome (λ acc p, f acc p.1 p.2) (map (λ y, (b, y)) l2) a.
Proof.
  revert a. induction l2 as [|c l2 IH]; intros a; simpl; [done|].
  destruct (f a b c); simpl; [apply IH | done..].
Qed.

(** The two nested loops try the pairs in the order of [list_prod]. *)
Lemma fold_outcome_pairs {A B C} (f : A → B → C → outcome A)
    (l1 : list B) (l2 : list C) a :
  fold_outcome (λ acc b, fold_outcome (λ acc' c, f acc' b c) l2 acc) l1 a
  = fold_outcome (λ acc p, f acc p.1 p.2) (list_prod l1 l2) a.
Proof.
  revert a. induction l1 as [|b l1 IH]; intros a; simpl; [done|].
  rewrite fold_outcome_app, fold_outcome_row.
  destruct (fold_outcome _ (map _ l2) a); simpl; [apply IH|done..].
Qed.

Lemma try_pair_candidate geodesic geodesic_none gs db sla slo ela elo
    optimize_for start_stop best end_stop :
  try_pair geodesic geodesic_none gs db sla slo ela elo optimize_for
    start_stop best end_stop
  = obind (candidate geodesic geodesic_none gs db sla slo ela elo optimize_for
             (start_stop, end_stop))
      (λ c, Returned
              match c with
              | Some route =>
                  if num_ltb (_calculate_total_cost route optimize_for) best.2
                  then (Some route, _calculate_total_cost route optimize_for)
                  else best
              | None => best
              end).
Proof.
  unfold try_pair, candidate. simpl.
  destruct (_dijkstra_with_transfers _ _ _ _ _) as [[route|]| |]; simpl; try done.
  destruct (calculate_walking_time_from_coords _ _ _ sla slo _)
    as [[sw sd]| |]; simpl; try done.
  by destruct (calculate_walking_time_from_coords _ _ _ ela elo _)
    as [[ew ed]| |].
Qed.

Lemma best_so_far_step score done best c :
  (∀ r, c = Some r → num_ltb (score r) Inf = true) →
  best_so_far score done best →
  best_so_far score (done ++ [c])
    match c with
    | Some route =>
        if num_ltb (score route) best.2 then (Some route, score route) else best
    | None => best
    end.
Proof.
  intros Hfin [Hchosen Hcost]. destruct best as [[b|] cost]; simpl in *.
  - subst cost. destruct Hchosen as (i & Hi & Hmin & Hfirst).
    assert (Hi' : (i < length done)%nat) by by eapply lookup_lt_Some.
    destruct c as [route|].
    + destruct (num_ltb (score route) (score b)) eqn:E; split; simpl; try done.
      * exists (length done). split_and!.
        -- by rewrite lookup_app_r, Nat.sub_diag by lia.
        -- intros j c Hj. apply lookup_app_Some in Hj as [Hj|[_ Hj]].
           ++ destruct (num_ltb (score c) (score route)) eqn:E2; [|done].
              apply num_ltb_lt in E, E2.
              pose proof (num_lt_trans _ _ _ E2 E) as H.
              apply num_ltb_lt in H. rewrite (Hmin j c Hj) in H. done.
           ++ destruct (j - length done)%nat; simpl in Hj; [|done].
              injection Hj as <-. apply num_ltb_irrefl.
        -- intros j c Hlt Hj. rewrite lookup_app_l in Hj by done.
           apply num_ltb_lt. apply num_ltb_lt in E.
           eapply num_lt_not_lt; [exact E|].
           rewrite <- num_ltb_lt. rewrite (Hmin j c Hj). done.
      * exists i. split_and!.
        -- by rewrite lookup_app_l.
        -- intros j c Hj. apply lookup_app_Some in Hj as [Hj|[_ Hj]];
             [by eapply Hmin|].
           destruct (j - length done)%nat; simpl in Hj; [|done].
           by injection Hj as <-.
        -- intros j c Hlt Hj. rewrite lookup_app_l in Hj by lia.
           by eapply Hfirst.
    + split; simpl; [|done]. exists i. split_and!.
      * by rewrite lookup_app_l.
      * intros j c Hj. apply lookup_app_Some in Hj as [Hj|[_ Hj]];
          [by eapply Hmin|].
        destruct (j - length done)%nat; simpl in Hj; done.
      * intros j c Hlt Hj. rewrite lookup_app_l in Hj by lia.
        by eapply Hfirst.
  - subst cost. destruct c as [route|].
    + rewrite (Hfin route eq_refl). split; simpl; [|done].
      exists (length done). split_and!.
      * by rewrite lookup_app_r, Nat.sub_diag by lia.
      * intros j c Hj. apply lookup_app_Some in Hj as [Hj|[_ Hj]].
        -- rewrite Forall_lookup in Hchosen. by specialize (Hchosen j _ Hj).
        -- destruct (j - length done)%nat; simpl in Hj; [|done].
           injection Hj as <-. apply num_ltb_irrefl.
      * intros j c Hlt Hj. rewrite lookup_app_l in Hj by done.
        rewrite Forall_lookup in Hchosen. by specialize (Hchosen j _ Hj).
    + split; simpl; [|done]. apply Forall_app. split; [done|]. by constructor.
Qed.

Lemma fold_try_pair geodesic geodesic_none gs db sla slo ela elo optimize_for
    pairs candidates done best :
  Forall2 (λ p c, candidate geodesic geodesic_none gs db sla slo ela elo
                    optimize_for p = Returned c) pairs candidates →
  Forall (λ c, ∀ r, c = Some r →
                    num_ltb (_calculate_total_cost r optimize_for) Inf = true)
         candidates →
  best_so_far (λ r, _calculate_total_cost r optimize_for) done best →
  ∃ best',
    fold_outcome
      (λ acc p, try_pair geodesic geodesic_none gs db sla slo ela elo
                  optimize_for p.1 acc p.2) pairs best
    = Returned best'
    ∧ best_so_far (λ r, _calculate_total_cost r optimize_for)
        (done ++ candidates) best'.
Proof.
  intros Hall. revert done best.
  induction Hall as [|p c pairs candidates Hp _ IH]; intros done best Hfin Hbest.
  - exists best. by rewrite app_nil_r.
  - apply Forall_cons in Hfin as [Hc Hfin]. simpl.
    rewrite try_pair_candidate. destruct p as [s e]. simpl. rewrite Hp. simpl.
    destruct (IH (done ++ [c]) _ Hfin (best_so_far_step _ done best c Hc Hbest))
      as (best' & Hfold & Hbest').
    exists best'. split; [exact Hfold|]. by rewrite <- app_assoc in Hbest'.
Qed.

Lemma elem_of_slice_to {A} (l : list A) n x : x ∈ slice_to l n → x ∈ l.
Proof.
  unfold slice_to. destruct (0 <=? n); apply subseteq_take.
Qed.

Lemma list_prod_nil_r {A B} (l : list A) : list_prod l (@nil B) = [].
Proof. induction l as [|x l IH]; [done | exact IH]. Qed.

Lemma length_slice_to_3 {A} (l : list A) : (length (slice_to l 3) ≤ 3)%nat.
Proof. unfold slice_to. simpl. rewrite length_take. lia. Qed.

Lemma stops_get_NoDup cache stop :
  NoDup (stop_id <$> cache) → stop ∈ cache →
  stops_get cache (stop_id stop) = Some stop.
Proof.
  induction cache as [|s rest IH]; [by intros _ ?%elem_of_nil|].
  rewrite fmap_cons. intros [Hnotin Hnd]%NoDup_cons [->|Hin]%elem_of_cons; simpl.
  - by rewrite String.eqb_refl.
  - destruct (String.eqb (stop_id s) (stop_id stop)) eqn:E; [|by apply IH].
    apply String.eqb_eq in E. destruct Hnotin. rewrite E.
    by apply list_elem_of_fmap_2.
Qed.

(** The stops [find_nearest_stops] lists are cached, within the maximum
    walking distance. *)
Lemma nearest_stops_known geodesic gs la lo limit id :
  dict_ok gs →
  id ∈ (find_nearest_stops geodesic gs la lo limit).*1 →
  ∃ stop, stops_get (stops_cache gs) id = Some stop
          ∧ Qle_bool (geodesic (la, lo) (stop_coords stop))
              settings.MAX_WALKING_DISTANCE_KM = true.
Proof.
  intros Hok. unfold find_nearest_stops. rewrite retained_tuples.
  rewrite <- list_fmap_compose.
  intros (t & -> & Ht%elem_of_slice_to)%list_elem_of_fmap.
  rewrite list_sort_perm in Ht.
  apply list_elem_of_fmap in Ht as (stop & -> & Hin).
  apply list_elem_of_In, filter_In in Hin as [Hin Hd].
  apply list_elem_of_In in Hin. exists stop. split; [|done].
  simpl. by apply stops_get_NoDup.
Qed.

Lemma walking_time_near geodesic geodesic_none gs la lo id stop :
  stops_get (stops_cache gs) id = Some stop →
  Qle_bool (geodesic (la, lo) (stop_coords stop))
    settings.MAX_WALKING_DISTANCE_KM = true →
  ∃ minutes d,
    calculate_walking_time_from_coords geodesic geodesic_none gs la lo id
    = Returned (Int minutes, d).
Proof.
  intros Hget Hd.
  unfold calculate_walking_time_from_coords, get_stop_coordinates.
  rewrite Hget. unfold stop_coords in *.
  cbn [not_pair geodesic_to obind fst snd].
  unfold walking_time_of, Qltb. rewrite Hd. cbn [negb]. eauto.
Qed.

(** What the search returns has a finite total time and no walk yet. *)
Lemma search_result_shape gs db s e optimize_for r :
  _dijkstra_with_transfers gs db s e optimize_for = Returned (Some r) →
  ∃ minutes, total_time r = Int minutes
             ∧ walking_time r = Int 0 ∧ total_distance_km r = 0%Q.
Proof.
  unfold _dijkstra_with_transfers, dijkstra_with_transfers_fuel.
  destruct (stops_get (stops_cache gs) s) as [start_stop|]; [|done].
  destruct (stops_get (stops_cache gs) e) as [end_stop|]; [|done].
  destruct (String.eqb s e); [intros [= <-]; by eexists|].
  destruct (List.find _ _) as [connection|]; [intros [= <-]; by eexists|].
  unfold _find_route_serving_both_stops.
  destruct (List.find _ (db_routes db)) as [doc|]; [intros [= <-]; by eexists|].
  intros Hr. pose proof (dijkstra_pathfinding_spec gs s e optimize_for 5) as H.
  unfold _dijkstra_pathfinding in H. rewrite Hr in H.
  destruct H as (cur & _ & _ & ->). by eexists.
Qed.

Lemma candidate_score_finite geodesic geodesic_none gs db sla slo ela elo
    optimize_for s e r :
  dict_ok gs →
  s ∈ (find_nearest_stops geodesic gs sla slo 3).*1 →
  e ∈ (find_nearest_stops geodesic gs ela elo 3).*1 →
  candidate geodesic geodesic_none gs db sla slo ela elo optimize_for (s, e)
  = Returned (Some r) →
  num_ltb (_calculate_total_cost r optimize_for) Inf = true.
Proof.
  intros Hok Hs He. unfold candidate. simpl.
  intros ([route|] & Hsearch & H)%obind_Returned; [|done].
  destruct (nearest_stops_known _ _ _ _ _ _ Hok Hs) as (ss & Hgs & Hds).
  destruct (nearest_stops_known _ _ _ _ _ _ Hok He) as (es & Hge & Hde).
  destruct (walking_time_near geodesic geodesic_none _ _ _ _ _ Hgs Hds)
    as (sm & sd & Hsw).
  destruct (walking_time_near geodesic geodesic_none _ _ _ _ _ Hge Hde)
    as (em & ed & Hew).
  rewrite Hsw, Hew in H. simpl in H. injection H as <-.
  apply search_result_shape in Hsearch as (minutes & Htime & _).
  unfold _calculate_total_cost, add_walking. simpl. rewrite Htime.
  by repeat destruct (String.eqb optimize_for _).
Qed.

(** The candidate of a pair of nearest stops whose search returned is
    the itinerary found with its walks added. *)
Lemma candidate_walks geodesic geodesic_none gs db sla slo ela elo
    optimize_for s e found :
  dict_ok gs →
  s ∈ (find_nearest_stops geodesic gs sla slo 3).*1 →
  e ∈ (find_nearest_stops geodesic gs ela elo 3).*1 →
  _dijkstra_with_transfers gs db s e optimize_for = Returned found →
  ∃ c, candidate geodesic geodesic_none gs db sla slo ela elo optimize_for
         (s, e) = Returned c
       ∧ candidate_of geodesic geodesic_none gs sla slo ela elo (s, e) found c.
Proof.
  intros Hok Hs He Hsearch. unfold candidate. simpl. rewrite Hsearch. simpl.
  destruct found as [route|]; [|by exists None].
  destruct (nearest_stops_known _ _ _ _ _ _ Hok Hs) as (ss & Hgs & Hds).
  destruct (nearest_stops_known _ _ _ _ _ _ Hok He) as (es & Hge & Hde).
  destruct (walking_time_near geodesic geodesic_none _ _ _ _ _ Hgs Hds)
    as (ms & ds & Hms).
  destruct (walking_time_near geodesic geodesic_none _ _ _ _ _ Hge Hde)
    as (me & de & Hme).
  rewrite Hms, Hme. simpl. eexists. split; [done|].
  exists (Int ms, ds), (Int me, de). eexists. split_and!; [done..|].
  apply search_result_shape in Hsearch as (minutes & Htime & _ & Hdist).
  unfold walks_added. simpl. rewrite Hdist. split_and!; try done.
  by rewrite Qplus_0_l.
Qed.

Lemma candidates_walks geodesic geodesic_none gs db sla slo ela elo
    optimize_for pairs founds :
  dict_ok gs →
  Forall (λ p, p.1 ∈ (find_nearest_stops geodesic gs sla slo 3).*1
               ∧ p.2 ∈ (find_nearest_stops geodesic gs ela elo 3).*1) pairs →
  Forall2 (λ p found,
             _dijkstra_with_transfers gs db p.1 p.2 optimize_for
             = Returned found) pairs founds →
  ∃ candidates,
    Forall2 (λ p c, candidate geodesic geodesic_none gs db sla slo ela elo
                      optimize_for p = Returned c) pairs candidates
    ∧ Forall2 (λ pf c, candidate_of geodesic geodesic_none gs
                         sla slo ela elo pf.1 pf.2 c)
              (zip pairs founds) candidates.
Proof.
  intros Hok Hnear Hfounds.
  induction Hfounds as [|[s e] found pairs founds Hsearch _ IH].
  - exists []. split; constructor.
  - apply Forall_cons in Hnear as [[Hs He] Hnear].
    destruct (IH Hnear) as (cs & Hcs & Hof).
    destruct (candidate_walks geodesic geodesic_none gs db sla slo ela elo
                optimize_for s e found Hok Hs He Hsearch) as (c & Hc & Hcof).
    exists (c :: cs). split; by constructor.
Qed.

(** C5: when both points pass the validation and every search returns,
    [find_optimal_route] tries the pairs of the up to 3 nearest start stops
    and up to 3 nearest end stops, at most 9, start stop by start stop. The
    candidate of a pair is the itinerary its search found with the walks
    added: walking time the sum of the walk to the first stop and the walk
    from the last one, total time raised by it, total distance by the two
    walking distances. The result is none when no pair gives an itinerary,
    else the candidate with the lowest scalar for the objective (total time
    plus walking time, total fare, or transfer count), the first one tried
    among equals. *)
Theorem find_optimal_route_chooses geodesic geodesic_none gs db
    start_lat start_lon end_lat end_lon optimize_for founds :
  let gs' := ensure_loaded gs db in
  let start_stops := (find_nearest_stops geodesic gs' start_lat start_lon 3).*1 in
  let end_stops := (find_nearest_stops geodesic gs' end_lat end_lon 3).*1 in
  validate_coordinates geodesic gs' start_lat start_lon = true →
  validate_coordinates geodesic gs' end_lat end_lon = true →
  dict_ok gs' →
  Forall2 (λ p found,
             _dijkstra_with_transfers gs' db p.1 p.2 optimize_for
             = Returned found)
          (list_prod start_stops end_stops) founds →
  (length start_stops ≤ 3)%nat ∧ (length end_stops ≤ 3)%nat
  ∧ (length founds ≤ 9)%nat
  ∧ ∃ candidates result,
      Forall2 (λ pf c, candidate_of geodesic geodesic_none gs'
                         start_lat start_lon end_lat end_lon pf.1 pf.2 c)
              (zip (list_prod start_stops end_stops) founds) candidates
      ∧ find_optimal_route geodesic geodesic_none gs db
          start_lat start_lon end_lat end_lon optimize_for = Returned result
      ∧ chosen (objective_scalar optimize_for) candidates result.
Proof.
  intros gs' start_stops end_stops Hvs Hve Hok Hfounds.
  assert (Hls : (length start_stops ≤ 3)%nat).
  { subst start_stops. unfold find_nearest_stops.
    rewrite !length_fmap. apply length_slice_to_3. }
  assert (Hle : (length end_stops ≤ 3)%nat).
  { subst end_stops. unfold find_nearest_stops.
    rewrite !length_fmap. apply length_slice_to_3. }
  split_and!; [done..| |].
  { rewrite <- (Forall2_length _ _ _ Hfounds), length_prod. nia. }
  destruct (candidates_walks geodesic geodesic_none gs' db
              start_lat start_lon end_lat end_lon optimize_for
              (list_prod start_stops end_stops) founds Hok)
    as (candidates & Hcands & Hof); [|exact Hfounds|].
  { apply Forall_forall. intros [s e] Hin.
    apply list_elem_of_In, in_prod_iff in Hin as [Hs He].
    split; by apply list_elem_of_In. }
  exists candidates.
  assert (Hfin : Forall (λ c, ∀ r, c = Some r →
                   num_ltb (_calculate_total_cost r optimize_for) Inf = true)
                   candidates).
  { eapply Forall2_Forall_r; [exact Hcands|].
    apply Forall_forall. intros [s e] Hin c Hc r ->.
    apply list_elem_of_In, in_prod_iff in Hin as [Hs He].
    eapply candidate_score_finite; [done| | |exact Hc]; by apply list_elem_of_In. }
  destruct (fold_try_pair geodesic geodesic_none gs' db start_lat start_lon
              end_lat end_lon optimize_for _ _ [] (None, Inf) Hcands Hfin)
    as (best' & Hfold & Hbest & _).
  { split; [by constructor | done]. }
  change (chosen (objective_scalar optimize_for) ([] ++ candidates) best'.1)
    in Hbest.
  unfold find_optimal_route. fold gs'. rewrite Hvs, Hve. simpl.
  fold start_stops end_stops in Hfold |- *.
  destruct (find_nearest_stops geodesic gs' start_lat start_lon 3) eqn:Es.
  { simpl in Hcands. apply Forall2_nil_inv_l in Hcands as ->.
    exists None. split_and!; [done..| constructor]. }
  destruct (find_nearest_stops geodesic gs' end_lat end_lon 3) eqn:Ee.
  { subst start_stops end_stops. simpl in Hcands.
    rewrite list_prod_nil_r in Hcands.
    apply Forall2_nil_inv_l in Hcands as ->.
    exists None. split_and!; [done..| constructor]. }
  exists best'.1. split_and!; [done| |done].
  rewrite (fold_outcome_pairs
             (λ acc s e, try_pair geodesic geodesic_none gs' db
                           start_lat start_lon end_lat end_lon optimize_for
                           s acc e)).
  subst start_stops end_stops. by rewrite Hfold.
Qed.

Lemma plaza_dict_ok : dict_ok plaza_graph.
Proof. apply (bool_decide_unpack _). vm_compute. exact I. Qed.

Lemma plaza_start_stops :
  (find_nearest_stops flat_km (ensure_loaded plaza_graph empty_db) 0 0 3).*1
  = ["P1"; "P2"].
Proof. vm_compute. reflexivity. Qed.

Lemma plaza_end_stops :
  (find_nearest_stops flat_km (ensure_loaded plaza_graph empty_db)
     0 (21 # 1000) 3).*1
  = ["Q2"; "Q1"].
Proof. vm_compute. reflexivity. Qed.

Lemma plaza_founds_found :
  Forall2 (λ p found,
             _dijkstra_with_transfers (ensure_loaded plaza_graph empty_db)
               empty_db p.1 p.2 "time" = Returned found)
          (list_prod ["P1"; "P2"] ["Q2"; "Q1"]) plaza_founds.
Proof. repeat constructor; vm_compute; reflexivity. Qed.

Lemma find_optimal_route_chooses_witness :
  (length (find_nearest_stops flat_km (ensure_loaded plaza_graph empty_db)
             0 0 3).*1 ≤ 3)%nat
  ∧ (length (find_nearest_stops flat_km (ensure_loaded plaza_graph empty_db)
               0 (21 # 1000) 3).*1 ≤ 3)%nat
  ∧ (length plaza_founds ≤ 9)%nat
  ∧ ∃ candidates result,
      Forall2 (λ pf c, candidate_of flat_km geopy_none
                         (ensure_loaded plaza_graph empty_db)
                         0 0 0 (21 # 1000) pf.1 pf.2 c)
              (zip (list_prod
                      (find_nearest_stops flat_km
                         (ensure_loaded plaza_graph empty_db) 0 0 3).*1
                      (find_nearest_stops flat_km
                         (ensure_loaded plaza_graph empty_db)
                         0 (21 # 1000) 3).*1)
                   plaza_founds) candidates
      ∧ find_optimal_route flat_km geopy_none plaza_graph empty_db
          0 0 0 (21 # 1000) "time" = Returned result
      ∧ chosen (objective_scalar "time") candidates result.
Proof.
  apply (find_optimal_route_chooses flat_km geopy_none plaza_graph empty_db
           0 0 0 (21 # 1000) "time" plaza_founds).
  - vm_compute. reflexivity.
  - vm_compute. reflexivity.
  - exact plaza_dict_ok.
  - rewrite plaza_start_stops, plaza_end_stops. exact plaza_founds_found.
Defined.

(** On the square the choice depends on the objective: the fastest
    candidate, the cheapest one, and, all candidates having no transfer,
    the first one tried. *)
Lemma find_optimal_route_samples :
  (∃ r, find_optimal_route flat_km geopy_none plaza_graph empty_db
          0 0 0 (21 # 1000) "time" = Returned (Some r)
        ∧ path r = ["P2"; "Q2"] ∧ total_time r = Int 8
        ∧ walking_time r = Int 1)
  ∧ (∃ r, find_optimal_route flat_km geopy_none plaza_graph empty_db
            0 0 0 (21 # 1000) "cost" = Returned (Some r)
          ∧ path r = ["P2"; "Q1"])
  ∧ (∃ r, find_optimal_route flat_km geopy_none plaza_graph empty_db
            0 0 0 (21 # 1000) "transfers" = Returned (Some r)
          ∧ path r = ["P1"; "Q1"; "Q2"]).
Proof.
  split_and!; eexists; (split; [vm_compute; reflexivity | done]).
Qed.

(** * Further properties *)

(** ** What the general search keeps for every queue entry *)

Lemma explore_children gs optimize_for cur current_stop_obj conns st st' :
  explore gs optimize_for cur current_stop_obj conns st = Returned st' →
  ∃ new, pq st' = new ++ pq st
         ∧ Forall (λ e, ∃ c, c ∈ conns ∧ child_of gs cur c e) new.
Proof.
  revert st. induction conns as [|c rest IH]; intros st; simpl.
  - intros [= <-]. exists []. by split.
  - case_bool_decide as Hin.
    { intros (new & ? & Hall)%IH. exists new. split; [done|].
      eapply Forall_impl; [exact Hall|]. intros e (c' & ? & ?).
      exists c'. split; [by right | done]. }
    destruct (boarding gs _ c) as [boarding_penalty is_transfer] eqn:Hb.
    destruct (stops_get (stops_cache gs) (to_stop_id c)) as [next|]; [|done].
    match goal with |- context [explore _ _ _ _ rest ?s] => set (st1 := s) end.
    intros (new & Hpq & Hall)%IH.
    assert (Hall' : Forall (λ e, ∃ c', c' ∈ c :: rest ∧ child_of gs cur c' e) new).
    { eapply Forall_impl; [exact Hall|]. intros e (c' & ? & ?).
      exists c'. split; [by right | done]. }
    subst st1. destruct (match best_costs st !! to_stop_id c with
                         | Some b => _ | None => true end).
    + simpl in Hpq. unfold heappush in Hpq.
      eexists (new ++ [_]). rewrite <- app_assoc. split; [exact Hpq|].
      apply Forall_app. split; [done|]. constructor; [|done].
      exists c. split; [left|]. unfold child_of. rewrite Hb. simpl.
      split_and!; try done. eexists. by split_and!.
    + by exists new.
Qed.

(** A property of queue entries that the start entry has and that passes
    from an entry within the transfer bound to what its expansion pushes
    holds for the entry whose itinerary the loop returns. *)
Lemma dijkstra_loop_inv (P : entry RouteSegment → Prop) gs end_stop_id
    optimize_for max_transfers fuel st r :
  (∀ cur current_stop_obj c e,
     P cur → e_transfers cur < max_transfers →
     stops_get (stops_cache gs) (e_stop cur) = Some current_stop_obj →
     c ∈ connections current_stop_obj →
     child_of gs cur c e → P e) →
  Forall P (pq st) →
  dijkstra_loop gs end_stop_id optimize_for max_transfers fuel st
  = Returned (Some r) →
  ∃ e, P e ∧ e_stop e = end_stop_id ∧ r = found_route e.
Proof.
  intros Hstep. revert st. induction fuel as [|fuel IH]; intros st Hall; [done|].
  simpl. destruct (heappop (pq st)) as [[cur pq']|] eqn:Hpop; [|done].
  apply heappop_perm in Hpop. rewrite Hpop in Hall.
  apply Forall_cons in Hall as [Hcur Hall].
  destruct (match best_costs st !! e_stop cur with
            | Some b => _ | None => false end); [by apply IH|].
  destruct (String.eqb (e_stop cur) end_stop_id) eqn:Hend.
  { apply String.eqb_eq in Hend. intros [= <-]. by exists cur. }
  destruct (max_transfers <=? e_transfers cur) eqn:Hmax; [by apply IH|].
  apply Z.leb_gt in Hmax.
  destruct (stops_get (stops_cache gs) (e_stop cur)) as [obj|] eqn:Hget;
    [|by apply IH].
  destruct (explore _ _ _ _ _ _) as [st''| |] eqn:Hex; [|done..].
  apply explore_children in Hex as (new & Hpq & Hnew). simpl in Hpq.
  apply IH. rewrite Hpq. apply Forall_app. split; [|done].
  eapply Forall_impl; [exact Hnew|]. intros e (c & Hc & Hchild).
  by eapply Hstep.
Qed.

Lemma route_changes_snoc ids r :
  route_changes (ids ++ [r])
  = route_changes ids
    + match last ids with
      | Some r' => if String.eqb r' r then 0 else 1
      | None => 0
      end.
Proof.
  induction ids as [|a [|b ids] IH]; [done| |].
  - simpl. lia.
  - change (route_changes ((a :: b :: ids) ++ [r]))
      with ((if String.eqb a b then 0 else 1) + route_changes ((b :: ids) ++ [r])).
    rewrite IH.
    change (route_changes (a :: b :: ids))
      with ((if String.eqb a b then 0 else 1) + route_changes (b :: ids)).
    change (last (a :: b :: ids)) with (last (b :: ids)). lia.
Qed.

Lemma ride_minutes_snoc segs seg :
  ride_minutes (segs ++ [seg])
  = ride_minutes segs + (time seg + boarding_time seg).
Proof. unfold ride_minutes. induction segs as [|s segs IH]; simpl; lia. Qed.

Lemma fare_snoc segs seg : (fare (segs ++ [seg]) == fare segs + cost seg)%Q.
Proof.
  unfold fare. induction segs as [|s segs IH]; simpl; [ring|].
  rewrite IH. ring.
Qed.

Lemma boarding_is_transfer gs prev c :
  (boarding gs prev c).2
  = match prev with
    | Some r => negb (String.eqb r (c_route_id c))
    | None => false
    end.
Proof.
  unfold boarding. destruct prev as [r|]; [|done].
  destruct (String.eqb r (c_route_id c)); simpl; [done|].
  by destruct (get_mode_specific_penalties gs (c_route_id c)).
Qed.

Lemma books_ok_child gs start cur current_stop_obj c e :
  books_ok gs start cur →
  stops_get (stops_cache gs) (e_stop cur) = Some current_stop_obj →
  c ∈ connections current_stop_obj →
  child_of gs cur c e →
  books_ok gs start e.
Proof.
  intros (Hlast & Hpath & Hfrom & Htr & Htime & Hcost & Hride) Hget Hc.
  intros (_ & Hstop & Hp & Ht & Hm & Hq & seg & Hsegs & Hid & Hf & Hto
          & Hsegtime & Hsegcost & Hboard).
  unfold books_ok. rewrite Hp, Hsegs, Hstop, Ht, Hm, Hq, !fmap_app. simpl.
  split_and!.
  - by rewrite last_snoc.
  - rewrite Hpath at 1. simpl. by rewrite Hto.
  - pose proof Hlast as [l' Hl']%last_Some.
    assert (Hlen : length l' = length (e_segments cur)).
    { apply (f_equal length) in Hpath. rewrite Hl', length_app in Hpath.
      simpl in Hpath. rewrite length_fmap in Hpath. lia. }
    rewrite Hl' in Hfrom |- *. rewrite <- Hlen, take_app_length in Hfrom.
    rewrite Hfrom, Hf, length_app. simpl. rewrite <- Hlen.
    replace (length l' + 1)%nat with (length (l' ++ [e_stop cur]))
      by (rewrite length_app; simpl; lia).
    by rewrite take_app_length.
  - rewrite route_changes_snoc, Hid, Htr, boarding_is_transfer.
    rewrite fmap_last. destruct (last (e_segments cur)); simpl; [|done].
    by destruct (String.eqb _ _).
  - rewrite ride_minutes_snoc, Htime, Hsegtime, Hboard. lia.
  - rewrite fare_snoc, Hcost, Hsegcost. reflexivity.
  - apply Forall_app. split; [done|]. constructor; [|done].
    exists current_stop_obj, c. rewrite Hf. by split_and!.
Qed.

Lemma books_ok_initial gs start : Forall (books_ok gs start) (pq (initial_state start)).
Proof.
  constructor; [|done]. unfold books_ok. simpl. split_and!; try done.
Qed.

(** The itinerary the general search returns is that of an entry with
    sound books that stands at the end stop. *)
Lemma pathfinding_books gs s e optimize_for max_transfers r :
  _dijkstra_pathfinding gs s e optimize_for max_transfers = Returned (Some r) →
  ∃ cur, books_ok gs s cur ∧ e_stop cur = e ∧ r = found_route cur.
Proof.
  apply (dijkstra_loop_inv (books_ok gs s)); [|apply books_ok_initial].
  intros cur obj c child Hcur _ Hget Hc Hchild. by eapply books_ok_child.
Qed.

(** ** What the general search returns *)

(** X1: an itinerary of the general search starts at the start stop, ends
    at the end stop, and each of its segments rides a connection that the
    cache holds, from the stop where the segment before it arrived, with
    that connection's route, time and cost. *)
Theorem search_rides_connections gs s e optimize_for max_transfers r :
  _dijkstra_pathfinding gs s e optimize_for max_transfers = Returned (Some r) →
  path r = s :: (to_stop <$> segments r)
  ∧ last (path r) = Some e
  ∧ from_stop <$> segments r = take (length (segments r)) (path r)
  ∧ Forall (rides_connection gs) (segments r).
Proof.
  intros (cur & (Hlast & Hpath & Hfrom & _ & _ & _ & Hride) & <- & ->)
    %pathfinding_books.
  by split_and!.
Qed.

Lemma search_rides_connections_witness :
  path test_route = "S1" :: (to_stop <$> segments test_route)
  ∧ last (path test_route) = Some "S4"
  ∧ from_stop <$> segments test_route
    = take (length (segments test_route)) (path test_route)
  ∧ Forall (rides_connection test_graph) (segments test_route).
Proof.
  apply (search_rides_connections test_graph "S1" "S4" "time" 5 test_route).
  vm_compute. reflexivity.
Defined.

(** X2: the transfer count of an itinerary of the general search is the
    number of places where two segments in a row have different route
    ids. *)
Theorem search_counts_route_changes gs s e optimize_for max_transfers r :
  _dijkstra_pathfinding gs s e optimize_for max_transfers = Returned (Some r) →
  transfers r = route_changes (route_id <$> segments r).
Proof.
  by intros (cur & (_ & _ & _ & Htr & _) & _ & ->)%pathfinding_books.
Qed.

Lemma search_counts_route_changes_witness :
  transfers test_route = route_changes (route_id <$> segments test_route).
Proof.
  apply (search_counts_route_changes test_graph "S1" "S4" "time" 5 test_route).
  vm_compute. reflexivity.
Defined.

(** X3: the total time of an itinerary of the general search is the sum
    over its segments of travel time and boarding time, and its total cost
    is the sum of the segment costs. *)
Theorem search_totals gs s e optimize_for max_transfers r :
  _dijkstra_pathfinding gs s e optimize_for max_transfers = Returned (Some r) →
  total_time r = Int (ride_minutes (segments r))
  ∧ (total_cost r == fare (segments r))%Q.
Proof.
  intros (cur & (_ & _ & _ & _ & Htime & Hcost & _) & _ & ->)%pathfinding_books.
  simpl. by rewrite Htime.
Qed.

Lemma search_totals_witness :
  total_time test_route = Int (ride_minutes (segments test_route))
  ∧ (total_cost test_route == fare (segments test_route))%Q.
Proof.
  apply (search_totals test_graph "S1" "S4" "time" 5 test_route).
  vm_compute. reflexivity.
Defined.

(** The transfer count of a queue entry is not negative and, the start
    entry apart, within the bound. *)
Lemma pathfinding_transfers gs s e optimize_for max_transfers r :
  _dijkstra_pathfinding gs s e optimize_for max_transfers = Returned (Some r) →
  0 ≤ transfers r ∧ (path r = [s] ∧ e = s ∨ transfers r ≤ max_transfers).
Proof.
  intros H.
  apply (dijkstra_loop_inv
           (λ cur, 0 ≤ e_transfers cur
                   ∧ (e_path cur = [s] ∧ e_stop cur = s
                      ∨ e_transfers cur ≤ max_transfers))) in H.
  - destruct H as (cur & (? & Hb) & <- & ->). simpl. by split.
  - intros cur obj c child [Hpos _] Hlt _ _ (_ & _ & _ & Ht & _).
    rewrite Ht. destruct (boarding _ _ _).2; split; try lia; right; lia.
  - constructor; [|done]. simpl. split; [lia|]. by left.
Qed.

(** X4: an itinerary of the general search between two different stops
    has at most [max_transfers] transfers, and never a negative count. *)
Theorem search_within_transfer_bound gs s e optimize_for max_transfers r :
  s ≠ e →
  _dijkstra_pathfinding gs s e optimize_for max_transfers = Returned (Some r) →
  0 ≤ transfers r ≤ max_transfers.
Proof.
  intros Hne [Hpos [[_ ?]|Hle]]%pathfinding_transfers; [done | lia].
Qed.

Lemma search_within_transfer_bound_witness : 0 ≤ transfers test_route ≤ 5.
Proof.
  apply (search_within_transfer_bound test_graph "S1" "S4" "time" 5 test_route).
  - done.
  - vm_compute. reflexivity.
Defined.

Lemma with_transfers_ends gs db s e optimize_for r :
  _dijkstra_with_transfers gs db s e optimize_for = Returned (Some r) →
  head (path r) = Some s ∧ last (path r) = Some e ∧ 0 ≤ transfers r ≤ 5.
Proof.
  unfold _dijkstra_with_transfers, dijkstra_with_transfers_fuel.
  destruct (stops_get (stops_cache gs) s) as [start_stop|] eqn:Hs; [|done].
  destruct (stops_get (stops_cache gs) e) as [end_stop|] eqn:He; [|done].
  apply stops_get_Some in Hs as [_ Hs]. apply stops_get_Some in He as [_ He].
  destruct (String.eqb s e) eqn:Hse.
  { apply String.eqb_eq in Hse as <-. by intros [= <-]. }
  apply String.eqb_neq in Hse.
  destruct (List.find _ _) as [connection|].
  { intros [= <-]. simpl. by rewrite Hs, He. }
  unfold _find_route_serving_both_stops.
  destruct (List.find _ (db_routes db)) as [doc|]; [by intros [= <-]|].
  intros Hr. change (_dijkstra_pathfinding gs s e optimize_for 5
                     = Returned (Some r)) in Hr.
  destruct (pathfinding_books _ _ _ _ _ _ Hr)
    as (cur & (Hlast & Hpath & _) & <- & ->).
  apply pathfinding_transfers in Hr as [Hpos [[_ ?]|Hle]]; [done|].
  simpl in *. rewrite Hpath at 1. by split_and!.
Qed.

(** X5: whatever [_dijkstra_with_transfers] returns goes from the start
    stop to the end stop and has between 0 and 5 transfers. *)
Theorem with_transfers_endpoints gs db s e optimize_for r :
  _dijkstra_with_transfers gs db s e optimize_for = Returned (Some r) →
  head (path r) = Some s ∧ last (path r) = Some e ∧ 0 ≤ transfers r ≤ 5.
Proof. apply with_transfers_ends. Qed.

Lemma with_transfers_endpoints_witness :
  head (path test_route) = Some "S1" ∧ last (path test_route) = Some "S4"
  ∧ 0 ≤ transfers test_route ≤ 5.
Proof.
  apply (with_transfers_endpoints test_graph empty_db "S1" "S4" "time"
           test_route).
  vm_compute. reflexivity.
Defined.

(** X6: the general search always ends; when it raises, the exception is
    the [KeyError] of a connection that leads to a stop the cache does not
    hold. *)
Theorem search_ends_or_key_error gs s e optimize_for max_transfers :
  _dijkstra_pathfinding gs s e optimize_for max_transfers ≠ OutOfFuel
  ∧ ∀ ex, _dijkstra_pathfinding gs s e optimize_for max_transfers = Raised ex →
          ex = KeyError ∧ ¬ closed gs.
Proof.
  split; [apply dijkstra_pathfinding_ends|].
  intros ex Hex.
  pose proof (dijkstra_pathfinding_spec gs s e optimize_for max_transfers) as H.
  by rewrite Hex in H.
Qed.

(** ** The two shortcuts *)

Lemma find_first {A} (f : A → bool) (before after : list A) x :
  Forall (λ y, f y = false) before → f x = true →
  List.find f (before ++ x :: after) = Some x.
Proof.
  intros Hb Hx. induction Hb as [|y before Hy _ IH]; simpl.
  - by rewrite Hx.
  - by rewrite Hy.
Qed.

(** X7: when the start stop has a connection to the end stop, the answer
    is the one-segment itinerary of the first such connection in the order
    of the stop's connections, with its time plus the boarding time of its
    route and its cost, whatever the objective and whatever other
    connections or routes there are. *)
Theorem direct_connection_first gs db s e optimize_for start_stop end_stop
    before c after :
  stops_get (stops_cache gs) s = Some start_stop →
  stops_get (stops_cache gs) e = Some end_stop →
  s ≠ e →
  connections start_stop = before ++ c :: after →
  Forall (λ c', to_stop_id c' ≠ e) before →
  to_stop_id c = e →
  ∃ r seg,
    _dijkstra_with_transfers gs db s e optimize_for = Returned (Some r)
    ∧ path r = [s; e]
    ∧ segments r = [seg]
    ∧ route_id seg = c_route_id c
    ∧ total_time r
      = Int (c_time c + (get_mode_specific_penalties gs (c_route_id c)).1)
    ∧ total_cost r = c_cost c
    ∧ transfers r = 0.
Proof.
  intros Hs He Hne Hconns Hbefore Hc.
  unfold _dijkstra_with_transfers, dijkstra_with_transfers_fuel.
  rewrite Hs, He. apply String.eqb_neq in Hne as ->.
  rewrite Hconns, (find_first _ before after c).
  - apply stops_get_Some in Hs as [_ Hs]. apply stops_get_Some in He as [_ He].
    eexists _, _. split; [done|]. simpl. rewrite Hs, He. by split_and!.
  - eapply Forall_impl; [exact Hbefore|]. intros c' Hc'. simpl.
    by apply String.eqb_neq.
  - by apply String.eqb_eq.
Qed.

Lemma direct_connection_first_witness :
  ∃ r seg,
    _dijkstra_with_transfers test_graph empty_db "S1" "S3" "cost"
    = Returned (Some r)
    ∧ path r = ["S1"; "S3"]
    ∧ segments r = [seg]
    ∧ route_id seg = "R2"
    ∧ total_time r
      = Int (15 + (get_mode_specific_penalties test_graph "R2").1)
    ∧ total_cost r = 3%Q
    ∧ transfers r = 0.
Proof.
  apply (direct_connection_first test_graph empty_db "S1" "S3" "cost"
           (mk_stop "S1" (129716 # 10000) (775946 # 10000)
              [mk_connection "S2" "R1" 10 2 1; mk_connection "S3" "R2" 15 3 1])
           (mk_stop "S3" (129718 # 10000) (776108 # 10000)
              [mk_connection "S4" "R2" 6 1 2])
           [mk_connection "S2" "R1" 10 2 1] (mk_connection "S3" "R2" 15 3 1) []).
  - reflexivity.
  - reflexivity.
  - done.
  - reflexivity.
  - by repeat constructor.
  - reflexivity.
Defined.

Lemma index_of_lookup x l :
  x ∈ l → 0 ≤ index_of x l ∧ l !! Z.to_nat (index_of x l) = Some x.
Proof.
  induction l as [|y l IH]; [by intros ?%elem_of_nil|].
  simpl. destruct (String.eqb y x) eqn:E.
  - apply String.eqb_eq in E as ->. by split.
  - apply String.eqb_neq in E. intros [?|Hin]%elem_of_cons; [done|].
    destruct (IH Hin) as [Hpos Hl]. split; [lia|].
    replace (Z.to_nat (1 + index_of x l)) with (S (Z.to_nat (index_of x l)))
      by lia.
    done.
Qed.

(** X8: when the start stop has no connection to the end stop and a route
    document lists both, the answer is one made-up segment on the first
    such route, 3 minutes and 2 units of fare for each position between
    the two stops in the route's stop list, plus the boarding time,
    whatever the objective and whether or not connections join the stops. *)
Theorem shared_route_estimate gs db s e optimize_for start_stop end_stop
    before doc after :
  stops_get (stops_cache gs) s = Some start_stop →
  stops_get (stops_cache gs) e = Some end_stop →
  s ≠ e →
  Forall (λ c, to_stop_id c ≠ e) (connections start_stop) →
  db_routes db = before ++ doc :: after →
  Forall (λ d, ¬ (s ∈ d_stops d ∧ e ∈ d_stops d)) before →
  s ∈ d_stops doc → e ∈ d_stops doc →
  let n := Z.abs (index_of e (d_stops doc) - index_of s (d_stops doc)) in
  1 ≤ n
  ∧ ∃ r seg,
      _dijkstra_with_transfers gs db s e optimize_for = Returned (Some r)
      ∧ path r = [s; e]
      ∧ segments r = [seg]
      ∧ route_id seg = d_route_id doc
      ∧ total_time r
        = Int (n * 3 + (get_mode_specific_penalties gs (d_route_id doc)).1)
      ∧ total_cost r = (inject_Z n * 2)%Q
      ∧ transfers r = 0.
Proof.
  intros Hs He Hne Hnone Hdb Hbefore Hsin Hein n. split.
  - destruct (index_of_lookup s _ Hsin) as [Hps Hls].
    destruct (index_of_lookup e _ Hein) as [Hpe Hle].
    destruct (decide (index_of e (d_stops doc) = index_of s (d_stops doc)))
      as [Heq|]; [|subst n; lia].
    rewrite Heq in Hle. congruence.
  - unfold _dijkstra_with_transfers, dijkstra_with_transfers_fuel.
    rewrite Hs, He. apply String.eqb_neq in Hne as ->.
    assert (Hfind : List.find (λ c, String.eqb (to_stop_id c) e)
                      (connections start_stop) = None).
    { destruct (List.find _ _) as [c|] eqn:Hf; [|done].
      apply find_some in Hf as [Hin Hc]. apply String.eqb_eq in Hc.
      rewrite Forall_forall in Hnone.
      by destruct (Hnone c (proj2 (list_elem_of_In _ _) Hin)). }
    rewrite Hfind. unfold _find_route_serving_both_stops.
    rewrite Hdb, (find_first _ before after doc).
    + eexists _, _. split; [done|]. simpl. by split_and!.
    + eapply Forall_impl; [exact Hbefore|]. intros d Hd. unfold serves_both.
      apply andb_false_iff.
      destruct (decide (s ∈ d_stops d)) as [?|?];
        [right | left]; apply bool_decide_eq_false;
        [intros He'; by apply Hd | done].
    + unfold serves_both. apply andb_true_iff.
      by split; apply bool_decide_eq_true.
Qed.

Lemma shared_route_estimate_witness :
  let n := Z.abs (index_of "B031" ["M006"; "B029"; "B030"; "B031"; "B032"]
                  - index_of "B029" ["M006"; "B029"; "B030"; "B031"; "B032"]) in
  1 ≤ n
  ∧ ∃ r seg,
      _dijkstra_with_transfers b030_graph b030_db "B029" "B031" "time"
      = Returned (Some r)
      ∧ path r = ["B029"; "B031"]
      ∧ segments r = [seg]
      ∧ route_id seg = "BUS_400"
      ∧ total_time r
        = Int (n * 3 + (get_mode_specific_penalties b030_graph "BUS_400").1)
      ∧ total_cost r = (inject_Z n * 2)%Q
      ∧ transfers r = 0.
Proof.
  apply (shared_route_estimate b030_graph b030_db "B029" "B031" "time"
           (mk_stop "B029" (129718 # 10000) (776108 # 10000)
              [mk_connection "B030" "BUS_400" 6 5 2])
           (mk_stop "B031" (130067 # 10000) (776033 # 10000)
              [mk_connection "B030" "BUS_400" 9 (13 # 2) 3])
           []
           {| d_route_id := "BUS_400"; d_route_long_name := None;
              d_route_type := Some "bus";
              d_stops := ["M006"; "B029"; "B030"; "B031"; "B032"] |} []).
  - reflexivity.
  - reflexivity.
  - done.
  - by repeat constructor.
  - reflexivity.
  - constructor.
  - apply (bool_decide_unpack _). vm_compute. exact I.
  - apply (bool_decide_unpack _). vm_compute. exact I.
Defined.

(** ** The graph store *)

Lemma stops_set_get cache stop :
  stops_get (stops_set cache stop) (stop_id stop) = Some stop.
Proof.
  induction cache as [|s rest IH]; simpl.
  - by rewrite String.eqb_refl.
  - destruct (String.eqb (stop_id s) (stop_id stop)) eqn:E; simpl.
    + by rewrite String.eqb_refl.
    + by rewrite E.
Qed.

Lemma stops_set_get_other cache stop k :
  k ≠ stop_id stop →
  stops_get (stops_set cache stop) k = stops_get cache k.
Proof.
  intros Hk. induction cache as [|s rest IH]; simpl.
  - apply not_eq_sym, String.eqb_neq in Hk. by rewrite Hk.
  - destruct (String.eqb (stop_id s) (stop_id stop)) eqn:E; simpl.
    + apply String.eqb_eq in E. rewrite E.
      apply not_eq_sym, String.eqb_neq in Hk. by rewrite Hk.
    + by rewrite IH.
Qed.

Lemma stops_set_ids cache stop :
  stop_id <$> stops_set cache stop
  = if bool_decide (stop_id stop ∈ stop_id <$> cache)
    then stop_id <$> cache
    else (stop_id <$> cache) ++ [stop_id stop].
Proof.
  induction cache as [|s rest IH]; [done|].
  cbn [stops_set]. destruct (String.eqb (stop_id s) (stop_id stop)) eqn:E.
  - apply String.eqb_eq in E. rewrite !fmap_cons, E.
    rewrite bool_decide_eq_true_2; [done | left].
  - apply String.eqb_neq in E. rewrite !fmap_cons, IH.
    case_bool_decide as H1; case_bool_decide as H2; try done.
    + destruct H2. by right.
    + apply elem_of_cons in H2 as [?|?]; [by destruct E | done].
Qed.

Lemma stops_set_dict_ok cache stop :
  NoDup (stop_id <$> cache) → NoDup (stop_id <$> stops_set cache stop).
Proof.
  intros Hnd. rewrite stops_set_ids. case_bool_decide as H; [done|].
  apply NoDup_app. split_and!; [done| |apply NoDup_singleton].
  by intros x Hx ->%list_elem_of_singleton.
Qed.

Lemma foldl_snoc {A B} (f : A → B → A) a l x :
  foldl f a (l ++ [x]) = f (foldl f a l) x.
Proof. by rewrite foldl_app. Qed.

Lemma filter_snoc {A} (f : A → bool) l x :
  List.filter f (l ++ [x]) = List.filter f l ++ (if f x then [x] else []).
Proof. by rewrite List.filter_app. Qed.

(** X9: after the graph data is loaded from a database that is read without
    error, no two cached stops share an id, and looking a stop or a route
    up by its id gives the last document of the collection with that id. *)
Theorem load_graph_data_lookup db k :
  dict_ok (load_graph_data db)
  ∧ stops_get (stops_cache (load_graph_data db)) k
    = last (List.filter (λ stop, String.eqb (stop_id stop) k) (db_stops db))
  ∧ routes_cache (load_graph_data db) !! k
    = last (List.filter (λ doc, String.eqb (d_route_id doc) k) (db_routes db)).
Proof.
  unfold dict_ok, load_graph_data. simpl. split_and!.
  - induction (db_stops db) as [|stop l IH] using rev_ind; [constructor|].
    rewrite foldl_snoc. by apply stops_set_dict_ok.
  - induction (db_stops db) as [|stop l IH] using rev_ind; [done|].
    rewrite foldl_snoc, filter_snoc.
    destruct (String.eqb (stop_id stop) k) eqn:E.
    + apply String.eqb_eq in E as <-. by rewrite stops_set_get, last_snoc.
    + apply String.eqb_neq in E. rewrite stops_set_get_other by done.
      by rewrite app_nil_r.
  - induction (db_routes db) as [|doc l IH] using rev_ind; [done|].
    rewrite foldl_snoc, filter_snoc.
    destruct (String.eqb (d_route_id doc) k) eqn:E.
    + apply String.eqb_eq in E as <-. by rewrite lookup_insert_eq, last_snoc.
    + apply String.eqb_neq in E. rewrite lookup_insert_ne by done.
      by rewrite app_nil_r.
Qed.

Lemma num_leb_le a b : num_leb a b = true ↔ ¬ num_lt b a.
Proof.
  unfold num_leb. rewrite negb_true_iff, <- num_ltb_lt.
  by destruct (num_ltb b a).
Qed.

Lemma min_distance_within (geodesic : Q * Q → Q * Q → Q) (la lo radius : Q)
    (l : list Stop) acc :
  num_leb
    (foldl (λ m stop,
              let distance := Float (geodesic (la, lo) (stop_coords stop)) in
              if num_ltb distance m then distance else m) acc l)
    (Float radius) = true
  ↔ num_leb acc (Float radius) = true
    ∨ ∃ stop, stop ∈ l ∧ (geodesic (la, lo) (stop_coords stop) <= radius)%Q.
Proof.
  revert acc. induction l as [|stop l IH]; intros acc; cbn [foldl].
  - split; [by left|]. intros [?|(s & Hs & _)]; [done | by apply elem_of_nil in Hs].
  - rewrite IH. clear IH. cbv zeta.
    set (d := geodesic (la, lo) (stop_coords stop)).
    assert (Hd : num_leb (Float d) (Float radius) = true ↔ (d <= radius)%Q).
    { rewrite num_leb_le. unfold num_lt. simpl. split.
      - apply Qnot_lt_le.
      - apply Qle_not_lt. }
    destruct (num_ltb (Float d) acc) eqn:E.
    + apply num_ltb_lt in E. rewrite Hd. split.
      * intros [?|(s & ? & ?)]; [right; exists stop; split; [left|done]|].
        right. exists s. split; [by right | done].
      * intros [Hacc|(s & [->|?]%elem_of_cons & Hs)];
          [left | by left | right; by exists s].
        apply Hd. apply num_leb_le. intros Hlt. apply num_leb_le in Hacc.
        apply Hacc. by eapply num_lt_trans.
    + split.
      * intros [?|(s & ? & ?)]; [by left|].
        right. exists s. split; [by right | done].
      * intros [?|(s & [->|?]%elem_of_cons & Hs)];
          [by left | left | right; by exists s].
        apply num_leb_le. intros Hlt.
        assert (Hn : ¬ num_lt (Float d) acc).
        { intros H. apply num_ltb_lt in H. congruence. }
        apply Hd in Hs. apply num_leb_le in Hs. apply Hs.
        eapply num_lt_not_lt; [exact Hlt | exact Hn].
Qed.

(** X10: a point passes [validate_coordinates] exactly when its latitude
    and longitude are in range and, unless the cache is empty, some cached
    stop is within the maximum search radius of 50 km. *)
Theorem validate_coordinates_iff geodesic gs la lo :
  validate_coordinates geodesic gs la lo = true
  ↔ ((-90 <= la)%Q ∧ (la <= 90)%Q ∧ (-180 <= lo)%Q ∧ (lo <= 180)%Q)
    ∧ (stops_cache gs = []
       ∨ ∃ stop, stop ∈ stops_cache gs
                 ∧ (geodesic (la, lo) (stop_coords stop)
                    <= settings.MAX_SEARCH_RADIUS_KM)%Q).
Proof.
  unfold validate_coordinates.
  destruct (Qle_bool (-90) la) eqn:E1; [apply Qle_bool_iff in E1|].
  2:{ simpl. split; [done|]. intros [(H & _) _].
      apply Qle_bool_iff in H. congruence. }
  destruct (Qle_bool la 90) eqn:E2; [apply Qle_bool_iff in E2|].
  2:{ simpl. split; [done|]. intros [(_ & H & _) _].
      apply Qle_bool_iff in H. congruence. }
  destruct (Qle_bool (-180) lo) eqn:E3; [apply Qle_bool_iff in E3|].
  2:{ simpl. split; [done|]. intros [(_ & _ & H & _) _].
      apply Qle_bool_iff in H. congruence. }
  destruct (Qle_bool lo 180) eqn:E4; [apply Qle_bool_iff in E4|].
  2:{ simpl. split; [done|]. intros [(_ & _ & _ & H) _].
      apply Qle_bool_iff in H. congruence. }
  simpl. destruct (stops_cache gs) as [|stop l] eqn:Hc.
  - split; [|done]. intros _. split; [done | by left].
  - rewrite <- Hc.
    rewrite (min_distance_within geodesic la lo settings.MAX_SEARCH_RADIUS_KM).
    split.
    + intros [?|?]; [done|]. split; [done | by right].
    + intros [_ [?|?]]; [congruence | by right].
Qed.

Lemma tuple_le_distance (x y : dist_tuple) : tuple_le x y → (x.1.1 <= y.1.1)%Q.
Proof.
  intros [Hlt|[Heq _]]; [by apply Qlt_le_weak|]. rewrite Heq. apply Qle_refl.
Qed.

Lemma head_slice_to {A} (l : list A) n x :
  head (slice_to l n) = Some x → head l = Some x.
Proof.
  unfold slice_to. destruct (0 <=? n); destruct l; simpl;
    by repeat (destruct (Z.to_nat _) || destruct (_ - _)%nat).
Qed.

(** X11: the first pair [find_nearest_stops] returns is a cached stop
    within the maximum walking distance, with its distance, and no cached
    stop is nearer to the query point. *)
Theorem first_nearest_stop_is_nearest (geodesic : Q * Q → Q * Q → Q) gs
    (la lo : Q) limit id d :
  head (find_nearest_stops geodesic gs la lo limit) = Some (id, d) →
  (∃ stop, stop ∈ stops_cache gs ∧ stop_id stop = id
           ∧ d = geodesic (la, lo) (stop_coords stop)
           ∧ (d <= settings.MAX_WALKING_DISTANCE_KM)%Q)
  ∧ ∀ stop, stop ∈ stops_cache gs →
            (d <= geodesic (la, lo) (stop_coords stop))%Q.
Proof.
  unfold find_nearest_stops. rewrite retained_tuples.
  set (retained := distance_tuple geodesic la lo <$> _).
  destruct (head (slice_to (list_sort retained) limit)) as [t|] eqn:Hhead.
  2:{ destruct (slice_to _ _); [done | discriminate]. }
  assert (Hres : head ((λ t : dist_tuple, (t.1.2, t.1.1)) <$>
                         slice_to (list_sort retained) limit)
                 = Some (t.1.2, t.1.1)).
  { destruct (slice_to _ _); [done|]. simpl in *. by injection Hhead as ->. }
  rewrite Hres. intros [= <- <-].
  apply head_slice_to in Hhead.
  pose proof (list_sort_sorted retained) as Hsorted.
  pose proof (list_sort_perm retained) as Hperm.
  destruct (list_sort retained) as [|t' rest]; [done|].
  injection Hhead as ->. apply StronglySorted_inv in Hsorted as [_ Hall].
  assert (Hin : ∀ stop, stop ∈ stops_cache gs →
                  Qle_bool (geodesic (la, lo) (stop_coords stop))
                    settings.MAX_WALKING_DISTANCE_KM = true →
                  distance_tuple geodesic la lo stop ∈ t :: rest).
  { intros stop Hstop Hd. rewrite Hperm. subst retained.
    apply list_elem_of_fmap_2, list_elem_of_In, filter_In.
    split; [by apply list_elem_of_In | done]. }
  assert (Ht : t ∈ retained) by (rewrite <- Hperm; left).
  subst retained. apply list_elem_of_fmap in Ht as (stop0 & -> & Hin0).
  apply list_elem_of_In, filter_In in Hin0 as [Hin0 Hd0].
  apply list_elem_of_In in Hin0. apply Qle_bool_iff in Hd0. simpl in *. split.
  - by exists stop0.
  - intros stop Hstop.
    destruct (Qle_bool (geodesic (la, lo) (stop_coords stop))
                settings.MAX_WALKING_DISTANCE_KM) eqn:Hd.
    + apply Hin in Hd; [|done].
      apply elem_of_cons in Hd as [Heq|Hrest].
      * injection Heq as -> _ _. apply Qle_refl.
      * rewrite Forall_forall in Hall.
        apply (tuple_le_distance _ _ (Hall _ Hrest)).
    + apply Qlt_le_weak. eapply Qle_lt_trans; [exact Hd0|].
      apply Qnot_le_lt. intros Hle. apply Qle_bool_iff in Hle. congruence.
Qed.

Lemma first_nearest_stop_is_nearest_witness :
  ∃ id d,
    head (find_nearest_stops flat_km plaza_graph 0 (21 # 1000) 3) = Some (id, d)
    ∧ (∃ stop, stop ∈ stops_cache plaza_graph ∧ stop_id stop = id
               ∧ d = flat_km (0, 21 # 1000)%Q (stop_coords stop)
               ∧ (d <= settings.MAX_WALKING_DISTANCE_KM)%Q)
    ∧ ∀ stop, stop ∈ stops_cache plaza_graph →
              (d <= flat_km (0, 21 # 1000)%Q (stop_coords stop))%Q.
Proof.
  eexists _, _. split; [vm_compute; reflexivity|].
  apply (first_nearest_stop_is_nearest flat_km plaza_graph 0 (21 # 1000) 3).
  vm_compute. reflexivity.
Defined.

(** ** Walking times *)

(** X12: for a cached stop at a distance that is not negative, the walking
    time comes with that distance and is infinite exactly when the stop is
    beyond the maximum walking distance; otherwise it is a whole number of
    minutes between 0 and 6. *)
Theorem walking_time_at_most_six (geodesic : Q * Q → Q * Q → Q) geodesic_none
    gs (la lo : Q) id stop minutes d :
  stops_get (stops_cache gs) id = Some stop →
  (0 <= geodesic (la, lo) (stop_coords stop))%Q →
  calculate_walking_time_from_coords geodesic geodesic_none gs la lo id
  = Returned (minutes, d) →
  d = geodesic (la, lo) (stop_coords stop)
  ∧ (minutes = Inf ↔ (settings.MAX_WALKING_DISTANCE_KM < d)%Q)
  ∧ (minutes = Inf ∨ ∃ z, minutes = Int z ∧ 0 ≤ z ≤ 6).
Proof.
  intros Hget Hpos.
  rewrite (walking_time_known_stop geodesic geodesic_none gs la lo id stop
             Hget Hpos).
  set (dist := geodesic (la, lo) (stop_coords stop)) in *.
  assert (H0 : 0 ≤ Qfloor (dist / settings.WALKING_SPEED_KMH * 60)).
  { change 0 with (Qfloor 0). apply Qfloor_resp_le.
    apply Qmult_le_0_compat; [|by vm_compute].
    apply Qmult_le_0_compat; [exact Hpos | by vm_compute]. }
  assert (H6 : (dist <= settings.MAX_WALKING_DISTANCE_KM)%Q →
               Qfloor (dist / settings.WALKING_SPEED_KMH * 60) ≤ 6).
  { intros Hle. change 6 with (Qfloor 6). apply Qfloor_resp_le.
    unfold settings.MAX_WALKING_DISTANCE_KM, settings.WALKING_SPEED_KMH in *.
    destruct dist as [n m]. unfold Qle in *. simpl in *. lia. }
  destruct (Qle_bool dist settings.MAX_WALKING_DISTANCE_KM) eqn:E;
    intros [= <- <-]; (split; [done|]).
  - apply Qle_bool_iff in E. split.
    + split; [done|]. intros Hlt. by apply Qlt_not_le in Hlt.
    + right. eexists. split; [done|]. split; [exact H0 | by apply H6].
  - split; [|by left]. split; [|done]. intros _.
    apply Qnot_le_lt. intros Hle. apply Qle_bool_iff in Hle. congruence.
Qed.

Lemma walking_time_at_most_six_witness :
  ∃ minutes d,
    calculate_walking_time_from_coords flat_km geopy_none plaza_graph
      0 0 "P2" = Returned (minutes, d)
    ∧ d = flat_km (0, 0)%Q (stop_coords (mk_stop "P2" 0 (1 # 1000) []))
    ∧ (minutes = Inf ↔ (settings.MAX_WALKING_DISTANCE_KM < d)%Q)
    ∧ (minutes = Inf ∨ ∃ z, minutes = Int z ∧ 0 ≤ z ≤ 6).
Proof.
  eexists _, _. split; [vm_compute; reflexivity|].
  apply (walking_time_at_most_six flat_km geopy_none plaza_graph 0 0 "P2"
           (mk_stop "P2" 0 (1 # 1000)
              [mk_connection "Q2" "R2" 5 6 1; mk_connection "Q1" "R2" 20 3 1])).
  - reflexivity.
  - by vm_compute.
  - vm_compute. reflexivity.
Defined.

(** ** More on [find_optimal_route] *)

Lemma no_stop_near (geodesic : Q * Q → Q * Q → Q) gs (la lo : Q) limit :
  (∀ stop, stop ∈ stops_cache gs →
           (settings.MAX_WALKING_DISTANCE_KM
            < geodesic (la, lo) (stop_coords stop))%Q) →
  find_nearest_stops geodesic gs la lo limit = [].
Proof.
  intros Hfar. unfold find_nearest_stops. rewrite retained_tuples.
  assert (Hnone : List.filter
                    (λ stop, Qle_bool (geodesic (la, lo) (stop_coords stop))
                               settings.MAX_WALKING_DISTANCE_KM)
                    (stops_cache gs) = []).
  { induction (stops_cache gs) as [|stop l IH]; [done|]. simpl.
    destruct (Qle_bool _ _) eqn:E.
    - apply Qle_bool_iff in E. destruct (Qlt_not_le _ _ (Hfar stop ltac:(left)) E).
    - apply IH. intros s Hs. apply Hfar. by right. }
  rewrite Hnone. unfold slice_to. simpl.
  destruct (0 <=? limit); [by rewrite take_nil|done].
Qed.

(** X13: [find_optimal_route] returns None, with no search, when a point
    fails the validation or when no cached stop is within the maximum
    walking distance of the start point or of the end point. *)
Theorem find_optimal_route_none (geodesic : Q * Q → Q * Q → Q) geodesic_none
    gs db (start_lat start_lon end_lat end_lon : Q) optimize_for :
  let gs' := ensure_loaded gs db in
  validate_coordinates geodesic gs' start_lat start_lon = false
  ∨ validate_coordinates geodesic gs' end_lat end_lon = false
  ∨ (∀ stop, stop ∈ stops_cache gs' →
             (settings.MAX_WALKING_DISTANCE_KM
              < geodesic (start_lat, start_lon) (stop_coords stop))%Q)
  ∨ (∀ stop, stop ∈ stops_cache gs' →
             (settings.MAX_WALKING_DISTANCE_KM
              < geodesic (end_lat, end_lon) (stop_coords stop))%Q) →
  find_optimal_route geodesic geodesic_none gs db
    start_lat start_lon end_lat end_lon optimize_for = Returned None.
Proof.
  intros gs' H. unfold find_optimal_route. fold gs'.
  destruct (validate_coordinates geodesic gs' start_lat start_lon); [|done].
  destruct (validate_coordinates geodesic gs' end_lat end_lon); [|done].
  simpl. destruct H as [?|[?|[Hfar|Hfar]]]; [done..| |].
  - by rewrite (no_stop_near geodesic gs' _ _ 3 Hfar).
  - rewrite (no_stop_near geodesic gs' end_lat end_lon 3 Hfar).
    by destruct (find_nearest_stops _ _ _ _ _).
Qed.

Lemma find_optimal_route_none_witness :
  find_optimal_route flat_km geopy_none plaza_graph empty_db
    1 0 0 (21 # 1000) "time" = Returned None.
Proof.
  apply (find_optimal_route_none flat_km geopy_none plaza_graph empty_db
           1 0 0 (21 # 1000) "time").
  right. right. left. simpl. intros stop Hstop.
  repeat (apply elem_of_cons in Hstop as [->|Hstop]; [by vm_compute|]).
  by apply elem_of_nil in Hstop.
Defined.

Lemma fold_try_pair_origin geodesic geodesic_none gs db sla slo ela elo
    optimize_for pairs best best' :
  fold_outcome
    (λ acc p, try_pair geodesic geodesic_none gs db sla slo ela elo
                optimize_for p.1 acc p.2) pairs best
  = Returned best' →
  best'.1 = best.1
  ∨ ∃ p route,
      p ∈ pairs
      ∧ candidate geodesic geodesic_none gs db sla slo ela elo optimize_for p
        = Returned (Some route)
      ∧ best'.1 = Some route.
Proof.
  revert best. induction pairs as [|[s e] pairs IH]; intros best; simpl.
  - intros [= <-]. by left.
  - rewrite try_pair_candidate.
    intros (mid & (c & Hc & [= <-])%obind_Returned & Hrest)%obind_Returned.
    apply IH in Hrest as [Heq|(p & route & Hp & Hcand & Hbest)].
    + destruct c as [route|]; [|by left].
      destruct (num_ltb _ _); [|by left].
      right. exists (s, e), route. split_and!; [left|done..].
    + right. exists p, route. split_and!; [by right|done..].
Qed.

(** The itinerary [find_optimal_route] returns is a candidate: what the
    search finds between a nearest start stop and a nearest end stop, with
    the two walks added. *)
Lemma find_optimal_route_candidate (geodesic : Q * Q → Q * Q → Q) geodesic_none
    gs db (start_lat start_lon end_lat end_lon : Q) optimize_for r :
  let gs' := ensure_loaded gs db in
  find_optimal_route geodesic geodesic_none gs db
    start_lat start_lon end_lat end_lon optimize_for = Returned (Some r) →
  ∃ s e route sw sd ew ed,
    s ∈ (find_nearest_stops geodesic gs' start_lat start_lon 3).*1
    ∧ e ∈ (find_nearest_stops geodesic gs' end_lat end_lon 3).*1
    ∧ _dijkstra_with_transfers gs' db s e optimize_for = Returned (Some route)
    ∧ calculate_walking_time_from_coords geodesic geodesic_none gs'
        start_lat start_lon s = Returned (sw, sd)
    ∧ calculate_walking_time_from_coords geodesic geodesic_none gs'
        end_lat end_lon e = Returned (ew, ed)
    ∧ r = add_walking route sw sd ew ed.
Proof.
  intros gs'. unfold find_optimal_route. fold gs'.
  destruct (validate_coordinates geodesic gs' start_lat start_lon); [|done].
  destruct (validate_coordinates geodesic gs' end_lat end_lon); [|done].
  simpl.
  destruct (find_nearest_stops geodesic gs' start_lat start_lon 3)
    as [|s0 ss] eqn:Es; [done|].
  destruct (find_nearest_stops geodesic gs' end_lat end_lon 3)
    as [|e0 es] eqn:Ee; [done|].
  rewrite (fold_outcome_pairs
             (λ acc s e, try_pair geodesic geodesic_none gs' db
                           start_lat start_lon end_lat end_lon optimize_for
                           s acc e)).
  intros (best & Hfold & [= Hbest])%obind_Returned.
  apply fold_try_pair_origin in Hfold as [Heq|([s e] & r' & Hp & Hcand & Hr)];
    [simpl in Heq; congruence|].
  rewrite Hbest in Hr. injection Hr as <-.
  apply list_elem_of_In, in_prod_iff in Hp as [Hs He].
  unfold candidate in Hcand. simpl in Hcand.
  apply obind_Returned in Hcand as ([route|] & Hsearch & Hcand); [|done].
  apply obind_Returned in Hcand as ([sw sd] & Hsw & Hcand).
  apply obind_Returned in Hcand as ([ew ed] & Hew & [= <-]).
  exists s, e, route, sw, sd, ew, ed.
  split_and!; try done; by apply list_elem_of_In.
Qed.

(** X14: an itinerary [find_optimal_route] returns is what the search
    finds from one of the nearest start stops to one of the nearest end
    stops: same path, segments, cost and transfers, the total time raised
    by the walking time. *)
Theorem find_optimal_route_origin (geodesic : Q * Q → Q * Q → Q) geodesic_none
    gs db (start_lat start_lon end_lat end_lon : Q) optimize_for r :
  let gs' := ensure_loaded gs db in
  find_optimal_route geodesic geodesic_none gs db
    start_lat start_lon end_lat end_lon optimize_for = Returned (Some r) →
  ∃ s e route,
    s ∈ (find_nearest_stops geodesic gs' start_lat start_lon 3).*1
    ∧ e ∈ (find_nearest_stops geodesic gs' end_lat end_lon 3).*1
    ∧ _dijkstra_with_transfers gs' db s e optimize_for = Returned (Some route)
    ∧ path r = path route ∧ segments r = segments route
    ∧ total_cost r = total_cost route ∧ transfers r = transfers route
    ∧ total_time r = num_add (total_time route) (walking_time r)
    ∧ head (path r) = Some s ∧ last (path r) = Some e.
Proof.
  intros gs' H.
  apply find_optimal_route_candidate in H
    as (s & e & route & sw & sd & ew & ed & Hs & He & Hsearch & _ & _ & ->).
  exists s, e, route.
  destruct (with_transfers_ends _ _ _ _ _ _ Hsearch) as (Hhead & Hlast & _).
  by split_and!.
Qed.

Lemma plaza_route_found :
  find_optimal_route flat_km geopy_none plaza_graph empty_db
    0 0 0 (21 # 1000) "time" = Returned (Some plaza_route).
Proof. vm_compute. reflexivity. Qed.

Lemma find_optimal_route_origin_witness :
  ∃ s e route,
    s ∈ (find_nearest_stops flat_km (ensure_loaded plaza_graph empty_db)
           0 0 3).*1
    ∧ e ∈ (find_nearest_stops flat_km (ensure_loaded plaza_graph empty_db)
             0 (21 # 1000) 3).*1
    ∧ _dijkstra_with_transfers (ensure_loaded plaza_graph empty_db) empty_db
        s e "time" = Returned (Some route)
    ∧ path plaza_route = path route ∧ segments plaza_route = segments route
    ∧ total_cost plaza_route = total_cost route
    ∧ transfers plaza_route = transfers route
    ∧ total_time plaza_route
      = num_add (total_time route) (walking_time plaza_route)
    ∧ head (path plaza_route) = Some s ∧ last (path plaza_route) = Some e.
Proof.
  apply (find_optimal_route_origin flat_km geopy_none plaza_graph empty_db
           0 0 0 (21 # 1000) "time" plaza_route).
  exact plaza_route_found.
Defined.

(** ** The enhancer *)

Lemma walking_segment_Returned from_id to_id from_name to_name t seq_start
    direction seg :
  walking_segment from_id to_id from_name to_name t seq_start direction
  = Returned seg →
  t = Int (time seg) ∧ route_id seg = "WALKING" ∧ from_stop seg = from_id
  ∧ to_stop seg = to_id ∧ sequence_start seg = seq_start
  ∧ (cost seg == 0)%Q ∧ walking_directions seg = [direction].
Proof. destruct t; [|done..]. by intros [= <-]. Qed.

Lemma add_start_walk_Returned geodesic geodesic_none bearing_direction gs route
    start_lat start_lon first segs start_time :
  add_start_walk geodesic geodesic_none bearing_direction gs route
    start_lat start_lon first = Returned (segs, start_time) →
  segs = segments route
  ∨ ∃ w, segs = w :: segments route ∧ walking_leg w start_time
         ∧ from_stop w = "START" ∧ to_stop w = from_stop first.
Proof.
  unfold add_start_walk.
  destruct (stops_get (stops_cache gs) (from_stop first)) as [first_stop|];
    [|intros [= <- _]; by left].
  intros ([t d] & _ & H)%obind_Returned.
  destruct (num_ltb (Int 0) t) eqn:Hlt; [|injection H as <- _; by left].
  apply obind_Returned in H as (w & Hw & [= <- <-]).
  apply walking_segment_Returned in Hw as (-> & ? & ? & ? & _ & ? & Hd).
  right. exists w. split; [done|]. split; [|done].
  split_and!; try done.
  - simpl in Hlt. lia.
  - by rewrite Hd.
Qed.

Lemma add_end_walk_Returned geodesic geodesic_none bearing_direction gs route
    end_lat end_lon segs segs' end_time :
  add_end_walk geodesic geodesic_none bearing_direction gs route
    end_lat end_lon segs = Returned (segs', end_time) →
  segs' = segs
  ∨ ∃ w, segs' = segs ++ [w] ∧ walking_leg w end_time
         ∧ Some (from_stop w) = to_stop <$> last segs ∧ to_stop w = "END"
         ∧ sequence_start w = Z.of_nat (length segs).
Proof.
  unfold add_end_walk.
  destruct (last segs) as [last_seg|]; [|intros [= <- _]; by left].
  destruct (stops_get (stops_cache gs) (to_stop last_seg)) as [last_stop|];
    [|intros [= <- _]; by left].
  intros ([t d] & _ & H)%obind_Returned.
  destruct (num_ltb (Int 0) t) eqn:Hlt; [|injection H as <- _; by left].
  apply obind_Returned in H as (w & Hw & [= <- <-]).
  apply walking_segment_Returned in Hw as (-> & ? & Hf & ? & ? & ? & Hd).
  right. exists w. split; [done|]. split; [|by rewrite Hf].
  split_and!; try done.
  - simpl in Hlt. lia.
  - by rewrite Hd.
Qed.

(** What [enhance_route] returns: the itinerary it was given with its
    segments mapped by [_enhance_segment], between at most one walking leg
    from START and at most one to END. *)
Lemma enhance_route_shape (geodesic : Q * Q → Q * Q → Q)
    geodesic_none bearing_direction gs route
    (start_lat start_lon end_lat end_lon : Q) enhanced :
  enhance_route geodesic geodesic_none bearing_direction gs route
    start_lat start_lon end_lat end_lon = Returned enhanced →
  path enhanced = path route
  ∧ total_time enhanced = total_time route
  ∧ total_cost enhanced = total_cost route
  ∧ transfers enhanced = transfers route
  ∧ walking_time enhanced = walking_time route
  ∧ total_distance_km enhanced = total_distance_km route
  ∧ ∃ before after,
      segments enhanced
      = before ++ (_enhance_segment <$> segments route) ++ after
      ∧ (before = []
         ∨ ∃ w, before = [w] ∧ walking_leg w (start_walking_time enhanced)
                ∧ route_type w = "walking" ∧ from_stop w = "START"
                ∧ Some (to_stop w) = from_stop <$> head (segments route))
      ∧ (after = []
         ∨ ∃ w, after = [w] ∧ walking_leg w (end_walking_time enhanced)
                ∧ route_type w = "walking" ∧ to_stop w = "END"
                ∧ Some (from_stop w) = to_stop <$> last (segments route)).
Proof.
  unfold enhance_route. intros (calories & _ & H)%obind_Returned.
  apply obind_Returned in H as (walked & Hw & [= <-]). simpl.
  unfold _add_walking_directions in Hw. simpl in Hw.
  destruct (segments route) as [|first rest] eqn:Hsegs.
  { injection Hw as <-. simpl. rewrite ?Hsegs. split_and!; try done.
    exists [], []. split_and!; [done | by left..]. }
  apply obind_Returned in Hw as ([segs st] & Hstart & Hw).
  apply obind_Returned in Hw as ([segs' et] & Hend & [= <-]). simpl.
  split_and!; try done.
  apply add_start_walk_Returned in Hstart. simpl in Hstart. rewrite ?Hsegs in Hstart.
  apply add_end_walk_Returned in Hend.
  assert (Htype : ∀ w t, walking_leg w t → walking_leg (_enhance_segment w) t
                         ∧ route_type (_enhance_segment w) = "walking").
  { intros w t (Hid & ? & ? & ? & ?). unfold walking_leg, _enhance_segment.
    simpl. rewrite Hid. by split_and!. }
  destruct Hstart as [->|(w & -> & Hleg & Hfrom & Hto)];
    destruct Hend as [->|(w' & -> & Hleg' & Hfrom' & Hto' & _)].
  - exists [], []. rewrite app_nil_r. split_and!; [done | by left..].
  - exists [], [_enhance_segment w']. rewrite fmap_app. split_and!; [done|by left|].
    right. exists (_enhance_segment w').
    destruct (Htype _ _ Hleg'). by split_and!.
  - exists [_enhance_segment w], []. rewrite app_nil_r.
    split_and!; [done| |by left].
    right. exists (_enhance_segment w). destruct (Htype _ _ Hleg).
    split_and!; try done. simpl. by rewrite Hto.
  - exists [_enhance_segment w], [_enhance_segment w'].
    rewrite fmap_app. split_and!; [done|..].
    + right. exists (_enhance_segment w). destruct (Htype _ _ Hleg).
      split_and!; try done. simpl. by rewrite Hto.
    + right. exists (_enhance_segment w'). destruct (Htype _ _ Hleg').
      by split_and!.
Qed.

Lemma enhance_segment_retyped seg : retyped seg (_enhance_segment seg).
Proof.
  unfold retyped. do 13 (split; [done|]).
  unfold typed_by_id, _enhance_segment. simpl.
  destruct (contains "METRO" (route_id seg)) eqn:Hmetro.
  { split_and!; split; try done.
    - intros Hw. rewrite Hw in Hmetro. by rewrite walking_is_not_metro in Hmetro.
    - by intros [? _]. }
  destruct (String.eqb (route_id seg) "WALKING") eqn:Hwalk.
  - apply String.eqb_eq in Hwalk. split_and!; split; try done. by intros [_ ?].
  - apply String.eqb_neq in Hwalk. by split_and!; split.
Qed.

Lemma enhance_segments_retyped segs :
  Forall2 retyped segs (_enhance_segment <$> segs).
Proof.
  induction segs as [|seg segs IH]; [constructor|].
  rewrite fmap_cons. constructor; [apply enhance_segment_retyped | done].
Qed.

(** C10: in the itinerary [enhance_route] returns, the type of every
    segment is read off its route id alone: "metro" exactly when the id
    contains METRO, "walking" exactly when the id is WALKING, "bus" in
    every other case. The segments of the itinerary it was given are all
    there, in order, each with its id and every other field kept and its
    type replaced by the one the id gives, whatever type it carried before;
    the only other segments are legs with the id WALKING. *)
Theorem enhance_route_types geodesic geodesic_none bearing_direction gs route
    start_lat start_lon end_lat end_lon enhanced :
  enhance_route geodesic geodesic_none bearing_direction gs route
    start_lat start_lon end_lat end_lon = Returned enhanced →
  Forall typed_by_id (segments enhanced)
  ∧ ∃ before transit after,
      segments enhanced = before ++ transit ++ after
      ∧ Forall2 retyped (segments route) transit
      ∧ Forall (λ w, route_id w = "WALKING") (before ++ after).
Proof.
  intros H. split.
  - unfold enhance_route in H. apply obind_Returned in H as (calories & _ & H).
    apply obind_Returned in H as (walked & _ & [= <-]). simpl.
    apply Forall_fmap, Forall_true. intros seg.
    by destruct (enhance_segment_retyped seg) as (_ & _ & _ & _ & _ & _ & _ & _
                                                  & _ & _ & _ & _ & _ & ?).
  - apply enhance_route_shape in H
      as (_ & _ & _ & _ & _ & _ & before & after & Hsegs & Hb & Ha).
    exists before, (_enhance_segment <$> segments route), after.
    split_and!; [done | apply enhance_segments_retyped |].
    apply Forall_app. split.
    + destruct Hb as [->|(w & -> & (? & _) & _)]; by repeat constructor.
    + destruct Ha as [->|(w & -> & (? & _) & _)]; by repeat constructor.
Qed.

Lemma typed_route_enhanced :
  enhance_route flat_km geopy_none due_north test_graph typed_route
    (129734 # 10000) (775946 # 10000) (129738 # 10000) (776108 # 10000)
  = Returned typed_enhanced.
Proof. vm_compute. reflexivity. Qed.

Lemma enhance_route_types_witness :
  Forall typed_by_id (segments typed_enhanced)
  ∧ ∃ before transit after,
      segments typed_enhanced = before ++ transit ++ after
      ∧ Forall2 retyped (segments typed_route) transit
      ∧ Forall (λ w, route_id w = "WALKING") (before ++ after).
Proof.
  apply (enhance_route_types flat_km geopy_none due_north test_graph
           typed_route (129734 # 10000) (775946 # 10000)
           (129738 # 10000) (776108 # 10000) typed_enhanced).
  exact typed_route_enhanced.
Defined.

(** X15: [enhance_route] leaves the path, the totals and the walking time of
    the itinerary as they are. Its segments are the segments it was given,
    in order, each with its route, stops, times and every other field kept
    and its type replaced by the one its id gives, with at most one walking
    leg of a positive whole number of minutes put before them, leaving
    START, and at most one put after them, reaching END. *)
Theorem enhance_route_adds_walking_legs (geodesic : Q * Q → Q * Q → Q)
    geodesic_none bearing_direction gs route
    (start_lat start_lon end_lat end_lon : Q) enhanced :
  enhance_route geodesic geodesic_none bearing_direction gs route
    start_lat start_lon end_lat end_lon = Returned enhanced →
  path enhanced = path route
  ∧ total_time enhanced = total_time route
  ∧ total_cost enhanced = total_cost route
  ∧ transfers enhanced = transfers route
  ∧ walking_time enhanced = walking_time route
  ∧ total_distance_km enhanced = total_distance_km route
  ∧ ∃ before transit after,
      segments enhanced = before ++ transit ++ after
      ∧ Forall2 retyped (segments route) transit
      ∧ (before = []
         ∨ ∃ w, before = [w] ∧ walking_leg w (start_walking_time enhanced)
                ∧ route_type w = "walking" ∧ from_stop w = "START"
                ∧ Some (to_stop w) = from_stop <$> head (segments route))
      ∧ (after = []
         ∨ ∃ w, after = [w] ∧ walking_leg w (end_walking_time enhanced)
                ∧ route_type w = "walking" ∧ to_stop w = "END"
                ∧ Some (from_stop w) = to_stop <$> last (segments route)).
Proof.
  intros H. apply enhance_route_shape in H
    as (? & ? & ? & ? & ? & ? & before & after & Hsegs & Hb & Ha).
  split_and!; try done.
  exists before, (_enhance_segment <$> segments route), after.
  split_and!; [done | apply enhance_segments_retyped | done..].
Qed.

Lemma plaza_enhanced_found :
  enhance_route flat_km geopy_none due_north
    (ensure_loaded plaza_graph empty_db) plaza_route 0 0 0 (21 # 1000)
  = Returned plaza_enhanced.
Proof. vm_compute. reflexivity. Qed.

Lemma enhance_route_adds_walking_legs_witness :
  path plaza_enhanced = path plaza_route
  ∧ total_time plaza_enhanced = total_time plaza_route
  ∧ total_cost plaza_enhanced = total_cost plaza_route
  ∧ transfers plaza_enhanced = transfers plaza_route
  ∧ walking_time plaza_enhanced = walking_time plaza_route
  ∧ total_distance_km plaza_enhanced = total_distance_km plaza_route
  ∧ ∃ before transit after,
      segments plaza_enhanced = before ++ transit ++ after
      ∧ Forall2 retyped (segments plaza_route) transit
      ∧ (before = []
         ∨ ∃ w, before = [w] ∧ walking_leg w (start_walking_time plaza_enhanced)
                ∧ route_type w = "walking" ∧ from_stop w = "START"
                ∧ Some (to_stop w) = from_stop <$> head (segments plaza_route))
      ∧ (after = []
         ∨ ∃ w, after = [w] ∧ walking_leg w (end_walking_time plaza_enhanced)
                ∧ route_type w = "walking" ∧ to_stop w = "END"
                ∧ Some (from_stop w) = to_stop <$> last (segments plaza_route)).
Proof.
  apply (enhance_route_adds_walking_legs flat_km geopy_none due_north
           (ensure_loaded plaza_graph empty_db) plaza_route 0 0 0 (21 # 1000)
           plaza_enhanced).
  exact plaza_enhanced_found.
Defined.

(** ** The summary *)

Lemma push_run_head r n rs : fst <$> head (push_run r n rs) = Some r.
Proof. destruct rs as [|[b m] tl]; simpl; [done|]. by destruct (String.eqb r b). Qed.

Lemma push_run_other r n a rs :
  r ≠ a → push_run r n (push_run a 1 rs) = (r, n) :: push_run a 1 rs.
Proof.
  intros Hne. pose proof (push_run_head a 1 rs) as Hh.
  destruct (push_run a 1 rs) as [|[b m] tl]; [done|].
  injection Hh as ->. simpl. by apply String.eqb_neq in Hne as ->.
Qed.

Lemma push_run_same r n rs :
  push_run r n (push_run r 1 rs) = push_run r (n + 1) rs.
Proof.
  destruct rs as [|[b m] tl]; simpl.
  - by rewrite String.eqb_refl.
  - destruct (String.eqb r b) eqn:E; simpl; rewrite String.eqb_refl.
    + f_equal. f_equal. lia.
    + done.
Qed.

Lemma summary_loop_runs segs r n parts c n' parts' :
  summary_loop segs (Some r) n parts = (c, n', parts') →
  ∃ r', c = Some r' ∧ r' = default r (route_id <$> last segs)
        ∧ parts' ++ [take_clause r' n']
          = parts ++ ((λ p, take_clause p.1 p.2)
                        <$> push_run r n (runs (route_id <$> segs))).
Proof.
  revert r n parts. induction segs as [|seg rest IH]; intros r n parts.
  - intros [= <- <- <-]. by exists r.
  - cbn [summary_loop]. destruct (String.eqb (route_id seg) r) eqn:E; cbn [negb].
    + apply String.eqb_eq in E as <-. intros H.
      apply IH in H as (r' & -> & Hr & Hp). exists r'. split; [done|].
      split.
      * rewrite Hr. by destruct rest.
      * rewrite Hp. cbn [fmap list_fmap runs]. by rewrite push_run_same.
    + apply String.eqb_neq in E. intros H.
      apply IH in H as (r' & -> & Hr & Hp). exists r'. split; [done|].
      split.
      * rewrite Hr. destruct rest as [|s rest']; [done|].
        rewrite last_cons_cons.
        destruct (last (s :: rest')) eqn:El; [done | by apply last_None in El].
      * rewrite Hp. cbn [fmap list_fmap runs].
        rewrite push_run_other by done. by rewrite <- app_assoc.
Qed.

(** X16: for an itinerary with segments and no walking time at either
    end, whose last route id is not empty, the summary is one "Take"
    clause for each run of adjacent segments on the same route, in order,
    counting the segments of the run as its stops. *)
Theorem route_summary_runs route :
  segments route ≠ [] →
  num_ltb (Int 0) (start_walking_time route) = false →
  num_ltb (Int 0) (end_walking_time route) = false →
  route_id <$> last (segments route) ≠ Some "" →
  _generate_route_summary route
  = join " → " ((λ p, take_clause p.1 p.2)
                  <$> runs (route_id <$> segments route)).
Proof.
  intros Hsegs Hstart Hend Hlast. unfold _generate_route_summary.
  destruct (segments route) as [|first rest]; [done|].
  rewrite Hstart, Hend. cbn [summary_loop].
  destruct (summary_loop rest (Some (route_id first)) 1 [])
    as [[c n'] parts'] eqn:Hloop.
  apply summary_loop_runs in Hloop as (r' & -> & Hr & Hp).
  assert (Hne : r' ≠ "").
  { intros ->. apply Hlast. destruct rest as [|s rest'].
    - simpl in *. by rewrite <- Hr.
    - rewrite last_cons_cons. simpl in Hr.
      destruct (last (s :: rest')) eqn:El; [simpl in *; by rewrite Hr|].
      by apply last_None in El. }
  apply String.eqb_neq in Hne as ->. by rewrite Hp.
Qed.

Lemma route_summary_runs_witness :
  _generate_route_summary typed_route
  = join " → " ((λ p, take_clause p.1 p.2)
                  <$> runs (route_id <$> segments typed_route)).
Proof.
  apply (route_summary_runs typed_route); [|vm_compute; reflexivity..|]; done.
Defined.

(** ** [find_route]: search, enhancer and cache together *)

(** What the search returns has no walking leg yet, and its segments, if
    any, leave the start stop and reach the end stop, both cached. *)
Lemma with_transfers_shape gs db s e optimize_for r :
  _dijkstra_with_transfers gs db s e optimize_for = Returned (Some r) →
  in_stops gs s = true ∧ in_stops gs e = true
  ∧ start_walking_time r = Int 0 ∧ end_walking_time r = Int 0
  ∧ (segments r = []
     ∨ from_stop <$> head (segments r) = Some s
       ∧ to_stop <$> last (segments r) = Some e).
Proof.
  unfold _dijkstra_with_transfers, dijkstra_with_transfers_fuel, in_stops.
  destruct (stops_get (stops_cache gs) s) as [start_stop|] eqn:Hs; [|done].
  destruct (stops_get (stops_cache gs) e) as [end_stop|] eqn:He; [|done].
  apply stops_get_Some in Hs as [_ Hs]. apply stops_get_Some in He as [_ He].
  destruct (String.eqb s e) eqn:Hse.
  { intros [= <-]. split_and!; try done. by left. }
  apply String.eqb_neq in Hse.
  destruct (List.find _ _) as [connection|].
  { intros [= <-]. simpl. rewrite Hs, He. split_and!; try done. by right. }
  unfold _find_route_serving_both_stops.
  destruct (List.find _ (db_routes db)) as [doc|].
  { intros [= <-]. split_and!; try done. by right. }
  intros Hr. change (_dijkstra_pathfinding gs s e optimize_for 5
                     = Returned (Some r)) in Hr.
  destruct (pathfinding_books _ _ _ _ _ _ Hr)
    as (cur & (Hlast & Hpath & Hfrom & _) & <- & ->).
  simpl. split_and!; try done.
  destruct (e_segments cur) as [|seg segs] eqn:Hsegs using rev_ind.
  { by left. }
  clear IHsegs. right. split.
  - rewrite Hpath in Hfrom. destruct segs as [|seg' segs]; simpl in *; congruence.
  - rewrite last_snoc. simpl. rewrite Hpath, fmap_app in Hlast. simpl in Hlast.
    rewrite app_comm_cons, last_snoc in Hlast. done.
Qed.

Lemma with_transfers_returns gs db s e optimize_for :
  closed gs → ∃ res, _dijkstra_with_transfers gs db s e optimize_for = Returned res.
Proof.
  intros Hclosed.
  unfold _dijkstra_with_transfers, dijkstra_with_transfers_fuel.
  destruct (stops_get (stops_cache gs) s) as [start_stop|]; [|by eexists].
  destruct (stops_get (stops_cache gs) e) as [end_stop|]; [|by eexists].
  destruct (String.eqb s e); [by eexists|].
  destruct (List.find _ _) as [connection|]; [by eexists|].
  destruct (_find_route_serving_both_stops _ _ _ _ _ _); [by eexists|].
  change (∃ res, _dijkstra_pathfinding gs s e optimize_for 5 = Returned res).
  pose proof (dijkstra_pathfinding_spec gs s e optimize_for 5) as H.
  destruct (_dijkstra_pathfinding gs s e optimize_for 5) as [res|ex|];
    [by eexists| |done].
  by destruct H.
Qed.

Lemma walking_time_cached (geodesic : Q * Q → Q * Q → Q) geodesic_none gs
    (la lo : Q) id :
  in_stops gs id = true →
  ∃ res, calculate_walking_time_from_coords geodesic geodesic_none gs la lo id
         = Returned res.
Proof.
  unfold in_stops, calculate_walking_time_from_coords, get_stop_coordinates.
  destruct (stops_get (stops_cache gs) id); [|done]. intros _.
  cbn [not_pair geodesic_to obind fst snd]. by eexists.
Qed.

Lemma candidate_returns (geodesic : Q * Q → Q * Q → Q) geodesic_none gs db
    (sla slo ela elo : Q) optimize_for p :
  closed gs →
  ∃ c, candidate geodesic geodesic_none gs db sla slo ela elo optimize_for p
       = Returned c.
Proof.
  intros Hclosed. unfold candidate.
  destruct (with_transfers_returns gs db p.1 p.2 optimize_for Hclosed)
    as [[route|] Hsearch]; rewrite Hsearch; simpl; [|by eexists].
  apply with_transfers_shape in Hsearch as (Hs & He & _).
  destruct (walking_time_cached geodesic geodesic_none gs sla slo _ Hs)
    as [sw ->].
  destruct (walking_time_cached geodesic geodesic_none gs ela elo _ He)
    as [ew ->].
  simpl. by eexists.
Qed.

Lemma fold_try_pair_returns (geodesic : Q * Q → Q * Q → Q) geodesic_none gs db
    (sla slo ela elo : Q) optimize_for pairs best :
  closed gs →
  ∃ best',
    fold_outcome
      (λ acc p, try_pair geodesic geodesic_none gs db sla slo ela elo
                  optimize_for p.1 acc p.2) pairs best
    = Returned best'.
Proof.
  intros Hclosed. revert best.
  induction pairs as [|[s e] pairs IH]; intros best; simpl; [by eexists|].
  rewrite try_pair_candidate.
  destruct (candidate_returns geodesic geodesic_none gs db sla slo ela elo
              optimize_for (s, e) Hclosed) as [c ->].
  simpl. apply IH.
Qed.

(** With every connection leading to a cached stop, [find_optimal_route]
    returns. *)
Lemma find_optimal_route_returns (geodesic : Q * Q → Q * Q → Q) geodesic_none
    gs db (start_lat start_lon end_lat end_lon : Q) optimize_for :
  closed (ensure_loaded gs db) →
  ∃ res, find_optimal_route geodesic geodesic_none gs db
           start_lat start_lon end_lat end_lon optimize_for = Returned res.
Proof.
  intros Hclosed. unfold find_optimal_route.
  destruct (validate_coordinates _ _ start_lat start_lon); [|by eexists].
  destruct (validate_coordinates _ _ end_lat end_lon); [|by eexists].
  simpl.
  destruct (find_nearest_stops _ _ start_lat start_lon 3); [by eexists|].
  destruct (find_nearest_stops _ _ end_lat end_lon 3); [by eexists|].
  rewrite (fold_outcome_pairs
             (λ acc s e, try_pair geodesic geodesic_none (ensure_loaded gs db)
                           db start_lat start_lon end_lat end_lon optimize_for
                           s acc e)).
  edestruct fold_try_pair_returns as [best ->]; [exact Hclosed|].
  simpl. by eexists.
Qed.

(** The enhancer returns on an itinerary with a finite walking time whose
    first and last stops, when cached, are within walking distance of the
    two points. *)
Lemma enhance_route_returns (geodesic : Q * Q → Q * Q → Q) geodesic_none
    bearing_direction gs route (start_lat start_lon end_lat end_lon : Q) :
  walking_time route ≠ Inf →
  (∀ first stop,
     head (segments route) = Some first →
     stops_get (stops_cache gs) (from_stop first) = Some stop →
     Qle_bool (geodesic (start_lat, start_lon) (stop_coords stop))
       settings.MAX_WALKING_DISTANCE_KM = true) →
  (∀ last_seg stop,
     last (segments route) = Some last_seg →
     stops_get (stops_cache gs) (to_stop last_seg) = Some stop →
     Qle_bool (geodesic (end_lat, end_lon) (stop_coords stop))
       settings.MAX_WALKING_DISTANCE_KM = true) →
  ∃ enhanced,
    enhance_route geodesic geodesic_none bearing_direction gs route
      start_lat start_lon end_lat end_lon = Returned enhanced.
Proof.
  intros Hwalk Hstart Hend. unfold enhance_route.
  assert (∃ calories, _calculate_calories_burned route = Returned calories)
    as [calories ->].
  { unfold _calculate_calories_burned. destruct (walking_time route);
      [by eexists..|done]. }
  cbn [obind]. unfold _add_walking_directions. cbn [segments].
  destruct (segments route) as [|first rest] eqn:Hsegs; [by eexists|].
  assert (∃ segs st,
            add_start_walk geodesic geodesic_none bearing_direction gs
              {| path := path route; segments := first :: rest;
                 total_time := total_time route;
                 total_cost := total_cost route;
                 transfers := transfers route;
                 walking_time := walking_time route;
                 total_distance_km := total_distance_km route;
                 start_walking_time := start_walking_time route;
                 end_walking_time := end_walking_time route;
                 route_summary := _generate_route_summary route;
                 alternative_routes_count := alternative_routes_count route;
                 co2_saved_kg := _calculate_co2_saved route;
                 calories_burned := calories |}
              start_lat start_lon first = Returned (segs, st)
            ∧ last segs = last (first :: rest)) as (segs & st & -> & Hlast).
  { unfold add_start_walk. cbn [segments start_walking_time].
    destruct (stops_get (stops_cache gs) (from_stop first)) as [stop|] eqn:Hg;
      [|by eexists _, _].
    destruct (walking_time_near geodesic geodesic_none gs start_lat start_lon
                _ _ Hg (Hstart first stop eq_refl Hg)) as (m & d & ->).
    cbn [obind]. destruct (num_ltb (Int 0) (Int m)); [|by eexists _, _].
    cbn [walking_segment obind]. eexists _, _. split; [done|].
    by rewrite last_cons_cons. }
  cbn [obind]. unfold add_end_walk. rewrite Hlast.
  destruct (last (first :: rest)) as [last_seg|] eqn:El; [|by eexists].
  destruct (stops_get (stops_cache gs) (to_stop last_seg)) as [stop|] eqn:Hg;
    [|by eexists].
  destruct (walking_time_near geodesic geodesic_none gs end_lat end_lon
              _ _ Hg (Hend last_seg stop eq_refl Hg)) as (m & d & ->).
  cbn [obind]. destruct (num_ltb (Int 0) (Int m)); by eexists.
Qed.

Lemma ensure_loaded_dict_ok gs db : dict_ok gs → dict_ok (ensure_loaded gs db).
Proof.
  unfold ensure_loaded. intros Hok.
  destruct (stops_cache gs) eqn:E; [|done].
  unfold dict_ok, load_graph_data. simpl.
  induction (db_stops db) as [|stop l IH] using rev_ind; [constructor|].
  rewrite foldl_snoc. by apply stops_set_dict_ok.
Qed.

(** The enhancer returns on what [find_optimal_route] found. *)
Lemma enhance_found_route (geodesic : Q * Q → Q * Q → Q) geodesic_none
    bearing_direction gs db (start_lat start_lon end_lat end_lon : Q)
    optimize_for route :
  dict_ok gs →
  find_optimal_route geodesic geodesic_none gs db
    start_lat start_lon end_lat end_lon optimize_for = Returned (Some route) →
  ∃ enhanced,
    enhance_route geodesic geodesic_none bearing_direction
      (ensure_loaded gs db) route start_lat start_lon end_lat end_lon
    = Returned enhanced.
Proof.
  intros Hok%(ensure_loaded_dict_ok _ db) H.
  apply find_optimal_route_candidate in H
    as (s & e & found & sw & sd & ew & ed & Hs & He & Hsearch & Hsw & Hew & ->).
  destruct (nearest_stops_known _ _ _ _ _ _ Hok Hs) as (ss & Hgs & Hds).
  destruct (nearest_stops_known _ _ _ _ _ _ Hok He) as (es & Hge & Hde).
  destruct (walking_time_near geodesic geodesic_none _ _ _ _ _ Hgs Hds)
    as (ms & ds & Hms).
  destruct (walking_time_near geodesic geodesic_none _ _ _ _ _ Hge Hde)
    as (me & de & Hme).
  rewrite Hms in Hsw. rewrite Hme in Hew.
  injection Hsw as <- <-. injection Hew as <- <-.
  apply with_transfers_shape in Hsearch as (_ & _ & _ & _ & Hshape).
  apply enhance_route_returns; simpl.
  - done.
  - intros first stop Hhead Hget.
    destruct Hshape as [Hnil|[Hfrom _]]; [by rewrite Hnil in Hhead|].
    rewrite Hhead in Hfrom. injection Hfrom as Hfrom.
    rewrite Hfrom in Hget. by simplify_eq.
  - intros last_seg stop Hlast Hget.
    destruct Hshape as [Hnil|[_ Hto]]; [by rewrite Hnil in Hlast|].
    rewrite Hlast in Hto. injection Hto as Hto.
    rewrite Hto in Hget. by simplify_eq.
Qed.

(** X17: an itinerary [find_route] returns is in the cache under the key of
    the request, and any later request that prints to the same key gets
    that same itinerary, whatever the graph and the cache-less answer would
    be by then; a request that finds nothing leaves the cache as it was. *)
Theorem find_route_cached (geodesic : Q * Q → Q * Q → Q) geodesic_none
    bearing_direction format_4f gs db cache
    (start_lat start_lon end_lat end_lon : Q) optimize_for res cache' :
  find_route geodesic geodesic_none bearing_direction format_4f gs db cache
    start_lat start_lon end_lat end_lon optimize_for = Returned (res, cache') →
  match res with
  | Some route =>
      ∀ gs2 db2 (start_lat2 start_lon2 end_lat2 end_lon2 : Q) optimize_for2,
        cache_key format_4f start_lat2 start_lon2 end_lat2 end_lon2
          optimize_for2
        = cache_key format_4f start_lat start_lon end_lat end_lon optimize_for →
        find_route geodesic geodesic_none bearing_direction format_4f gs2 db2
          cache' start_lat2 start_lon2 end_lat2 end_lon2 optimize_for2
        = Returned (Some route, cache')
  | None => cache' = cache
  end.
Proof.
  unfold find_route.
  destruct (cache !! cache_key format_4f start_lat start_lon end_lat end_lon
                       optimize_for) as [hit|] eqn:Hhit.
  - intros [= <- <-]. intros gs2 db2 a b c d o2 ->. by rewrite Hhit.
  - intros ([route|] & _ & H)%obind_Returned.
    + apply obind_Returned in H as (enhanced & _ & [= <- <-]).
      intros gs2 db2 a b c d o2 ->. by rewrite lookup_insert_eq.
    + by injection H as <- <-.
Qed.

Lemma plaza_find_route :
  find_route flat_km geopy_none due_north four_places plaza_graph empty_db ∅
    0 0 0 (21 # 1000) "time" = Returned (Some plaza_enhanced, plaza_cache).
Proof. vm_compute. reflexivity. Qed.

Lemma find_route_cached_witness :
  find_route flat_km geopy_none due_north four_places dangling_graph empty_db
    plaza_cache (1 # 100000) 0 0 (21 # 1000) "time"
  = Returned (Some plaza_enhanced, plaza_cache).
Proof.
  apply (find_route_cached flat_km geopy_none due_north four_places
           plaza_graph empty_db ∅ 0 0 0 (21 # 1000) "time"
           (Some plaza_enhanced) plaza_cache plaza_find_route
           dangling_graph empty_db (1 # 100000) 0%Q 0%Q (21 # 1000) "time").
  vm_compute. reflexivity.
Defined.

(** With a cache that is a dict and every connection leading to a cached
    stop, [find_route] returns: neither the search nor the enhancer
    raises. *)
Lemma find_route_returns (geodesic : Q * Q → Q * Q → Q) geodesic_none
    bearing_direction format_4f gs db cache
    (start_lat start_lon end_lat end_lon : Q) optimize_for :
  dict_ok gs → closed (ensure_loaded gs db) →
  ∃ res cache',
    find_route geodesic geodesic_none bearing_direction format_4f gs db cache
      start_lat start_lon end_lat end_lon optimize_for
    = Returned (res, cache').
Proof.
  intros Hok Hclosed. unfold find_route.
  destruct (cache !! _); [by eexists _, _|].
  destruct (find_optimal_route_returns geodesic geodesic_none gs db
              start_lat start_lon end_lat end_lon optimize_for Hclosed)
    as [[route|] Hfound]; rewrite Hfound; cbn [obind]; [|by eexists _, _].
  destruct (enhance_found_route geodesic geodesic_none bearing_direction
              gs db start_lat start_lon end_lat end_lon optimize_for route
              Hok Hfound) as [enhanced ->].
  cbn [obind]. by eexists _, _.
Qed.

(** X18: [POST /route] answers 400, without a look at the graph or the
    cache, when one of the four coordinates is absent or is zero: a point
    on the equator or on the prime meridian is refused. *)
Theorem route_endpoint_refuses_zero (geodesic : Q * Q → Q * Q → Q)
    geodesic_none bearing_direction format_4f gs db cache
    (start end_ : gmap string Q) optimize_for x :
  x ∈ [start !! "lat"; start !! "lon"; end_ !! "lat"; end_ !! "lon"] →
  x = None ∨ (∃ q, x = Some q ∧ (q == 0)%Q) →
  route_endpoint geodesic geodesic_none bearing_direction format_4f gs db
    cache start end_ optimize_for
  = Returned (HTTPException 400, cache).
Proof.
  intros Hx Hzero. unfold route_endpoint.
  destruct (negb (bool_decide (optimize_for ∈ ["time"; "cost"; "transfers"])));
    [done|].
  assert (Hfalse : truthy x = false).
  { destruct Hzero as [->|(q & -> & Hq)]; [done|]. simpl.
    apply Qeq_bool_iff in Hq. by rewrite Hq. }
  cbv zeta.
  repeat (apply elem_of_cons in Hx as [<-|Hx];
          [rewrite Hfalse; by rewrite ?andb_false_r|]).
  by apply elem_of_nil in Hx.
Qed.

Lemma route_endpoint_refuses_zero_witness :
  route_endpoint flat_km geopy_none due_north four_places plaza_graph empty_db
    ∅ {[ "lat" := 0%Q; "lon" := 0%Q ]} {[ "lat" := 0%Q; "lon" := 21 # 1000 ]}
    "time"
  = Returned (HTTPException 400, ∅).
Proof.
  apply (route_endpoint_refuses_zero flat_km geopy_none due_north four_places
           plaza_graph empty_db ∅ {[ "lat" := 0%Q; "lon" := 0%Q ]}
           {[ "lat" := 0%Q; "lon" := 21 # 1000 ]} "time" (Some 0%Q)).
  - by left.
  - right. by exists 0%Q.
Defined.

(** X19: when the store answers its reads, [db] being the documents it
    returns, the stop cache is a dict and every connection leads to a
    cached stop, [POST /route] never answers 500: it answers the
    itinerary, 400 or 404. *)
Theorem route_endpoint_answers (geodesic : Q * Q → Q * Q → Q)
    geodesic_none bearing_direction format_4f gs db cache
    (start end_ : gmap string Q) optimize_for :
  dict_ok gs → closed (ensure_loaded gs db) →
  ∃ answer cache',
    route_endpoint geodesic geodesic_none bearing_direction format_4f gs db
      cache start end_ optimize_for
    = Returned (answer, cache')
    ∧ ((∃ route, answer = Ok route)
       ∨ answer = HTTPException 400 ∨ answer = HTTPException 404).
Proof.
  intros Hok Hclosed. unfold route_endpoint.
  destruct (negb (bool_decide _)); [eexists _, _; split; [done|]; auto|].
  cbv zeta.
  destruct (start !! "lat") as [a|];
    [|eexists _, _; split; [done|]; auto].
  destruct (start !! "lon") as [b|];
    [|eexists _, _; split; [by rewrite ?andb_false_r|]; auto].
  destruct (end_ !! "lat") as [c|];
    [|eexists _, _; split; [by rewrite ?andb_false_r|]; auto].
  destruct (end_ !! "lon") as [d|];
    [|eexists _, _; split; [by rewrite ?andb_false_r|]; auto].
  destruct (negb (truthy _ && _ && _ && _));
    [eexists _, _; split; [done|]; auto|].
  destruct (_ || _); [eexists _, _; split; [done|]; auto|].
  destruct (_ || _); [eexists _, _; split; [done|]; auto|].
  destruct (find_route_returns geodesic geodesic_none bearing_direction
              format_4f gs db cache a b c d optimize_for Hok Hclosed)
    as ([route|] & cache' & ->); eexists _, _; (split; [done|]); eauto.
Qed.

Lemma plaza_closed : closed (ensure_loaded plaza_graph empty_db).
Proof. repeat constructor. Qed.

Lemma route_endpoint_answers_witness :
  ∃ answer cache',
    route_endpoint flat_km geopy_none due_north four_places plaza_graph
      empty_db ∅ {[ "lat" := 1 # 1000; "lon" := 1 # 1000 ]}
      {[ "lat" := 1 # 1000; "lon" := 21 # 1000 ]} "time"
    = Returned (answer, cache')
    ∧ ((∃ route, answer = Ok route)
       ∨ answer = HTTPException 400 ∨ answer = HTTPException 404).
Proof.
  apply (route_endpoint_answers flat_km geopy_none due_north four_places
           plaza_graph empty_db ∅ {[ "lat" := 1 # 1000; "lon" := 1 # 1000 ]}
           {[ "lat" := 1 # 1000; "lon" := 21 # 1000 ]} "time").
  - exact plaza_dict_ok.
  - exact plaza_closed.
Defined.

(** ** The trace *)

Lemma trace_inv_snoc tr count r :
  trace_inv tr count → step_no r = count → found_destination r = false →
  trace_inv (tr ++ [r]) (count + 1).
Proof.
  intros (Hnum & Hlen & Hpos & Hfound & Hhead) Hr Hf.
  unfold trace_inv, numbered in *. split_and!.
  - rewrite fmap_app, length_app, Nat.add_1_r, seqZ_S, Hnum. simpl.
    by rewrite Hr, Hlen.
  - rewrite length_app. simpl. lia.
  - lia.
  - apply Forall_app. by split; [|constructor].
  - destruct tr; [simpl in *; lia | done].
Qed.

Lemma trace_loop_shape gs end_stop_id optimize_for fuel st st' :
  trace_inv (steps st) (step_count st) → step_count st ≤ 101 →
  trace_loop gs end_stop_id optimize_for fuel st = Returned st' →
  (trace_inv (steps st') (step_count st') ∧ step_count st' ≤ 101
   ∧ (100 ≤ step_count st' ∨ t_pq st' = []))
  ∨ ∃ body found,
      steps st' = body ++ [found]
      ∧ trace_inv body (step_count st') ∧ step_count st' < 100
      ∧ step_no found = step_count st'
      ∧ action found = "found_destination" ∧ found_destination found = true.
Proof.
  revert st. induction fuel as [|fuel IH]; intros st Hinv Hcap; [done|].
  simpl. destruct (step_count st <? 100) eqn:Hlt; simpl.
  2:{ intros [= <-]. left. apply Z.ltb_ge in Hlt. split_and!; [done..|by left]. }
  apply Z.ltb_lt in Hlt.
  destruct (t_pq st) as [|x xs] eqn:Hpq.
  { simpl. intros [= <-]. left. split_and!; [done..|by right]. }
  destruct (heappop (x :: xs)) as [[cur pq']|] eqn:Hpop.
  2:{ simpl in Hpop. destruct (heappop xs) as [[m rest]|]; [|done].
      by destruct (entry_ltb m x). }
  case_bool_decide.
  { intros H'. apply IH in H'; [done| |simpl; lia]. simpl.
    by apply trace_inv_snoc. }
  destruct (String.eqb (e_stop cur) end_stop_id).
  { intros [= <-]. right. simpl. by eexists _, _. }
  assert (Hinv1 : trace_inv
                    (steps st ++
                     [mk_step st "process_node" (e_stop cur) []
                        ({[e_stop cur]} ∪ t_visited st) (e_path cur) false])
                    (step_count st + 1)) by by apply trace_inv_snoc.
  destruct (stops_get _ _) as [current_stop_obj|].
  2:{ intros H'. apply IH in H'; [done|done|simpl; lia]. }
  destruct (trace_explore _ _ _ _ _) as [[[pq'' counter'] added]| |]; [|done..].
  destruct added as [|a added].
  - intros H'. apply IH in H'; [done|done|simpl; lia].
  - intros H'. apply IH in H'; [done| |simpl; lia]. simpl.
    by apply trace_inv_snoc.
Qed.

(** X20: the trace is empty exactly when a stop is unknown; when both
    stops are cached it has at most 102 records and starts with
    [initialize], and its records are numbered from 0 in order and none
    reports the destination, or they are so up to a [found_destination]
    record that is the last one or is followed by one [no_route_found]
    record bearing the same number. *)
Theorem trace_records gs s e optimize_for tr :
  get_algorithm_execution_steps gs s e optimize_for = Returned tr →
  (tr = [] ∧ (in_stops gs s = false ∨ in_stops gs e = false))
  ∨ (in_stops gs s = true ∧ in_stops gs e = true
     ∧ action <$> head tr = Some "initialize" ∧ (length tr ≤ 102)%nat
     ∧ (numbered tr ∧ Forall (λ r, found_destination r = false) tr
        ∨ ∃ body found rest,
            tr = body ++ found :: rest
            ∧ numbered (body ++ [found])
            ∧ Forall (λ r, found_destination r = false) body
            ∧ action found = "found_destination"
            ∧ found_destination found = true
            ∧ (rest = []
               ∨ ∃ final, rest = [final]
                          ∧ action final = "no_route_found"
                          ∧ found_destination final = false
                          ∧ step_no final = step_no found))).
Proof.
  unfold get_algorithm_execution_steps.
  destruct (in_stops gs s); [|intros [= <-]; left; auto].
  destruct (in_stops gs e); [|intros [= <-]; left; auto].
  cbn [negb orb].
  destruct (trace_loop gs e optimize_for 100 (trace_initial s))
    as [st'| |] eqn:Hloop; [|done..].
  intros [= <-]. right. split; [done|]. split; [done|].
  apply trace_loop_shape in Hloop; [| |simpl; lia].
  2:{ unfold trace_inv, numbered. simpl. split_and!; try done. by repeat constructor. }
  destruct Hloop as [(Hinv & Hcap & Hexit)|(body & found & Hsteps & Hinv & Hlt & Hno & Hact & Hf)].
  - assert (Hfinal : ∃ act,
              trace_final st'
              = steps st' ++ [mk_step st' act (t_current st').1 []
                                (t_visited st') (t_current st').2 false]).
    { unfold trace_final. destruct (100 <=? step_count st') eqn:E.
      - destruct (t_pq st'); by eexists.
      - apply Z.leb_gt in E. destruct Hexit as [?| ->]; [lia | by eexists]. }
    destruct Hfinal as [act ->].
    pose proof (trace_inv_snoc _ _
                  (mk_step st' act (t_current st').1 [] (t_visited st')
                     (t_current st').2 false) Hinv eq_refl eq_refl)
      as (Hnum & Hlen & _ & Hfound & Hhead).
    split_and!; [done|lia|]. by left.
  - destruct Hinv as (Hnum & Hlen & Hpos & Hfound & Hhead).
    assert (Hnumf : numbered (body ++ [found])).
    { unfold numbered in *.
      rewrite fmap_app, length_app, Nat.add_1_r, seqZ_S, Hnum. simpl.
      by rewrite Hno, Hlen. }
    assert (Hb : body ≠ []) by (intros ->; simpl in *; lia).
    unfold trace_final. rewrite Hsteps.
    assert (E : (100 <=? step_count st') = false) by by apply Z.leb_gt.
    rewrite E.
    destruct (t_pq st').
    + split_and!.
      * by destruct body.
      * rewrite !length_app. simpl. lia.
      * right. exists body, found, [mk_step st' "no_route_found" (t_current st').1 []
                                      (t_visited st') (t_current st').2 false].
        rewrite <- app_assoc. split_and!; try done.
        right. eexists. by split_and!.
    + split_and!.
      * by destruct body.
      * rewrite !length_app. simpl. lia.
      * right. exists body, found, []. split_and!; try done. by left.
Qed.

Lemma chain_trace_found :
  get_algorithm_execution_steps chain_graph "S" "T" "time"
  = Returned chain_trace.
Proof. vm_compute. reflexivity. Qed.

Lemma trace_records_witness :
  (chain_trace = []
   ∧ (in_stops chain_graph "S" = false ∨ in_stops chain_graph "T" = false))
  ∨ (in_stops chain_graph "S" = true ∧ in_stops chain_graph "T" = true
     ∧ action <$> head chain_trace = Some "initialize"
     ∧ (length chain_trace ≤ 102)%nat
     ∧ (numbered chain_trace
        ∧ Forall (λ r, found_destination r = false) chain_trace
        ∨ ∃ body found rest,
            chain_trace = body ++ found :: rest
            ∧ numbered (body ++ [found])
            ∧ Forall (λ r, found_destination r = false) body
            ∧ action found = "found_destination"
            ∧ found_destination found = true
            ∧ (rest = []
               ∨ ∃ final, rest = [final]
                          ∧ action final = "no_route_found"
                          ∧ found_destination final = false
                          ∧ step_no final = step_no found))).
Proof.
  apply (trace_records chain_graph "S" "T" "time" chain_trace).
  exact chain_trace_found.
Defined.

Lemma trace_single_connection gs s e optimize_for start_stop c fuel :
  stops_get (stops_cache gs) s = Some start_stop →
  connections start_stop = [c] →
  to_stop_id c = e → s ≠ e → in_stops gs e = true →
  ∃ st',
    trace_loop gs e optimize_for (S (S fuel)) (trace_initial s) = Returned st'
    ∧ action <$> steps st'
      = ["initialize"; "process_node"; "add_neighbors"; "found_destination"]
    ∧ found_destination <$> steps st' = [false; false; false; true]
    ∧ t_pq st' = [] ∧ step_count st' = 3.
Proof.
  intros Hs Hc Hto Hne He. unfold in_stops in He.
  destruct (stops_get (stops_cache gs) e) as [end_stop|] eqn:Hge; [|done].
  destruct (boarding gs None c) as [penalty is_transfer] eqn:Hb.
  apply String.eqb_neq in Hne as Hne'.
  eexists. split.
  - remember (S fuel) as n eqn:Hn.
    cbn [trace_loop trace_initial step_count t_pq heappop e_stop t_visited].
    change (1 <? 100) with true. cbn [negb].
    rewrite bool_decide_eq_false_2 by apply not_elem_of_empty.
    rewrite Hne', Hs, Hc.
    cbn [trace_explore e_path app]. rewrite Hto.
    rewrite (bool_decide_eq_false_2 (e ∈ [s]))
      by (intros ?%list_elem_of_singleton; congruence).
    change (boarding gs _ c) with (boarding gs None c). rewrite Hb, Hge.
    subst n.
    cbn [trace_loop heappush steps step_count t_pq heappop e_stop t_visited app].
    change (1 + 1 + 1 <? 100) with true. cbn [negb].
    rewrite bool_decide_eq_false_2
      by (rewrite elem_of_union, elem_of_singleton, elem_of_empty;
          intros [?|[]]; congruence).
    rewrite String.eqb_refl. reflexivity.
  - done.
Qed.

(** X21: when the only connection of the start stop leads to the end
    stop, the trace reports the destination as found and, the queue being
    empty by then, ends all the same with a [no_route_found] record. *)
Theorem trace_found_then_no_route gs s e optimize_for start_stop c :
  stops_get (stops_cache gs) s = Some start_stop →
  connections start_stop = [c] →
  to_stop_id c = e → s ≠ e → in_stops gs e = true →
  ∃ tr,
    get_algorithm_execution_steps gs s e optimize_for = Returned tr
    ∧ action <$> tr
      = ["initialize"; "process_node"; "add_neighbors"; "found_destination";
         "no_route_found"]
    ∧ found_destination <$> tr = [false; false; false; true; false].
Proof.
  intros Hs Hc Hto Hne He.
  destruct (trace_single_connection gs s e optimize_for start_stop c 98
              Hs Hc Hto Hne He) as (st' & Hloop & Hact & Hfound & Hpq & Hcount).
  unfold get_algorithm_execution_steps, in_stops at 1. rewrite Hs, He.
  cbn [negb orb].
  change 100%nat with (S (S 98)). rewrite Hloop.
  eexists. split; [done|].
  unfold trace_final. rewrite Hcount, Hpq. change (100 <=? 3) with false.
  cbv iota. by rewrite !fmap_app, Hact, Hfound.
Qed.

Lemma trace_found_then_no_route_witness :
  ∃ tr,
    get_algorithm_execution_steps chain_graph "f" "T" "time" = Returned tr
    ∧ action <$> tr
      = ["initialize"; "process_node"; "add_neighbors"; "found_destination";
         "no_route_found"]
    ∧ found_destination <$> tr = [false; false; false; true; false].
Proof.
  apply (trace_found_then_no_route chain_graph "f" "T" "time"
           (mk_stop "f" 0 (6 # 100) [mk_connection "T" "R1" 1 1 4])
           (mk_connection "T" "R1" 1 1 4)); by vm_compute.
Defined.

(** ** [GET /stops/nearby] *)

Lemma nearby_fold (geodesic : Q * Q → Q * Q → Q) geodesic_none gs
    (lat lon : Q) (near : list (string * Q)) acc :
  Forall (λ p, ∃ stop,
            stops_get (stops_cache gs) p.1 = Some stop
            ∧ Qle_bool (geodesic (lat, lon) (stop_coords stop))
                settings.MAX_WALKING_DISTANCE_KM = true) near →
  ∃ stops,
    fold_outcome (nearby_entry geodesic geodesic_none gs lat lon) near acc
    = Returned (acc ++ stops)
    ∧ ns_stop_id <$> stops = near.*1
    ∧ ns_distance_km <$> stops = py_round3 <$> near.*2
    ∧ Forall (λ s, ∃ m, ns_walking_time_minutes s = Some (Int m)) stops.
Proof.
  intros Hnear. revert acc.
  induction Hnear as [|[id distance] near (stop & Hget & Hd) _ IH]; intros acc.
  - exists []. by rewrite app_nil_r.
  - simpl in Hget. cbn [fold_outcome nearby_entry]. rewrite Hget.
    destruct (walking_time_near geodesic geodesic_none gs lat lon id stop
                Hget Hd) as (m & d & ->).
    cbn [obind].
    destruct (IH (acc ++
                  [{| ns_stop_id := stop_id stop; ns_name := name stop;
                      ns_latitude := latitude (location stop);
                      ns_longitude := longitude (location stop);
                      ns_distance_km := py_round3 distance;
                      ns_walking_time_minutes :=
                        if negb (num_eqb (Int m) Inf)
                        then Some (Int m) else None |}]))
      as (stops & -> & Hids & Hdist & Htimes).
    eexists (_ :: stops). rewrite <- app_assoc. split; [done|].
    apply stops_get_Some in Hget as [_ Hid].
    cbn [fmap list_fmap fst snd ns_stop_id ns_distance_km].
    fold (fmap (M:=list) ns_stop_id stops).
    fold (fmap (M:=list) ns_distance_km stops).
    rewrite Hids, Hdist, Hid. split_and!; try done.
    constructor; [by exists m | done].
Qed.

(** X22: for a point that passes the validation, [GET /stops/nearby] lists
    the stops of [find_nearest_stops] in their order, none left out, each
    with its distance rounded and with a finite whole number of walking
    minutes: the walking time of a listed stop is never absent. *)
Theorem nearby_stops_listed (geodesic : Q * Q → Q * Q → Q) geodesic_none
    gs db (lat lon : Q) limit :
  let gs' := ensure_loaded gs db in
  dict_ok gs →
  validate_coordinates geodesic gs' lat lon = true →
  ∃ stops,
    get_nearby_stops geodesic geodesic_none gs db lat lon limit
    = Returned (Ok stops)
    ∧ ns_stop_id <$> stops
      = (find_nearest_stops geodesic gs' lat lon limit).*1
    ∧ ns_distance_km <$> stops
      = py_round3 <$> (find_nearest_stops geodesic gs' lat lon limit).*2
    ∧ Forall (λ s, ∃ m, ns_walking_time_minutes s = Some (Int m)) stops.
Proof.
  intros gs' Hok%(ensure_loaded_dict_ok _ db) Hvalid.
  unfold get_nearby_stops. fold gs'. rewrite Hvalid. cbn [negb].
  destruct (nearby_fold geodesic geodesic_none gs' lat lon
              (find_nearest_stops geodesic gs' lat lon limit) [])
    as (stops & -> & Hids & Hdist & Htimes).
  - apply Forall_forall. intros [id d] Hin. simpl.
    apply (nearest_stops_known geodesic gs' lat lon limit id Hok).
    apply list_elem_of_fmap. by exists (id, d).
  - by exists stops.
Qed.

Lemma nearby_stops_listed_witness :
  ∃ stops,
    get_nearby_stops flat_km geopy_none plaza_graph empty_db 0 0 10
    = Returned (Ok stops)
    ∧ ns_stop_id <$> stops
      = (find_nearest_stops flat_km (ensure_loaded plaza_graph empty_db)
           0 0 10).*1
    ∧ ns_distance_km <$> stops
      = py_round3 <$> (find_nearest_stops flat_km
                         (ensure_loaded plaza_graph empty_db) 0 0 10).*2
    ∧ Forall (λ s, ∃ m, ns_walking_time_minutes s = Some (Int m)) stops.
Proof.
  apply (nearby_stops_listed flat_km geopy_none plaza_graph empty_db 0 0 10).
  - exact plaza_dict_ok.
  - vm_compute. reflexivity.
Defined.

(** ** The compass *)

(** X23: with float operations that round to nearest, a bearing from 0 up
    that keeps a billionth of a degree from the edges of the sector of 45
    degrees centred on the [k]-th compass point, for [k] from 0 to 8, is
    given the [k]-th direction: the eight points in turn from the north,
    and the north again from 337.5 degrees on. *)
Theorem bearing_sector (fl : Q → Q) (bearing : Q) (k : nat) :
  rounds_to_nearest fl →
  (k ≤ 8)%nat →
  (0 <= bearing)%Q →
  (45 * inject_Z (Z.of_nat k) - (45 # 2) + sector_margin <= bearing)%Q →
  (bearing <= 45 * inject_Z (Z.of_nat k) + (45 # 2) - sector_margin)%Q →
  _bearing_to_direction fl bearing = directions !! k.
Proof.
  intros Hfl Hk Hpos Hlo Hhi. unfold _bearing_to_direction.
  assert (HK0 : (0 <= inject_Z (Z.of_nat k))%Q).
  { change 0%Q with (inject_Z 0). rewrite <- Zle_Qle. lia. }
  assert (HK8 : (inject_Z (Z.of_nat k) <= 8)%Q).
  { change 8%Q with (inject_Z 8). rewrite <- Zle_Qle. lia. }
  remember (inject_Z (Z.of_nat k)) as K eqn:HK.
  unfold sector_margin in *.
  remember (bearing + (45 # 2))%Q as x0 eqn:Hx0.
  assert (Hx0' : (x0 == bearing + (45 # 2))%Q) by by rewrite Hx0.
  clear Hx0.
  assert (H1 : (Qabs (fl x0 - x0) <= unit_roundoff * x0)%Q)
    by (apply Hfl; lra).
  apply Qabs_Qle_condition in H1 as [H1l H1u].
  remember (fl x0) as x1 eqn:Hx1. clear Hx1.
  remember (x1 / 45)%Q as y eqn:Hy.
  assert (Hy' : (y == x1 * (1 # 45))%Q) by (rewrite Hy; field).
  clear Hy. unfold unit_roundoff in *.
  assert (H2 : (Qabs (fl y - y) <= (1 # 9007199254740992) * y)%Q)
    by (apply Hfl; lra).
  apply Qabs_Qle_condition in H2 as [H2l H2u].
  remember (fl y) as x2 eqn:Hx2. clear Hx2.
  assert (Hx_lo : (K <= x2)%Q) by lra.
  assert (Hx_hi : (x2 < K + 1)%Q) by lra.
  assert (Hx_pos : (0 <= x2)%Q) by lra.
  rewrite (py_int_floor x2 Hx_pos).
  assert (Hfloor : Qfloor x2 = Z.of_nat k).
  { subst K. apply Z.le_antisymm.
    - apply Z.lt_succ_r. rewrite Zlt_Qlt.
      eapply Qle_lt_trans; [apply Qfloor_le|].
      eapply Qlt_le_trans; [exact Hx_hi|].
      unfold Z.succ. rewrite inject_Z_plus. apply Qle_refl.
    - rewrite <- (Qfloor_Z (Z.of_nat k)). by apply Qfloor_resp_le. }
  rewrite Hfloor. unfold py_index.
  destruct (0 <=? Z.of_nat k) eqn:E; [|apply Z.leb_gt in E; lia].
  by rewrite Nat2Z.id.
Qed.

Lemma exact_round_to_nearest : rounds_to_nearest exact_round.
Proof.
  intros x Hlo _. unfold exact_round, unit_roundoff.
  assert (Hz : (x - x == 0)%Q) by ring. rewrite Hz.
  change (Qabs 0) with 0%Q. lra.
Qed.

Lemma bearing_sector_witness :
  _bearing_to_direction exact_round 350 = directions !! 8%nat.
Proof.
  apply (bearing_sector exact_round 350 8);
    [exact exact_round_to_nearest | lia | by vm_compute..].
Defined.

(** The margin is needed: 22.5 - 2^-48 is a double inside the sector of
    the north; the sum with 22.5 is a tie that rounds to nearest, even
    mantissa, as 45, and the bearing is given the north-east. *)
Lemma tie_to_45_to_nearest : rounds_to_nearest tie_to_45.
Proof.
  intros x Hlo Hhi. unfold tie_to_45, unit_roundoff.
  destruct (Qeq_bool x (45 - (1 # 281474976710656))) eqn:E.
  - apply Qeq_bool_iff in E. rewrite E. by vm_compute.
  - assert (Hz : (x - x == 0)%Q) by ring. rewrite Hz.
    change (Qabs 0) with 0%Q. lra.
Qed.

Lemma bearing_edge_rounds_across :
  (0 <= (45 # 2) - (1 # 281474976710656) < 45 # 2)%Q
  ∧ _bearing_to_direction tie_to_45 ((45 # 2) - (1 # 281474976710656))
    = Some "Northeast".
Proof. split; [by vm_compute | vm_compute; reflexivity]. Qed.

(** ** Walking legs and their directions *)

Lemma floor_of_int_le (z : Z) (x : Q) : (inject_Z z <= x)%Q → z ≤ Qfloor x.
Proof. intros H. rewrite <- (Qfloor_Z z). by apply Qfloor_resp_le. Qed.

Lemma floor_lt_int (z : Z) (x : Q) : (x < inject_Z z)%Q → Qfloor x < z.
Proof.
  intros H. rewrite Zlt_Qlt. eapply Qle_lt_trans; [apply Qfloor_le | done].
Qed.

Lemma minutes_and_seconds (d d' : Q) :
  (0 <= d)%Q → (d' == d)%Q → (d <= settings.MAX_WALKING_DISTANCE_KM)%Q →
  let minutes := py_int (d / settings.WALKING_SPEED_KMH * 60) in
  let seconds := py_int (d' / WALKING_SPEED * 3600) in
  60 * minutes ≤ seconds < 60 * minutes + 60
  ∧ 0 ≤ py_int (d' * 1000) ≤ 500.
Proof.
  intros Hpos Heq Hmax. cbv zeta.
  assert (Hpos' : (0 <= d')%Q) by by rewrite Heq.
  assert (Ha : (0 <= d / settings.WALKING_SPEED_KMH * 60)%Q).
  { apply Qmult_le_0_compat; [|done]. by apply Qle_shift_div_l; [|rewrite Qmult_0_l]. }
  assert (Hb : (0 <= d' / WALKING_SPEED * 3600)%Q).
  { apply Qmult_le_0_compat; [|done]. by apply Qle_shift_div_l; [|rewrite Qmult_0_l]. }
  assert (Hc : (0 <= d' * 1000)%Q) by by apply Qmult_le_0_compat.
  rewrite !py_int_floor by done.
  set (a := (d / settings.WALKING_SPEED_KMH * 60)%Q).
  assert (Hab : (d' / WALKING_SPEED * 3600 == 60 * a)%Q).
  { unfold a, WALKING_SPEED, settings.WALKING_SPEED_KMH. rewrite Heq. field. }
  rewrite Hab. split_and!.
  - apply floor_of_int_le. rewrite inject_Z_mult.
    apply Qmult_le_l; [done | apply Qfloor_le].
  - apply floor_lt_int.
    replace (60 * Qfloor a + 60) with (60 * (Qfloor a + 1)) by lia.
    rewrite inject_Z_mult. apply Qmult_lt_l; [done | apply Qlt_floor].
  - change 0 with (Qfloor 0). by apply Qfloor_resp_le.
  - change 500 with (Qfloor 500). apply Qfloor_resp_le. rewrite Heq.
    apply Qle_trans with (settings.MAX_WALKING_DISTANCE_KM * 1000)%Q;
      [by apply Qmult_le_compat_r | by vm_compute].
Qed.

Lemma walking_time_whole (geodesic : Q * Q → Q * Q → Q) geodesic_none gs
    (la lo : Q) id stop z d :
  stops_get (stops_cache gs) id = Some stop →
  calculate_walking_time_from_coords geodesic geodesic_none gs la lo id
  = Returned (Int z, d) →
  d = geodesic (la, lo) (stop_coords stop)
  ∧ (d <= settings.MAX_WALKING_DISTANCE_KM)%Q
  ∧ z = py_int (d / settings.WALKING_SPEED_KMH * 60).
Proof.
  intros Hget.
  unfold calculate_walking_time_from_coords, get_stop_coordinates.
  rewrite Hget. unfold stop_coords in *.
  cbn [not_pair geodesic_to obind fst snd].
  unfold walking_time_of, Qltb.
  destruct (Qle_bool _ _) eqn:E; cbn [negb]; [|done].
  intros [= <- <-]. apply Qle_bool_iff in E. by split_and!.
Qed.

Lemma add_start_walk_legs (geodesic : Q * Q → Q * Q → Q) geodesic_none
    bearing_direction gs route (start_lat start_lon : Q) first segs
    start_time :
  (∀ p q, 0 <= geodesic p q)%Q →
  add_start_walk geodesic geodesic_none bearing_direction gs route
    start_lat start_lon first = Returned (segs, start_time) →
  segs = segments route
  ∨ ∃ w, segs = w :: segments route ∧ leg_consistent w.
Proof.
  intros Hpos. unfold add_start_walk.
  destruct (stops_get (stops_cache gs) (from_stop first)) as [first_stop|]
    eqn:Hget; [|intros [= <- _]; by left].
  intros ([t d] & Hcalc & H)%obind_Returned.
  destruct (num_ltb (Int 0) t) eqn:Hlt; [|injection H as <- _; by left].
  apply obind_Returned in H as (w & Hw & [= <- <-]).
  apply walking_segment_Returned in Hw as (-> & _ & _ & _ & _ & _ & Hd).
  apply (walking_time_whole _ _ _ _ _ _ _ _ _ Hget) in Hcalc as (-> & Hmax & Hz).
  right. exists w. split; [done|]. eexists. split; [exact Hd|].
  rewrite Hz. unfold _generate_walking_direction, stop_coords in *.
  cbn [duration_seconds distance_meters].
  by apply minutes_and_seconds.
Qed.

Lemma add_end_walk_legs (geodesic : Q * Q → Q * Q → Q) geodesic_none
    bearing_direction gs route (end_lat end_lon : Q) segs segs' end_time :
  (∀ p q, 0 <= geodesic p q)%Q →
  (∀ p q, geodesic p q == geodesic q p)%Q →
  add_end_walk geodesic geodesic_none bearing_direction gs route
    end_lat end_lon segs = Returned (segs', end_time) →
  segs' = segs ∨ ∃ w, segs' = segs ++ [w] ∧ leg_consistent w.
Proof.
  intros Hpos Hsym. unfold add_end_walk.
  destruct (last segs) as [last_seg|]; [|intros [= <- _]; by left].
  destruct (stops_get (stops_cache gs) (to_stop last_seg)) as [last_stop|]
    eqn:Hget; [|intros [= <- _]; by left].
  intros ([t d] & Hcalc & H)%obind_Returned.
  destruct (num_ltb (Int 0) t) eqn:Hlt; [|injection H as <- _; by left].
  apply obind_Returned in H as (w & Hw & [= <- <-]).
  apply walking_segment_Returned in Hw as (-> & _ & _ & _ & _ & _ & Hd).
  apply (walking_time_whole _ _ _ _ _ _ _ _ _ Hget) in Hcalc as (-> & Hmax & Hz).
  right. exists w. split; [done|]. eexists. split; [exact Hd|].
  rewrite Hz. unfold _generate_walking_direction, stop_coords in *.
  cbn [duration_seconds distance_meters].
  by apply minutes_and_seconds.
Qed.

(** X24: with a distance that is never negative and is the same in both
    directions, every walking leg that [enhance_route] adds carries one
    direction, the seconds of which fall in the leg's last counted minute
    and the metres of which are at most 500. The enhancer's walking speed
    and the graph service's agree. *)
Theorem walking_legs_consistent (geodesic : Q * Q → Q * Q → Q)
    geodesic_none bearing_direction gs route
    (start_lat start_lon end_lat end_lon : Q) enhanced :
  (∀ p q, 0 <= geodesic p q)%Q →
  (∀ p q, geodesic p q == geodesic q p)%Q →
  Forall (λ seg, route_id seg ≠ "WALKING") (segments route) →
  enhance_route geodesic geodesic_none bearing_direction gs route
    start_lat start_lon end_lat end_lon = Returned enhanced →
  Forall (λ seg, route_id seg = "WALKING" → leg_consistent seg)
         (segments enhanced).
Proof.
  intros Hpos Hsym Hrides. unfold enhance_route.
  intros (calories & _ & H)%obind_Returned.
  apply obind_Returned in H as (walked & Hw & [= <-]). simpl.
  assert (Hkeep : ∀ segs,
            Forall (λ seg, route_id seg = "WALKING" → leg_consistent seg) segs →
            Forall (λ seg, route_id seg = "WALKING" → leg_consistent seg)
                   (_enhance_segment <$> segs)).
  { intros segs Hs. apply Forall_fmap. eapply Forall_impl; [exact Hs|].
    intros seg Hseg. exact Hseg. }
  apply Hkeep.
  assert (Hrides' : Forall (λ seg, route_id seg = "WALKING" → leg_consistent seg)
                           (segments route)).
  { eapply Forall_impl; [exact Hrides|]. by intros seg Hne ?. }
  unfold _add_walking_directions in Hw. simpl in Hw.
  destruct (segments route) as [|first rest] eqn:Hsegs.
  { injection Hw as <-. simpl. by rewrite ?Hsegs. }
  apply obind_Returned in Hw as ([segs st] & Hstart & Hw).
  apply obind_Returned in Hw as ([segs' et] & Hend & [= <-]). simpl.
  apply add_start_walk_legs in Hstart; [|done]. simpl in Hstart.
  rewrite ?Hsegs in Hstart.
  apply add_end_walk_legs in Hend; [|done..].
  assert (Hsegs_ok : Forall (λ seg, route_id seg = "WALKING" → leg_consistent seg)
                       segs).
  { destruct Hstart as [->|(w & -> & Hleg)]; [done|]. by constructor. }
  destruct Hend as [->|(w & -> & Hleg)]; [done|].
  apply Forall_app. split; [done|]. by constructor.
Qed.

Lemma flat_km_nonneg p q : (0 <= flat_km p q)%Q.
Proof.
  unfold flat_km. apply Qmult_le_0_compat; [done|].
  change 0%Q with (0 + 0)%Q. apply Qplus_le_compat; apply Qabs_nonneg.
Qed.

Lemma flat_km_sym p q : (flat_km p q == flat_km q p)%Q.
Proof.
  unfold flat_km.
  by rewrite (Qabs_Qminus p.1 q.1), (Qabs_Qminus p.2 q.2).
Qed.

Lemma walking_legs_consistent_witness :
  Forall (λ seg, route_id seg = "WALKING" → leg_consistent seg)
         (segments plaza_enhanced).
Proof.
  apply (walking_legs_consistent flat_km geopy_none due_north
           (ensure_loaded plaza_graph empty_db) plaza_route 0 0 0 (21 # 1000)
           plaza_enhanced).
  - exact flat_km_nonneg.
  - exact flat_km_sym.
  - by repeat constructor.
  - exact plaza_enhanced_found.
Defined.
